(** * LayOffers: the storage layer and the request handlers

    A shallow embedding of [shared/schema.ts], [server/storage.ts] and
    [server/routes.ts].  Tables are lists of rows in insertion order, the
    storage functions run in a state monad over the database in which a
    statement can throw, and a request handler is its [try]/[catch] block:
    a thrown statement becomes the 500 answer of the [catch] and keeps the
    writes made before it, since no handler opens a transaction. *)

From Stdlib Require Import List String Ascii ZArith QArith Bool Lia.
From Stdlib Require Import Permutation Sorted.
Import ListNotations.

Local Open Scope string_scope.
Local Open Scope Z_scope.

(** ** Schema *)

Module Schema.

Definition Id := string.
Definition Timestamp := Z.

(** [decimal(10, 2)]: the amount in hundredths. *)
Definition Decimal := Z.

Inductive userRole := RoleCandidate | RoleCompany | RoleAdmin.

Inductive projectStatus :=
  ProjectPending | ProjectApproved | ProjectActive | ProjectCompleted | ProjectCancelled.

Inductive submissionStatus :=
  SubmissionPending | SubmissionUnderReview | SubmissionApproved | SubmissionRejected.

Inductive companyStatus := CompanyPending | CompanyApproved | CompanyRejected.

Definition userRole_eqb (a b : userRole) : bool :=
  match a, b with
  | RoleCandidate, RoleCandidate | RoleCompany, RoleCompany | RoleAdmin, RoleAdmin => true
  | _, _ => false
  end.

Definition projectStatus_eqb (a b : projectStatus) : bool :=
  match a, b with
  | ProjectPending, ProjectPending | ProjectApproved, ProjectApproved
  | ProjectActive, ProjectActive | ProjectCompleted, ProjectCompleted
  | ProjectCancelled, ProjectCancelled => true
  | _, _ => false
  end.

Definition submissionStatus_eqb (a b : submissionStatus) : bool :=
  match a, b with
  | SubmissionPending, SubmissionPending | SubmissionUnderReview, SubmissionUnderReview
  | SubmissionApproved, SubmissionApproved | SubmissionRejected, SubmissionRejected => true
  | _, _ => false
  end.

Definition companyStatus_eqb (a b : companyStatus) : bool :=
  match a, b with
  | CompanyPending, CompanyPending | CompanyApproved, CompanyApproved
  | CompanyRejected, CompanyRejected => true
  | _, _ => false
  end.

(** A nullable column is an [option]; a [notNull()] column is not. *)

Record User := mkUser {
  user_id : Id;
  user_email : option string;
  user_firstName : option string;
  user_lastName : option string;
  user_profileImageUrl : option string;
  user_role : userRole;
  user_skills : option (list string);
  user_experience : option string;
  user_portfolioUrl : option string;
  user_bio : option string;
  user_createdAt : option Timestamp;
  user_updatedAt : option Timestamp
}.

Record Company := mkCompany {
  company_id : Id;
  company_userId : Id;
  company_name : string;
  company_description : option string;
  company_website : option string;
  company_logoUrl : option string;
  company_industry : option string;
  company_size : option string;
  company_status : companyStatus;
  company_createdAt : option Timestamp;
  company_updatedAt : option Timestamp
}.

Record Project := mkProject {
  project_id : Id;
  project_companyId : Id;
  project_title : string;
  project_description : string;
  project_requirements : option string;
  project_skills : option (list string);
  project_payment : Decimal;
  project_difficulty : option string;
  project_deadline : option Timestamp;
  project_maxSubmissions : option Z;
  project_status : projectStatus;
  project_createdAt : option Timestamp;
  project_updatedAt : option Timestamp
}.

Record Submission := mkSubmission {
  submission_id : Id;
  submission_projectId : Id;
  submission_candidateId : Id;
  submission_content : string;
  submission_attachmentUrl : option string;
  submission_status : submissionStatus;
  submission_feedback : option string;
  submission_createdAt : option Timestamp;
  submission_updatedAt : option Timestamp
}.

Record Rating := mkRating {
  rating_id : Id;
  rating_submissionId : Id;
  rating_candidateId : Id;
  rating_companyId : Id;
  rating_score : Z;
  rating_review : option string;
  rating_createdAt : option Timestamp
}.

(** [payments.status] is a plain [varchar], not an enum. *)
Record Payment := mkPayment {
  payment_id : Id;
  payment_submissionId : Id;
  payment_candidateId : Id;
  payment_companyId : Id;
  payment_amount : Decimal;
  payment_status : string;
  payment_paidAt : option Timestamp;
  payment_createdAt : option Timestamp
}.

Record Database := mkDatabase {
  users : list User;
  companies : list Company;
  projects : list Project;
  submissions : list Submission;
  ratings : list Rating;
  payments : list Payment
}.

Definition emptyDatabase : Database := mkDatabase [] [] [] [] [] [].

(** [integer] is a 32-bit column; [decimal(10, 2)] holds fewer than
    [10^8] units, that is fewer than [10^10] hundredths. *)
Definition int4_ok (z : Z) : bool := (- 2147483648 <=? z) && (z <=? 2147483647).
Definition decimal_10_2_ok (z : Z) : bool := (Z.abs z <? 10000000000).

(** A [text] or [varchar] value holds any string but one with the
    character U+0000, which the server refuses as an invalid byte sequence
    when it reads the parameters of a statement. *)
Fixpoint text_ok (s : string) : bool :=
  match s with
  | EmptyString => true
  | String c rest => negb (Ascii.eqb c Ascii.zero) && text_ok rest
  end.

Definition texts_ok (l : list string) : bool := forallb text_ok l.

(** An instant reaches a [timestamp] parameter as the text [toISOString]
    gives for it, which the server reads for the years 1 to 9999: from
    0001-01-01T00:00:00.000Z to 9999-12-31T23:59:59.999Z, in milliseconds
    of the epoch.  Outside of them [toISOString] writes a year the server
    does not read, or throws. *)
Definition timestamp_ok (t : Timestamp) : bool :=
  (- 62135596800000 <=? t) && (t <=? 253402300799999).

End Schema.

Export Schema.

(** ** Values of a request body

    A key of a JSON body is absent ([undefined] after destructuring), [null]
    or holds a value.  The model reads each key at the type the storage
    interface declares for it. *)

Inductive Field (A : Type) := Undefined | Null | Value (a : A).
Arguments Undefined {A}.
Arguments Null {A}.
Arguments Value {A} a.

(** What reaches a nullable column from a value that is not [undefined]. *)
Definition nullable {A} (f : Field A) : option A :=
  match f with Value a => Some a | _ => None end.

(** [.set({...})] leaves out the keys whose value is [undefined]. *)
Definition set_nullable {A} (f : Field A) (old : option A) : option A :=
  match f with Undefined => old | Null => None | Value a => Some a end.

(** JavaScript truthiness of a boolean and of a number. *)
Definition truthy_bool (f : Field bool) : bool :=
  match f with Value b => b | _ => false end.

Definition truthy_num (f : Field Z) : bool :=
  match f with Value z => negb (z =? 0) | _ => false end.

(** ** The storage monad *)

Inductive DbError :=
| NotNullViolation (column : string)
| UniqueViolation (constraint : string)
| ForeignKeyViolation (constraint : string)
| NumericOutOfRange (column : string)
| InvalidByteSequence (table : string)
| DatetimeOutOfRange (column : string).

Inductive Outcome (A : Type) :=
| Returned (a : A)
| Thrown (e : DbError).
Arguments Returned {A} a.
Arguments Thrown {A} e.

Definition Storage (A : Type) := Database -> Outcome A * Database.

Definition ret {A} (a : A) : Storage A := fun db => (Returned a, db).

Definition throw {A} (e : DbError) : Storage A := fun db => (Thrown e, db).

Definition bind {A B} (m : Storage A) (k : A -> Storage B) : Storage B :=
  fun db =>
    match m db with
    | (Returned a, db') => k a db'
    | (Thrown e, db') => (Thrown e, db')
    end.

Notation "x <- m ;; k" := (bind m (fun x => k))
  (at level 61, m at next level, right associativity).
Notation "m ;;; k" := (bind m (fun _ => k))
  (at level 61, right associativity).

Definition query {A} (f : Database -> A) : Storage A := fun db => (Returned (f db), db).

Definition guard (ok : bool) (e : DbError) : Storage unit :=
  if ok then ret tt else throw e.

(** ** [server/storage.ts]: class [DatabaseStorage] *)

Module DatabaseStorage.

(** *** Argument types

    [Partial<User>] as far as a caller of [routes.ts] can fill it: the key,
    the unique e-mail, the role and the profile columns.  The insert types
    are those of [createInsertSchema(...).omit(...)]; a [notNull()] column
    is a [Field] all the same, because the handlers pass on what the body
    holds without validating it. *)

Record PartialUser := mkPartialUser {
  pu_id : Field Id;
  pu_email : Field string;
  pu_firstName : Field string;
  pu_lastName : Field string;
  pu_profileImageUrl : Field string;
  pu_role : Field userRole;
  pu_skills : Field (list string);
  pu_experience : Field string;
  pu_portfolioUrl : Field string;
  pu_bio : Field string
}.

Definition noUserUpdates : PartialUser :=
  mkPartialUser Undefined Undefined Undefined Undefined Undefined
                Undefined Undefined Undefined Undefined Undefined.

Record PartialCompany := mkPartialCompany {
  pc_name : Field string;
  pc_description : Field string;
  pc_website : Field string;
  pc_logoUrl : Field string;
  pc_industry : Field string;
  pc_size : Field string;
  pc_status : Field companyStatus
}.

Record PartialProject := mkPartialProject {
  pp_title : Field string;
  pp_description : Field string;
  pp_requirements : Field string;
  pp_skills : Field (list string);
  pp_payment : Field Decimal;
  pp_difficulty : Field string;
  pp_deadline : Field Timestamp;
  pp_maxSubmissions : Field Z;
  pp_status : Field projectStatus
}.

Record PartialSubmission := mkPartialSubmission {
  ps_content : Field string;
  ps_attachmentUrl : Field string;
  ps_status : Field submissionStatus;
  ps_feedback : Field string
}.

Record InsertCompany := mkInsertCompany {
  ic_userId : Id;
  ic_name : Field string;
  ic_description : Field string;
  ic_website : Field string;
  ic_logoUrl : Field string;
  ic_industry : Field string;
  ic_size : Field string;
  ic_status : Field companyStatus
}.

Record InsertProject := mkInsertProject {
  ip_companyId : Id;
  ip_title : Field string;
  ip_description : Field string;
  ip_requirements : Field string;
  ip_skills : Field (list string);
  ip_payment : Field Decimal;
  ip_difficulty : Field string;
  ip_deadline : Field Timestamp;
  ip_maxSubmissions : Field Z;
  ip_status : Field projectStatus
}.

Record InsertSubmission := mkInsertSubmission {
  is_projectId : Id;
  is_candidateId : Id;
  is_content : Field string;
  is_attachmentUrl : Field string;
  is_status : Field submissionStatus;
  is_feedback : Field string
}.

Record InsertRating := mkInsertRating {
  ir_submissionId : Id;
  ir_candidateId : Id;
  ir_companyId : Id;
  ir_score : Field Z;
  ir_review : Field string
}.

Record InsertPayment := mkInsertPayment {
  ipay_submissionId : Id;
  ipay_candidateId : Id;
  ipay_companyId : Id;
  ipay_amount : Field Decimal;
  ipay_status : Field string;
  ipay_paidAt : Field Timestamp
}.

(** *** Constraints of the schema *)

Definition has_user (id : Id) (db : Database) : bool :=
  existsb (fun u => String.eqb (user_id u) id) (users db).
Definition has_company (id : Id) (db : Database) : bool :=
  existsb (fun c => String.eqb (company_id c) id) (companies db).
Definition has_project (id : Id) (db : Database) : bool :=
  existsb (fun p => String.eqb (project_id p) id) (projects db).
Definition has_submission (id : Id) (db : Database) : bool :=
  existsb (fun s => String.eqb (submission_id s) id) (submissions db).
Definition has_rating (id : Id) (db : Database) : bool :=
  existsb (fun r => String.eqb (rating_id r) id) (ratings db).
Definition has_payment (id : Id) (db : Database) : bool :=
  existsb (fun p => String.eqb (payment_id p) id) (payments db).

(** A value for a [notNull()] column: the column default stands in for
    [undefined], [null] is refused, and so is [undefined] without default. *)
Definition required {A} (column : string) (default : option A) (f : Field A) : Storage A :=
  match f, default with
  | Value a, _ => ret a
  | Undefined, Some d => ret d
  | _, _ => throw (NotNullViolation column)
  end.

(** A value for a nullable column with a default. *)
Definition defaulted {A} (default : A) (f : Field A) : option A :=
  match f with Undefined => Some default | Null => None | Value a => Some a end.

Definition in_range (column : string) (ok : Z -> bool) (f : Field Z) : Storage unit :=
  match f with
  | Value z => guard (ok z) (NumericOutOfRange column)
  | _ => ret tt
  end.

(** Whether the server can read what a key holds, if it holds a value. *)
Definition field_ok {A} (ok : A -> bool) (f : Field A) : bool :=
  match f with Value a => ok a | _ => true end.

(** The parameters of a statement are read before it runs, so a string or
    an instant the server cannot read makes the statement throw whether or
    not a row matches it.  The instants that the clock of the server
    supplies, [now] below, are ones it reads. *)
Definition readable_user (u : PartialUser) : bool :=
  field_ok text_ok (pu_id u) && field_ok text_ok (pu_email u)
  && field_ok text_ok (pu_firstName u) && field_ok text_ok (pu_lastName u)
  && field_ok text_ok (pu_profileImageUrl u) && field_ok texts_ok (pu_skills u)
  && field_ok text_ok (pu_experience u) && field_ok text_ok (pu_portfolioUrl u)
  && field_ok text_ok (pu_bio u).

Definition readable_company_updates (c : PartialCompany) : bool :=
  field_ok text_ok (pc_name c) && field_ok text_ok (pc_description c)
  && field_ok text_ok (pc_website c) && field_ok text_ok (pc_logoUrl c)
  && field_ok text_ok (pc_industry c) && field_ok text_ok (pc_size c).

Definition readable_company (c : InsertCompany) : bool :=
  field_ok text_ok (ic_name c) && field_ok text_ok (ic_description c)
  && field_ok text_ok (ic_website c) && field_ok text_ok (ic_logoUrl c)
  && field_ok text_ok (ic_industry c) && field_ok text_ok (ic_size c).

Definition readable_project_updates (p : PartialProject) : bool :=
  field_ok text_ok (pp_title p) && field_ok text_ok (pp_description p)
  && field_ok text_ok (pp_requirements p) && field_ok texts_ok (pp_skills p)
  && field_ok text_ok (pp_difficulty p).

Definition readable_project (p : InsertProject) : bool :=
  field_ok text_ok (ip_title p) && field_ok text_ok (ip_description p)
  && field_ok text_ok (ip_requirements p) && field_ok texts_ok (ip_skills p)
  && field_ok text_ok (ip_difficulty p).

Definition readable_submission_updates (s : PartialSubmission) : bool :=
  field_ok text_ok (ps_content s) && field_ok text_ok (ps_attachmentUrl s)
  && field_ok text_ok (ps_feedback s).

Definition readable_submission (s : InsertSubmission) : bool :=
  field_ok text_ok (is_content s) && field_ok text_ok (is_attachmentUrl s)
  && field_ok text_ok (is_feedback s).

(** A [notNull()] column under [.set({...})]: [null] is refused. *)
Definition set_required {A} (column : string) (f : Field A) (old : A) : Storage A :=
  match f with
  | Undefined => ret old
  | Null => throw (NotNullViolation column)
  | Value a => ret a
  end.

(** *** [orderBy(desc(createdAt))]

    A descending order puts [NULL] first.  Rows with the same stamp come in
    an order the database is free to choose, and may choose differently
    from one query to the next; the model keeps them in the order of the
    table.  What is proved of an ordered list below is therefore stated of
    an arrangement newest first, not of this one. *)

Definition newer_first (a b : option Timestamp) : bool :=
  match a, b with
  | None, _ => true
  | Some _, None => false
  | Some x, Some y => y <=? x
  end.

Fixpoint insert_desc {A} (stamp : A -> option Timestamp) (a : A) (l : list A)
  : list A :=
  match l with
  | [] => [a]
  | b :: rest =>
      if newer_first (stamp a) (stamp b) then a :: b :: rest
      else b :: insert_desc stamp a rest
  end.

Definition order_desc {A} (stamp : A -> option Timestamp) (l : list A) : list A :=
  fold_right (insert_desc stamp) [] l.

(** [.limit(n)] *)
Definition limit {A} (n : nat) (l : list A) : list A := firstn n l.

(** *** User operations *)

Definition getUser (id : Id) : Storage (option User) :=
  query (fun db => find (fun u => String.eqb (user_id u) id) (users db)).

(** Whether a row of another table points at the user. *)
Definition user_referenced (id : Id) (db : Database) : bool :=
  existsb (fun c => String.eqb (company_userId c) id) (companies db)
  || existsb (fun s => String.eqb (submission_candidateId s) id) (submissions db)
  || existsb (fun r => String.eqb (rating_candidateId r) id) (ratings db)
  || existsb (fun p => String.eqb (payment_candidateId p) id) (payments db).

Definition email_taken (id : Id) (e : string) (db : Database) : bool :=
  existsb (fun u => negb (String.eqb (user_id u) id)
                    && match user_email u with
                       | Some e' => String.eqb e' e
                       | None => false
                       end) (users db).

Definition user_key_checks (id : Id) (updates : PartialUser) : Storage unit :=
  fun db =>
    match pu_id updates with
    | Value id' =>
        if String.eqb id' id then (Returned tt, db)
        else if has_user id' db then (Thrown (UniqueViolation "users_pkey"), db)
        else if user_referenced id db then (Thrown (ForeignKeyViolation "user_id"), db)
        else (Returned tt, db)
    | Null => (Thrown (NotNullViolation "id"), db)
    | Undefined => (Returned tt, db)
    end.

Definition user_email_checks (id : Id) (updates : PartialUser) : Storage unit :=
  fun db =>
    match pu_email updates with
    | Value e => if email_taken id e db
                 then (Thrown (UniqueViolation "users_email_unique"), db)
                 else (Returned tt, db)
    | _ => (Returned tt, db)
    end.

Definition set_user (updates : PartialUser) (now : Timestamp) (u : User) : User :=
  mkUser (match pu_id updates with Value i => i | _ => user_id u end)
         (set_nullable (pu_email updates) (user_email u))
         (set_nullable (pu_firstName updates) (user_firstName u))
         (set_nullable (pu_lastName updates) (user_lastName u))
         (set_nullable (pu_profileImageUrl updates) (user_profileImageUrl u))
         (match pu_role updates with Value r => r | _ => user_role u end)
         (set_nullable (pu_skills updates) (user_skills u))
         (set_nullable (pu_experience updates) (user_experience u))
         (set_nullable (pu_portfolioUrl updates) (user_portfolioUrl u))
         (set_nullable (pu_bio updates) (user_bio u))
         (user_createdAt u)
         (Some now).

Definition update_where {A} (sel : A -> bool) (f : A -> A) (l : list A) : list A :=
  map (fun a => if sel a then f a else a) l.

Definition put_users (l : list User) : Storage unit :=
  fun db => (Returned tt,
             mkDatabase l (companies db) (projects db) (submissions db)
                        (ratings db) (payments db)).

(** [db.update(users).set({ ...updates, updatedAt: new Date() })
      .where(eq(users.id, id)).returning()]: the constraints are checked on
    the rows the statement touches, so a statement that matches no row
    returns [undefined] without throwing, unless the server cannot read
    its parameters. *)
Definition updateUserProfile (id : Id) (updates : PartialUser) (now : Timestamp)
  : Storage (option User) :=
  guard (readable_user updates) (InvalidByteSequence "users") ;;;
  target <- getUser id ;;
  match target with
  | None => ret None
  | Some u =>
      user_key_checks id updates ;;;
      match pu_role updates with
      | Null => throw (NotNullViolation "role")
      | _ =>
          user_email_checks id updates ;;;
          rows <- query users ;;
          put_users (update_where (fun u' => String.eqb (user_id u') id)
                                  (set_user updates now) rows) ;;;
          ret (Some (set_user updates now u))
      end
  end.

(** *** Company operations *)

Definition getCompany (id : Id) : Storage (option Company) :=
  query (fun db => find (fun c => String.eqb (company_id c) id) (companies db)).

Definition getCompanyByUserId (userId : Id) : Storage (option Company) :=
  query (fun db => find (fun c => String.eqb (company_userId c) userId) (companies db)).

Definition put_companies (l : list Company) : Storage unit :=
  fun db => (Returned tt,
             mkDatabase (users db) l (projects db) (submissions db)
                        (ratings db) (payments db)).

(** [id] is the value [gen_random_uuid()] draws for the new row and [now]
    the one of [defaultNow()]. *)
Definition createCompany (id : Id) (now : Timestamp) (company : InsertCompany)
  : Storage Company :=
  guard (readable_company company) (InvalidByteSequence "companies") ;;;
  name <- required "name" None (ic_name company) ;;
  status <- required "status" (Some CompanyPending) (ic_status company) ;;
  taken <- query (has_company id) ;;
  guard (negb taken) (UniqueViolation "companies_pkey") ;;;
  owner <- query (has_user (ic_userId company)) ;;
  guard owner (ForeignKeyViolation "companies_user_id_users_id_fk") ;;;
  let created :=
    mkCompany id (ic_userId company) name
              (nullable (ic_description company)) (nullable (ic_website company))
              (nullable (ic_logoUrl company)) (nullable (ic_industry company))
              (nullable (ic_size company)) status (Some now) (Some now) in
  rows <- query companies ;;
  put_companies (rows ++ [created]) ;;;
  ret created.

Definition set_company (updates : PartialCompany) (now : Timestamp) (c : Company)
  : Company :=
  mkCompany (company_id c) (company_userId c)
            (match pc_name updates with Value n => n | _ => company_name c end)
            (set_nullable (pc_description updates) (company_description c))
            (set_nullable (pc_website updates) (company_website c))
            (set_nullable (pc_logoUrl updates) (company_logoUrl c))
            (set_nullable (pc_industry updates) (company_industry c))
            (set_nullable (pc_size updates) (company_size c))
            (match pc_status updates with Value s => s | _ => company_status c end)
            (company_createdAt c) (Some now).

Definition updateCompany (id : Id) (updates : PartialCompany) (now : Timestamp)
  : Storage (option Company) :=
  guard (readable_company_updates updates) (InvalidByteSequence "companies") ;;;
  target <- getCompany id ;;
  match target with
  | None => ret None
  | Some c =>
      set_required "name" (pc_name updates) (company_name c) ;;;
      set_required "status" (pc_status updates) (company_status c) ;;;
      rows <- query companies ;;
      put_companies (update_where (fun c' => String.eqb (company_id c') id)
                                  (set_company updates now) rows) ;;;
      ret (Some (set_company updates now c))
  end.

Definition getPendingCompanies : Storage (list Company) :=
  query (fun db =>
    order_desc company_createdAt
      (filter (fun c => companyStatus_eqb (company_status c) CompanyPending)
              (companies db))).

Definition getAllCompanies : Storage (list Company) :=
  query (fun db => order_desc company_createdAt (companies db)).

(** *** Project operations *)

Definition getProject (id : Id) : Storage (option Project) :=
  query (fun db => find (fun p => String.eqb (project_id p) id) (projects db)).

Definition getProjectsByCompany (companyId : Id) : Storage (list Project) :=
  query (fun db =>
    order_desc project_createdAt
      (filter (fun p => String.eqb (project_companyId p) companyId) (projects db))).

Definition getActiveProjects : Storage (list Project) :=
  query (fun db =>
    order_desc project_createdAt
      (filter (fun p => projectStatus_eqb (project_status p) ProjectActive)
              (projects db))).

Definition getFeaturedProjects : Storage (list Project) :=
  query (fun db =>
    limit 6
      (order_desc project_createdAt
         (filter (fun p => projectStatus_eqb (project_status p) ProjectActive)
                 (projects db)))).

Definition getPendingProjects : Storage (list Project) :=
  query (fun db =>
    order_desc project_createdAt
      (filter (fun p => projectStatus_eqb (project_status p) ProjectPending)
              (projects db))).

Definition put_projects (l : list Project) : Storage unit :=
  fun db => (Returned tt,
             mkDatabase (users db) (companies db) l (submissions db)
                        (ratings db) (payments db)).

Definition createProject (id : Id) (now : Timestamp) (project : InsertProject)
  : Storage Project :=
  guard (readable_project project) (InvalidByteSequence "projects") ;;;
  guard (field_ok timestamp_ok (ip_deadline project)) (DatetimeOutOfRange "deadline") ;;;
  in_range "payment" decimal_10_2_ok (ip_payment project) ;;;
  in_range "max_submissions" int4_ok (ip_maxSubmissions project) ;;;
  title <- required "title" None (ip_title project) ;;
  description <- required "description" None (ip_description project) ;;
  payment <- required "payment" None (ip_payment project) ;;
  status <- required "status" (Some ProjectPending) (ip_status project) ;;
  taken <- query (has_project id) ;;
  guard (negb taken) (UniqueViolation "projects_pkey") ;;;
  owner <- query (has_company (ip_companyId project)) ;;
  guard owner (ForeignKeyViolation "projects_company_id_companies_id_fk") ;;;
  let created :=
    mkProject id (ip_companyId project) title description
              (nullable (ip_requirements project)) (nullable (ip_skills project))
              payment (defaulted "intermediate" (ip_difficulty project))
              (nullable (ip_deadline project))
              (defaulted 10 (ip_maxSubmissions project))
              status (Some now) (Some now) in
  rows <- query projects ;;
  put_projects (rows ++ [created]) ;;;
  ret created.

Definition set_project (updates : PartialProject) (now : Timestamp) (p : Project)
  : Project :=
  mkProject (project_id p) (project_companyId p)
            (match pp_title updates with Value t => t | _ => project_title p end)
            (match pp_description updates with Value d => d | _ => project_description p end)
            (set_nullable (pp_requirements updates) (project_requirements p))
            (set_nullable (pp_skills updates) (project_skills p))
            (match pp_payment updates with Value a => a | _ => project_payment p end)
            (set_nullable (pp_difficulty updates) (project_difficulty p))
            (set_nullable (pp_deadline updates) (project_deadline p))
            (set_nullable (pp_maxSubmissions updates) (project_maxSubmissions p))
            (match pp_status updates with Value s => s | _ => project_status p end)
            (project_createdAt p) (Some now).

Definition updateProject (id : Id) (updates : PartialProject) (now : Timestamp)
  : Storage (option Project) :=
  guard (readable_project_updates updates) (InvalidByteSequence "projects") ;;;
  guard (field_ok timestamp_ok (pp_deadline updates)) (DatetimeOutOfRange "deadline") ;;;
  target <- getProject id ;;
  match target with
  | None => ret None
  | Some p =>
      in_range "payment" decimal_10_2_ok (pp_payment updates) ;;;
      in_range "max_submissions" int4_ok (pp_maxSubmissions updates) ;;;
      set_required "title" (pp_title updates) (project_title p) ;;;
      set_required "description" (pp_description updates) (project_description p) ;;;
      set_required "payment" (pp_payment updates) (project_payment p) ;;;
      set_required "status" (pp_status updates) (project_status p) ;;;
      rows <- query projects ;;
      put_projects (update_where (fun p' => String.eqb (project_id p') id)
                                 (set_project updates now) rows) ;;;
      ret (Some (set_project updates now p))
  end.

(** *** Submission operations *)

Definition getSubmission (id : Id) : Storage (option Submission) :=
  query (fun db => find (fun s => String.eqb (submission_id s) id) (submissions db)).

Definition getSubmissionsByProject (projectId : Id) : Storage (list Submission) :=
  query (fun db =>
    order_desc submission_createdAt
      (filter (fun s => String.eqb (submission_projectId s) projectId)
              (submissions db))).

Definition getSubmissionsByCandidate (candidateId : Id) : Storage (list Submission) :=
  query (fun db =>
    order_desc submission_createdAt
      (filter (fun s => String.eqb (submission_candidateId s) candidateId)
              (submissions db))).

Definition getSubmissionByProjectAndCandidate (projectId candidateId : Id)
  : Storage (option Submission) :=
  query (fun db => find (fun s => String.eqb (submission_projectId s) projectId
                                  && String.eqb (submission_candidateId s) candidateId)
                        (submissions db)).

Definition put_submissions (l : list Submission) : Storage unit :=
  fun db => (Returned tt,
             mkDatabase (users db) (companies db) (projects db) l
                        (ratings db) (payments db)).

Definition createSubmission (id : Id) (now : Timestamp) (submission : InsertSubmission)
  : Storage Submission :=
  guard (readable_submission submission) (InvalidByteSequence "submissions") ;;;
  content <- required "content" None (is_content submission) ;;
  status <- required "status" (Some SubmissionPending) (is_status submission) ;;
  taken <- query (has_submission id) ;;
  guard (negb taken) (UniqueViolation "submissions_pkey") ;;;
  project <- query (has_project (is_projectId submission)) ;;
  guard project (ForeignKeyViolation "submissions_project_id_projects_id_fk") ;;;
  candidate <- query (has_user (is_candidateId submission)) ;;
  guard candidate (ForeignKeyViolation "submissions_candidate_id_users_id_fk") ;;;
  let created :=
    mkSubmission id (is_projectId submission) (is_candidateId submission) content
                 (nullable (is_attachmentUrl submission)) status
                 (nullable (is_feedback submission)) (Some now) (Some now) in
  rows <- query submissions ;;
  put_submissions (rows ++ [created]) ;;;
  ret created.

Definition set_submission (updates : PartialSubmission) (now : Timestamp)
    (s : Submission) : Submission :=
  mkSubmission (submission_id s) (submission_projectId s) (submission_candidateId s)
               (match ps_content updates with Value c => c | _ => submission_content s end)
               (set_nullable (ps_attachmentUrl updates) (submission_attachmentUrl s))
               (match ps_status updates with Value st => st | _ => submission_status s end)
               (set_nullable (ps_feedback updates) (submission_feedback s))
               (submission_createdAt s) (Some now).

Definition updateSubmission (id : Id) (updates : PartialSubmission) (now : Timestamp)
  : Storage (option Submission) :=
  guard (readable_submission_updates updates) (InvalidByteSequence "submissions") ;;;
  target <- getSubmission id ;;
  match target with
  | None => ret None
  | Some s =>
      set_required "content" (ps_content updates) (submission_content s) ;;;
      set_required "status" (ps_status updates) (submission_status s) ;;;
      rows <- query submissions ;;
      put_submissions (update_where (fun s' => String.eqb (submission_id s') id)
                                    (set_submission updates now) rows) ;;;
      ret (Some (set_submission updates now s))
  end.

(** *** Rating operations *)

Definition put_ratings (l : list Rating) : Storage unit :=
  fun db => (Returned tt,
             mkDatabase (users db) (companies db) (projects db) (submissions db)
                        l (payments db)).

(** The only constraints on [score] are those of the column type
    [integer("score").notNull()]. *)
Definition createRating (id : Id) (now : Timestamp) (rating : InsertRating)
  : Storage Rating :=
  guard (field_ok text_ok (ir_review rating)) (InvalidByteSequence "ratings") ;;;
  in_range "score" int4_ok (ir_score rating) ;;;
  score <- required "score" None (ir_score rating) ;;
  taken <- query (has_rating id) ;;
  guard (negb taken) (UniqueViolation "ratings_pkey") ;;;
  submission <- query (has_submission (ir_submissionId rating)) ;;
  guard submission (ForeignKeyViolation "ratings_submission_id_submissions_id_fk") ;;;
  candidate <- query (has_user (ir_candidateId rating)) ;;
  guard candidate (ForeignKeyViolation "ratings_candidate_id_users_id_fk") ;;;
  company <- query (has_company (ir_companyId rating)) ;;
  guard company (ForeignKeyViolation "ratings_company_id_companies_id_fk") ;;;
  let created :=
    mkRating id (ir_submissionId rating) (ir_candidateId rating) (ir_companyId rating)
             score (nullable (ir_review rating)) (Some now) in
  rows <- query ratings ;;
  put_ratings (rows ++ [created]) ;;;
  ret created.

Definition getRatingsByCandidate (candidateId : Id) : Storage (list Rating) :=
  query (fun db =>
    order_desc rating_createdAt
      (filter (fun r => String.eqb (rating_candidateId r) candidateId)
              (ratings db))).

(** *** Payment operations *)

Definition put_payments (l : list Payment) : Storage unit :=
  fun db => (Returned tt,
             mkDatabase (users db) (companies db) (projects db) (submissions db)
                        (ratings db) l).

Definition createPayment (id : Id) (now : Timestamp) (payment : InsertPayment)
  : Storage Payment :=
  guard (field_ok text_ok (ipay_status payment)) (InvalidByteSequence "payments") ;;;
  guard (field_ok timestamp_ok (ipay_paidAt payment)) (DatetimeOutOfRange "paid_at") ;;;
  in_range "amount" decimal_10_2_ok (ipay_amount payment) ;;;
  amount <- required "amount" None (ipay_amount payment) ;;
  status <- required "status" (Some "pending") (ipay_status payment) ;;
  taken <- query (has_payment id) ;;
  guard (negb taken) (UniqueViolation "payments_pkey") ;;;
  submission <- query (has_submission (ipay_submissionId payment)) ;;
  guard submission (ForeignKeyViolation "payments_submission_id_submissions_id_fk") ;;;
  candidate <- query (has_user (ipay_candidateId payment)) ;;
  guard candidate (ForeignKeyViolation "payments_candidate_id_users_id_fk") ;;;
  company <- query (has_company (ipay_companyId payment)) ;;
  guard company (ForeignKeyViolation "payments_company_id_companies_id_fk") ;;;
  let created :=
    mkPayment id (ipay_submissionId payment) (ipay_candidateId payment)
              (ipay_companyId payment) amount status
              (nullable (ipay_paidAt payment)) (Some now) in
  rows <- query payments ;;
  put_payments (rows ++ [created]) ;;;
  ret created.

(** *** Stats *)

Record CandidateStats := mkCandidateStats {
  totalSubmissions : Z;
  completedProjects : Z;
  totalEarnings : Decimal;
  averageRating : Q
}.

Definition count {A} (sel : A -> bool) (l : list A) : Z :=
  Z.of_nat (List.length (filter sel l)).

(** [SUM(amount)] and [AVG(score)] are [NULL] over no row. *)
Definition sql_sum (l : list Z) : option Z :=
  match l with [] => None | _ => Some (fold_right Z.add 0 l) end.

Definition sql_avg (l : list Z) : option Q :=
  match l with
  | [] => None
  | _ => Some (Qmake (fold_right Z.add 0 l) (Pos.of_nat (List.length l)))
  end.

Definition coalesce {A} (v : option A) (d : A) : A :=
  match v with Some a => a | None => d end.

(** An aggregate without [GROUP BY] always yields its one row, so [?.]
    finds it, and [COALESCE(..., 0)] makes its columns numbers; [|| 0]
    can only replace a zero by zero, and [Number(...)] reads the number
    back.  The average is kept as the exact rational where the code holds
    its nearest double. *)
Definition getCandidateStats (candidateId : Id) : Storage CandidateStats :=
  query (fun db =>
    let submissionCount :=
      count (fun s => String.eqb (submission_candidateId s) candidateId)
            (submissions db) in
    let completedCount :=
      count (fun s => String.eqb (submission_candidateId s) candidateId
                      && submissionStatus_eqb (submission_status s) SubmissionApproved)
            (submissions db) in
    let earningsSum :=
      coalesce (sql_sum (map payment_amount
                  (filter (fun p => String.eqb (payment_candidateId p) candidateId
                                    && String.eqb (payment_status p) "paid")
                          (payments db)))) 0 in
    let avgRating :=
      coalesce (sql_avg (map rating_score
                  (filter (fun r => String.eqb (rating_candidateId r) candidateId)
                          (ratings db)))) (0 # 1)%Q in
    mkCandidateStats submissionCount completedCount earningsSum avgRating).

(** *** [upsertUser]

    [db.insert(users).values(userData).onConflictDoUpdate({ target: users.id,
    set: { ...userData, updatedAt: new Date() } }).returning()].  The row
    proposed for insertion takes the column defaults for the keys that are
    [undefined] and has to pass the [NOT NULL] constraints whichever way the
    statement goes; a row with the same key turns the insert into the
    update, and the unique e-mail is checked against the other rows in both
    cases.  [uuid] is the value of [gen_random_uuid()]. *)

Record UpsertUser := mkUpsertUser {
  uu_id : Field Id;
  uu_email : Field string;
  uu_firstName : Field string;
  uu_lastName : Field string;
  uu_profileImageUrl : Field string;
  uu_role : Field userRole;
  uu_skills : Field (list string);
  uu_experience : Field string;
  uu_portfolioUrl : Field string;
  uu_bio : Field string;
  uu_createdAt : Field Timestamp;
  uu_updatedAt : Field Timestamp
}.

Definition insert_user (id : Id) (role : userRole) (now : Timestamp)
    (userData : UpsertUser) : User :=
  mkUser id (nullable (uu_email userData)) (nullable (uu_firstName userData))
         (nullable (uu_lastName userData)) (nullable (uu_profileImageUrl userData))
         role (nullable (uu_skills userData)) (nullable (uu_experience userData))
         (nullable (uu_portfolioUrl userData)) (nullable (uu_bio userData))
         (defaulted now (uu_createdAt userData))
         (defaulted now (uu_updatedAt userData)).

Definition conflict_user (now : Timestamp) (userData : UpsertUser) (u : User) : User :=
  mkUser (user_id u)
         (set_nullable (uu_email userData) (user_email u))
         (set_nullable (uu_firstName userData) (user_firstName u))
         (set_nullable (uu_lastName userData) (user_lastName u))
         (set_nullable (uu_profileImageUrl userData) (user_profileImageUrl u))
         (match uu_role userData with Value r => r | _ => user_role u end)
         (set_nullable (uu_skills userData) (user_skills u))
         (set_nullable (uu_experience userData) (user_experience u))
         (set_nullable (uu_portfolioUrl userData) (user_portfolioUrl u))
         (set_nullable (uu_bio userData) (user_bio u))
         (set_nullable (uu_createdAt userData) (user_createdAt u))
         (Some now).

Definition readable_user_data (u : UpsertUser) : bool :=
  field_ok text_ok (uu_id u) && field_ok text_ok (uu_email u)
  && field_ok text_ok (uu_firstName u) && field_ok text_ok (uu_lastName u)
  && field_ok text_ok (uu_profileImageUrl u) && field_ok texts_ok (uu_skills u)
  && field_ok text_ok (uu_experience u) && field_ok text_ok (uu_portfolioUrl u)
  && field_ok text_ok (uu_bio u).

Definition upsertUser (uuid : Id) (now : Timestamp) (userData : UpsertUser)
  : Storage User :=
  guard (readable_user_data userData) (InvalidByteSequence "users") ;;;
  guard (field_ok timestamp_ok (uu_createdAt userData)
         && field_ok timestamp_ok (uu_updatedAt userData))
        (DatetimeOutOfRange "created_at") ;;;
  id <- required "id" (Some uuid) (uu_id userData) ;;
  role <- required "role" (Some RoleCandidate) (uu_role userData) ;;
  taken <- query (fun db => match uu_email userData with
                            | Value e => email_taken id e db
                            | _ => false
                            end) ;;
  guard (negb taken) (UniqueViolation "users_email_unique") ;;;
  existing <- getUser id ;;
  rows <- query users ;;
  match existing with
  | None =>
      put_users (rows ++ [insert_user id role now userData]) ;;;
      ret (insert_user id role now userData)
  | Some u =>
      put_users (update_where (fun u' => String.eqb (user_id u') id)
                              (conflict_user now userData) rows) ;;;
      ret (conflict_user now userData u)
  end.

(** *** More payment operations *)

Definition getPaymentsByCandidate (candidateId : Id) : Storage (list Payment) :=
  query (fun db =>
    order_desc payment_createdAt
      (filter (fun p => String.eqb (payment_candidateId p) candidateId)
              (payments db))).

Definition getRecentPayments (n : nat) : Storage (list Payment) :=
  query (fun db => limit n (order_desc payment_createdAt (payments db))).

(** *** More stats *)

Record AdminStats := mkAdminStats {
  totalUsers : Z;
  totalCompanies : Z;
  totalProjects : Z;
  pendingCompanies : Z;
  pendingProjects : Z;
  totalPayouts : Decimal
}.

Definition paid (p : Payment) : bool := String.eqb (payment_status p) "paid".

Definition getAdminStats : Storage AdminStats :=
  query (fun db =>
    mkAdminStats
      (count (fun _ => true) (users db))
      (count (fun _ => true) (companies db))
      (count (fun _ => true) (projects db))
      (count (fun c => companyStatus_eqb (company_status c) CompanyPending)
             (companies db))
      (count (fun p => projectStatus_eqb (project_status p) ProjectPending)
             (projects db))
      (coalesce (sql_sum (map payment_amount (filter paid (payments db)))) 0)).

End DatabaseStorage.

(** ** [server/routes.ts] *)

Module Routes.

Import DatabaseStorage.

Inductive Payload :=
| JUser (user : option User)
| JCompany (company : Company)
| JProject (project : Project)
| JSubmission (submission : Submission)
| JStats (stats : CandidateStats)
| JSuccess.

(** [res.json(payload)] answers 200; [res.status(code).json({ message })]
    answers [code]. *)
Inductive Response :=
| Json (payload : Payload)
| Status (code : Z) (message : string).

Definition Handler := Database -> Response * Database.

(** [try { ... } catch (error) { res.status(500).json({ message }) }] *)
Definition try_catch (body : Storage Response) (message : string) : Handler :=
  fun db =>
    match body db with
    | (Returned response, db') => (response, db')
    | (Thrown _, db') => (Status 500 message, db')
    end.

(** Every handler below runs behind [isAuthenticated], which belongs to the
    authentication collaborator; [userId] is the [req.user.claims.sub] it
    leaves on the request. *)

(** *** Role-based authorization middleware *)

Definition requireRole (allowedRoles : list userRole) (userId : Id) (next : Handler)
  : Handler :=
  fun db =>
    if String.eqb userId "" then (Status 401 "Unauthorized", db)
    else
      match getUser userId db with
      | (Returned None, db') => (Status 401 "User not found", db')
      | (Returned (Some user), db') =>
          if existsb (userRole_eqb (user_role user)) allowedRoles
          then next db'
          else (Status 403 "Insufficient permissions", db')
      | (Thrown _, db') => (Status 500 "Authorization error", db')
      end.

(** *** [PATCH /api/profile] *)

Definition patch_profile (userId : Id) (body : PartialUser) (now : Timestamp)
  : Handler :=
  try_catch
    (user <- updateUserProfile userId
               (mkPartialUser Undefined Undefined
                              (pu_firstName body) (pu_lastName body)
                              Undefined Undefined
                              (pu_skills body) (pu_experience body)
                              (pu_portfolioUrl body) (pu_bio body))
               now ;;
     ret (Json (JUser user)))
    "Failed to update profile".

(** *** [POST /api/projects/:id/submissions] *)

Record SubmissionBody := mkSubmissionBody {
  sb_content : Field string;
  sb_attachmentUrl : Field string
}.

Definition post_project_submissions (userId projectId : Id) (body : SubmissionBody)
    (uuid : Id) (now : Timestamp) : Handler :=
  try_catch
    (project <- getProject projectId ;;
     match project with
     | None => ret (Status 400 "Project not available for submissions")
     | Some project =>
         if negb (projectStatus_eqb (project_status project) ProjectActive)
         then ret (Status 400 "Project not available for submissions")
         else
           existingSubmission <- getSubmissionByProjectAndCandidate projectId userId ;;
           match existingSubmission with
           | Some _ => ret (Status 400 "You have already submitted to this project")
           | None =>
               submission <- createSubmission uuid now
                               (mkInsertSubmission projectId userId
                                  (sb_content body) (sb_attachmentUrl body)
                                  (Value SubmissionPending) Undefined) ;;
               ret (Json (JSubmission submission))
           end
     end)
    "Failed to create submission".

(** *** [GET /api/candidate/stats] *)

Definition get_candidate_stats (userId : Id) : Handler :=
  try_catch
    (stats <- getCandidateStats userId ;;
     ret (Json (JStats stats)))
    "Failed to fetch stats".

(** *** [POST /api/company/profile] *)

Record CompanyBody := mkCompanyBody {
  cb_name : Field string;
  cb_description : Field string;
  cb_website : Field string;
  cb_industry : Field string;
  cb_size : Field string
}.

Definition roleUpdate (role : userRole) : PartialUser :=
  mkPartialUser Undefined Undefined Undefined Undefined Undefined
                (Value role) Undefined Undefined Undefined Undefined.

Definition post_company_profile (userId : Id) (body : CompanyBody)
    (uuid : Id) (now : Timestamp) : Handler :=
  try_catch
    (existingCompany <- getCompanyByUserId userId ;;
     match existingCompany with
     | Some _ => ret (Status 400 "You already have a company profile")
     | None =>
         updateUserProfile userId (roleUpdate RoleCompany) now ;;;
         company <- createCompany uuid now
                      (mkInsertCompany userId (cb_name body) (cb_description body)
                         (cb_website body) Undefined (cb_industry body)
                         (cb_size body) (Value CompanyPending)) ;;
         ret (Json (JCompany company))
     end)
    "Failed to create company".

(** *** [POST /api/company/projects] *)

(** [deadline] is read as the number of an instant, which [new Date(...)]
    turns into that instant. *)
Record ProjectBody := mkProjectBody {
  pb_title : Field string;
  pb_description : Field string;
  pb_requirements : Field string;
  pb_skills : Field (list string);
  pb_payment : Field Decimal;
  pb_difficulty : Field string;
  pb_deadline : Field Timestamp;
  pb_maxSubmissions : Field Z
}.

Definition post_company_projects (userId : Id) (body : ProjectBody)
    (uuid : Id) (now : Timestamp) : Handler :=
  try_catch
    (company <- getCompanyByUserId userId ;;
     match company with
     | None => ret (Status 404 "Company not found")
     | Some company =>
         if negb (companyStatus_eqb (company_status company) CompanyApproved)
         then ret (Status 403 "Company must be approved to post projects")
         else
           project <- createProject uuid now
                        (mkInsertProject (company_id company)
                           (pb_title body) (pb_description body)
                           (pb_requirements body) (pb_skills body)
                           (pb_payment body) (pb_difficulty body)
                           (if truthy_num (pb_deadline body)
                            then pb_deadline body else Null)
                           (pb_maxSubmissions body) (Value ProjectPending)) ;;
           ret (Json (JProject project))
     end)
    "Failed to create project".

(** *** [POST /api/company/submissions/:id/review] *)

Record ReviewBody := mkReviewBody {
  rb_approved : Field bool;
  rb_rating : Field Z;
  rb_feedback : Field string
}.

Definition when (b : bool) (m : Storage unit) : Storage unit :=
  if b then m else ret tt.

Definition post_company_submission_review (userId submissionId : Id)
    (body : ReviewBody) (ratingUuid paymentUuid : Id) (now : Timestamp) : Handler :=
  let approved := truthy_bool (rb_approved body) in
  try_catch
    (company <- getCompanyByUserId userId ;;
     match company with
     | None => ret (Status 404 "Company not found")
     | Some company =>
         submission <- getSubmission submissionId ;;
         match submission with
         | None => ret (Status 404 "Submission not found")
         | Some submission =>
             project <- getProject (submission_projectId submission) ;;
             match project with
             | None => ret (Status 403 "Not authorized to review this submission")
             | Some project =>
                 if negb (String.eqb (project_companyId project) (company_id company))
                 then ret (Status 403 "Not authorized to review this submission")
                 else
                   updateSubmission submissionId
                     (mkPartialSubmission Undefined Undefined
                        (Value (if approved then SubmissionApproved
                                else SubmissionRejected))
                        (rb_feedback body))
                     now ;;;
                   when approved
                     (when (truthy_num (rb_rating body))
                        (createRating ratingUuid now
                           (mkInsertRating submissionId
                              (submission_candidateId submission)
                              (company_id company)
                              (rb_rating body) (rb_feedback body)) ;;;
                         ret tt) ;;;
                      createPayment paymentUuid now
                        (mkInsertPayment submissionId
                           (submission_candidateId submission)
                           (company_id company)
                           (Value (project_payment project))
                           (Value "paid") (Value now)) ;;;
                      ret tt) ;;;
                   ret (Json JSuccess)
             end
         end
     end)
    "Failed to review submission".

(** *** [POST /api/admin/companies/:id/review] and
        [POST /api/admin/projects/:id/review] *)

Definition statusUpdate (status : companyStatus) : PartialCompany :=
  mkPartialCompany Undefined Undefined Undefined Undefined Undefined Undefined
                   (Value status).

Definition projectStatusUpdate (status : projectStatus) : PartialProject :=
  mkPartialProject Undefined Undefined Undefined Undefined Undefined Undefined
                   Undefined Undefined (Value status).

Definition post_admin_company_review (userId companyId : Id) (approved : Field bool)
    (now : Timestamp) : Handler :=
  requireRole [RoleAdmin] userId
    (try_catch
       (updateCompany companyId
          (statusUpdate (if truthy_bool approved then CompanyApproved
                         else CompanyRejected))
          now ;;;
        ret (Json JSuccess))
       "Failed to review company").

Definition post_admin_project_review (userId projectId : Id) (approved : Field bool)
    (now : Timestamp) : Handler :=
  requireRole [RoleAdmin] userId
    (try_catch
       (updateProject projectId
          (projectStatusUpdate (if truthy_bool approved then ProjectActive
                                else ProjectCancelled))
          now ;;;
        ret (Json JSuccess))
       "Failed to review project").

End Routes.

(** ** [server/routes.ts]: the handlers that only read

    A [GET] handler answers a payload of its own shape, a list for most of
    them, with [res.json(...)], or refuses with a status and a message as
    the other handlers do. *)

Module Reads.

Import DatabaseStorage Routes.

Inductive Answer (A : Type) :=
| Sent (payload : A)
| Refused (code : Z) (message : string).
Arguments Sent {A} payload.
Arguments Refused {A} code message.

Definition Getter (A : Type) := Database -> Answer A * Database.

Definition try_get {A} (body : Storage (Answer A)) (message : string) : Getter A :=
  fun db =>
    match body db with
    | (Returned answer, db') => (answer, db')
    | (Thrown _, db') => (Refused 500 message, db')
    end.

(** [await Promise.all(list.map(async (x) => ...))] *)
Fixpoint mapM {A B} (f : A -> Storage B) (l : list A) : Storage (list B) :=
  match l with
  | [] => ret []
  | a :: rest =>
      b <- f a ;;
      bs <- mapM f rest ;;
      ret (b :: bs)
  end.

(** The middleware of [requireRole] in front of a handler that answers
    [R]: it does not look at what the handler behind it answers. *)
Definition requireRoleFor {R} (refuse : Z -> string -> R)
    (allowedRoles : list userRole) (userId : Id) (next : Database -> R * Database)
  : Database -> R * Database :=
  fun db =>
    if String.eqb userId "" then (refuse 401 "Unauthorized", db)
    else
      match getUser userId db with
      | (Returned None, db') => (refuse 401 "User not found", db')
      | (Returned (Some user), db') =>
          if existsb (userRole_eqb (user_role user)) allowedRoles
          then next db'
          else (refuse 403 "Insufficient permissions", db')
      | (Thrown _, db') => (refuse 500 "Authorization error", db')
      end.

(** *** [GET /api/projects], [GET /api/projects/featured] *)

Definition project_with_company (project : Project) : Storage (Project * option Company) :=
  company <- getCompany (project_companyId project) ;;
  ret (project, company).

Definition get_projects : Getter (list (Project * option Company)) :=
  try_get
    (projectList <- getActiveProjects ;;
     projectsWithCompany <- mapM project_with_company projectList ;;
     ret (Sent projectsWithCompany))
    "Failed to fetch projects".

Definition get_projects_featured : Getter (list (Project * option Company)) :=
  try_get
    (projectList <- getFeaturedProjects ;;
     projectsWithCompany <- mapM project_with_company projectList ;;
     ret (Sent projectsWithCompany))
    "Failed to fetch featured projects".

(** *** [GET /api/projects/:id] *)


(** *** [GET /api/projects/:id/my-submission] *)

Definition get_my_submission (userId projectId : Id) : Getter Submission :=
  try_get
    (submission <- getSubmissionByProjectAndCandidate projectId userId ;;
     match submission with
     | None => ret (Refused 404 "No submission found")
     | Some submission => ret (Sent submission)
     end)
    "Failed to fetch submission".

(** *** [GET /api/candidate/submissions] *)

(** [project ? { ...project, company: company ? { name: company.name } : null }
    : null] *)
Definition submission_with_project (submission : Submission)
  : Storage (Submission * option (Project * option string)) :=
  project <- getProject (submission_projectId submission) ;;
  match project with
  | None => ret (submission, None)
  | Some project =>
      company <- getCompany (project_companyId project) ;;
      ret (submission, Some (project, option_map company_name company))
  end.

Definition get_candidate_submissions (userId : Id)
  : Getter (list (Submission * option (Project * option string))) :=
  try_get
    (submissionList <- getSubmissionsByCandidate userId ;;
     submissionsWithDetails <- mapM submission_with_project submissionList ;;
     ret (Sent submissionsWithDetails))
    "Failed to fetch submissions".

(** *** [GET /api/company/profile] *)

Definition get_company_profile (userId : Id) : Getter Company :=
  try_get
    (company <- getCompanyByUserId userId ;;
     match company with
     | None => ret (Refused 404 "Company not found")
     | Some company => ret (Sent company)
     end)
    "Failed to fetch company".

(** *** [GET /api/company/projects] *)

Definition submission_with_candidate (submission : Submission) : Storage (Submission * option User) :=
  candidate <- getUser (submission_candidateId submission) ;;
  ret (submission, candidate).

Definition project_with_submissions (project : Project)
  : Storage (Project * list (Submission * option User)) :=
  submissions <- getSubmissionsByProject (project_id project) ;;
  submissionsWithCandidates <- mapM submission_with_candidate submissions ;;
  ret (project, submissionsWithCandidates).

Definition get_company_projects (userId : Id)
  : Getter (list (Project * list (Submission * option User))) :=
  try_get
    (company <- getCompanyByUserId userId ;;
     match company with
     | None => ret (Refused 404 "Company not found")
     | Some company =>
         projectList <- getProjectsByCompany (company_id company) ;;
         projectsWithSubmissions <- mapM project_with_submissions projectList ;;
         ret (Sent projectsWithSubmissions)
     end)
    "Failed to fetch projects".

(** *** The admin's [GET] handlers *)

Definition get_admin_stats (userId : Id) : Getter AdminStats :=
  requireRoleFor Refused [RoleAdmin] userId
    (try_get
       (stats <- getAdminStats ;;
        ret (Sent stats))
       "Failed to fetch stats").

Definition company_with_user (company : Company) : Storage (Company * option User) :=
  user <- getUser (company_userId company) ;;
  ret (company, user).

Definition get_admin_companies_pending (userId : Id)
  : Getter (list (Company * option User)) :=
  requireRoleFor Refused [RoleAdmin] userId
    (try_get
       (companiesList <- getPendingCompanies ;;
        companiesWithUsers <- mapM company_with_user companiesList ;;
        ret (Sent companiesWithUsers))
       "Failed to fetch companies").

Definition get_admin_projects_pending (userId : Id)
  : Getter (list (Project * option Company)) :=
  requireRoleFor Refused [RoleAdmin] userId
    (try_get
       (projectList <- getPendingProjects ;;
        projectsWithCompany <- mapM project_with_company projectList ;;
        ret (Sent projectsWithCompany))
       "Failed to fetch projects").

Definition payment_with_details (payment : Payment)
  : Storage (Payment * option User * option Company) :=
  candidate <- getUser (payment_candidateId payment) ;;
  company <- getCompany (payment_companyId payment) ;;
  ret (payment, candidate, company).

Definition get_admin_payments_recent (userId : Id)
  : Getter (list (Payment * option User * option Company)) :=
  requireRoleFor Refused [RoleAdmin] userId
    (try_get
       (paymentsList <- getRecentPayments 20 ;;
        paymentsWithDetails <- mapM payment_with_details paymentsList ;;
        ret (Sent paymentsWithDetails))
       "Failed to fetch payments").

End Reads.

(** ** Requests

    The calls that write to the database, with what the environment draws
    for each of them. *)

Inductive Request :=
| PatchProfile (userId : Id) (body : DatabaseStorage.PartialUser) (now : Timestamp)
| PostSubmission (userId projectId : Id) (body : Routes.SubmissionBody)
                 (uuid : Id) (now : Timestamp)
| PostCompanyProfile (userId : Id) (body : Routes.CompanyBody)
                     (uuid : Id) (now : Timestamp)
| PostCompanyProject (userId : Id) (body : Routes.ProjectBody)
                     (uuid : Id) (now : Timestamp)
| PostSubmissionReview (userId submissionId : Id) (body : Routes.ReviewBody)
                       (ratingUuid paymentUuid : Id) (now : Timestamp)
| PostAdminCompanyReview (userId companyId : Id) (approved : Field bool)
                         (now : Timestamp)
| PostAdminProjectReview (userId projectId : Id) (approved : Field bool)
                         (now : Timestamp).

Definition handle (r : Request) : Routes.Handler :=
  match r with
  | PatchProfile userId body now => Routes.patch_profile userId body now
  | PostSubmission userId projectId body uuid now =>
      Routes.post_project_submissions userId projectId body uuid now
  | PostCompanyProfile userId body uuid now =>
      Routes.post_company_profile userId body uuid now
  | PostCompanyProject userId body uuid now =>
      Routes.post_company_projects userId body uuid now
  | PostSubmissionReview userId submissionId body ratingUuid paymentUuid now =>
      Routes.post_company_submission_review userId submissionId body
        ratingUuid paymentUuid now
  | PostAdminCompanyReview userId companyId approved now =>
      Routes.post_admin_company_review userId companyId approved now
  | PostAdminProjectReview userId projectId approved now =>
      Routes.post_admin_project_review userId projectId approved now
  end.

Fixpoint serve (requests : list Request) (db : Database) : Database :=
  match requests with
  | [] => db
  | r :: rest => serve rest (snd (handle r db))
  end.

(** * Properties *)

Import DatabaseStorage Routes.

Local Open Scope list_scope.

Arguments updateUserProfile : simpl never.
Arguments updateCompany : simpl never.
Arguments updateProject : simpl never.
Arguments updateSubmission : simpl never.
Arguments createCompany : simpl never.
Arguments createProject : simpl never.
Arguments createSubmission : simpl never.
Arguments createRating : simpl never.
Arguments createPayment : simpl never.

Definition response (h : Handler) (db : Database) : Response := fst (h db).
Definition after (h : Handler) (db : Database) : Database := snd (h db).

(** ** One submission per project and candidate *)

Definition same_pair (projectId candidateId : Id) (s : Submission) : bool :=
  String.eqb (submission_projectId s) projectId
  && String.eqb (submission_candidateId s) candidateId.

Definition submissions_of (projectId candidateId : Id) (db : Database)
  : list Submission :=
  filter (same_pair projectId candidateId) (submissions db).

Definition one_submission_per_pair (db : Database) : Prop :=
  forall projectId candidateId,
    (List.length (submissions_of projectId candidateId db) <= 1)%nat.

(** A submission-creation request, with what the environment draws for it. *)
Record SubmissionCall := mkSubmissionCall {
  call_userId : Id;
  call_projectId : Id;
  call_body : SubmissionBody;
  call_uuid : Id;
  call_now : Timestamp
}.

Definition call (c : SubmissionCall) : Handler :=
  post_project_submissions (call_userId c) (call_projectId c) (call_body c)
                           (call_uuid c) (call_now c).

Fixpoint run_calls (calls : list SubmissionCall) (db : Database) : Database :=
  match calls with
  | [] => db
  | c :: rest => run_calls rest (after (call c) db)
  end.

(** ** Profile update *)

(** What [PATCH /api/profile] may change in a row of [users]: nothing in a
    row of another user, and in the caller's row neither the key, the
    e-mail, the role, the profile image nor the creation stamp. *)
Definition profile_frame (userId : Id) (u u' : User) : Prop :=
  user_id u' = user_id u
  /\ user_email u' = user_email u
  /\ user_role u' = user_role u
  /\ user_profileImageUrl u' = user_profileImageUrl u
  /\ user_createdAt u' = user_createdAt u
  /\ (user_id u <> userId -> u' = u).

(** ** Company creation and the role of its owner *)

Definition role_of (userId : Id) (db : Database) : option userRole :=
  match fst (getUser userId db) with
  | Returned (Some user) => Some (user_role user)
  | _ => None
  end.

Definition company_of (userId : Id) (db : Database) : option Company :=
  match fst (getCompanyByUserId userId db) with
  | Returned company => company
  | Thrown _ => None
  end.

(** The claim of atomicity, as the specification words it: after a call that
    succeeds the owner has role [company] and owns a company row, and after
    a call that fails neither the row nor the role change is there. *)
Definition company_creation_atomic (userId : Id) (body : CompanyBody)
    (uuid : Id) (now : Timestamp) (db : Database) : Prop :=
  let h := post_company_profile userId body uuid now in
  match response h db with
  | Json _ =>
      role_of userId (after h db) = Some RoleCompany
      /\ company_of userId (after h db) <> None
  | Status _ _ =>
      companies (after h db) = companies db
      /\ role_of userId (after h db) = role_of userId db
  end.

(** ** Admin review *)

Definition company_status_of (companyId : Id) (db : Database) : option companyStatus :=
  option_map company_status
    (find (fun c => String.eqb (company_id c) companyId) (companies db)).

Definition project_status_of (projectId : Id) (db : Database) : option projectStatus :=
  option_map project_status
    (find (fun p => String.eqb (project_id p) projectId) (projects db)).

(** The claim of terminal states, as the specification words it: a company
    that is [approved] or [rejected], and a project that is [active] or
    [cancelled], keeps its status under a further admin review call. *)
Definition admin_review_terminal (userId companyId projectId : Id)
    (approved : Field bool) (now : Timestamp) (db : Database) : Prop :=
  (forall st,
      company_status_of companyId db = Some st ->
      st = CompanyApproved \/ st = CompanyRejected ->
      company_status_of companyId
        (after (post_admin_company_review userId companyId approved now) db)
      = Some st)
  /\ (forall st,
       project_status_of projectId db = Some st ->
       st = ProjectActive \/ st = ProjectCancelled ->
       project_status_of projectId
         (after (post_admin_project_review userId projectId approved now) db)
       = Some st).

(** ** Settlement *)

(** The claim of settlement, as the specification words it: a review call
    with [approved = true] creates exactly one payment, whose amount is the
    payment of the project of the submission, whose status is "paid" and
    whose [paidAt] is the time of the review; a review call with
    [approved = false] creates none. *)
Definition approval_pays (userId submissionId : Id) (body : ReviewBody)
    (ratingUuid paymentUuid : Id) (now : Timestamp) (db : Database) : Prop :=
  let h := post_company_submission_review userId submissionId body
             ratingUuid paymentUuid now in
  (rb_approved body = Value true ->
   exists submission project payment,
     fst (getSubmission submissionId db) = Returned (Some submission)
     /\ fst (getProject (submission_projectId submission) db)
        = Returned (Some project)
     /\ payments (after h db) = payments db ++ [payment]
     /\ payment_submissionId payment = submissionId
     /\ payment_amount payment = project_payment project
     /\ payment_status payment = "paid"
     /\ payment_paidAt payment = Some now)
  /\ (rb_approved body = Value false ->
      payments (after h db) = payments db).

Definition submission_status_of (submissionId : Id) (db : Database)
  : option submissionStatus :=
  option_map submission_status
    (find (fun s => String.eqb (submission_id s) submissionId) (submissions db)).

(** ** Logins and requests

    A user row comes from [upsertUser], which the authentication
    collaborator calls at login with the claims of the identity provider;
    whatever it passes is some [UpsertUser]. *)

Inductive Event :=
| Login (uuid : Id) (now : Timestamp) (userData : UpsertUser)
| Call (r : Request).

Definition happen (e : Event) (db : Database) : Database :=
  match e with
  | Login uuid now userData => snd (upsertUser uuid now userData db)
  | Call r => snd (handle r db)
  end.

Definition happen_all (events : list Event) (db : Database) : Database :=
  fold_left (fun db e => happen e db) events db.

(** ** Keys and references

    What the primary keys and the [references(...)] of the schema ask of a
    database. *)

Definition keys_unique (db : Database) : Prop :=
  NoDup (map user_id (users db))
  /\ NoDup (map company_id (companies db))
  /\ NoDup (map project_id (projects db))
  /\ NoDup (map submission_id (submissions db))
  /\ NoDup (map rating_id (ratings db))
  /\ NoDup (map payment_id (payments db)).

Definition references_resolve (db : Database) : Prop :=
  Forall (fun c => has_user (company_userId c) db = true) (companies db)
  /\ Forall (fun p => has_company (project_companyId p) db = true) (projects db)
  /\ Forall (fun s => has_project (submission_projectId s) db = true
                      /\ has_user (submission_candidateId s) db = true)
            (submissions db)
  /\ Forall (fun r => has_submission (rating_submissionId r) db = true
                      /\ has_user (rating_candidateId r) db = true
                      /\ has_company (rating_companyId r) db = true)
            (ratings db)
  /\ Forall (fun p => has_submission (payment_submissionId p) db = true
                      /\ has_user (payment_candidateId p) db = true
                      /\ has_company (payment_companyId p) db = true)
            (payments db).

Definition consistent (db : Database) : Prop :=
  keys_unique db /\ references_resolve db.

(** ** What the handlers keep unique without a constraint *)

Definition companies_of (userId : Id) (db : Database) : list Company :=
  filter (fun c => String.eqb (company_userId c) userId) (companies db).

Definition one_company_per_user (db : Database) : Prop :=
  forall userId, (List.length (companies_of userId db) <= 1)%nat.

(** ** Vocabulary of the further properties *)


Definition readable_submission_body (body : SubmissionBody) : bool :=
  field_ok text_ok (sb_content body) && field_ok text_ok (sb_attachmentUrl body).


(** The update a review writes to the submission. *)
Definition reviewed (approved : bool) (feedback : Field string) : PartialSubmission :=
  mkPartialSubmission Undefined Undefined
    (Value (if approved then SubmissionApproved else SubmissionRejected)) feedback.

(** A storage call keeps a property of the database when the database has
    it after the call, returned or thrown, whenever it had it before. *)
Definition keeps (I : Database -> Prop) {A} (m : Storage A) : Prop :=
  forall db, I db -> I (snd (m db)).

(** At most one company for a user and at most one submission for a
    project and a candidate: no constraint of the schema asks for either,
    the handlers look before they insert. *)
Definition looked_before_insert (db : Database) : Prop :=
  one_company_per_user db /\ one_submission_per_pair db.

(** The user has a company row. *)
Definition owns_company (userId : Id) (db : Database) : Prop :=
  find (fun c => String.eqb (company_userId c) userId) (companies db) <> None.

(** What the statistics calls return: they only read. *)
Definition candidateStats (candidateId : Id) (db : Database) : option CandidateStats :=
  match fst (getCandidateStats candidateId db) with
  | Returned stats => Some stats
  | Thrown _ => None
  end.

Definition adminStats (db : Database) : option AdminStats :=
  match fst (getAdminStats db) with
  | Returned stats => Some stats
  | Thrown _ => None
  end.

(** The order of a list that [orderBy(desc(createdAt))] returns. *)
Definition newer_or_same {A} (stamp : A -> option Timestamp) (a b : A) : Prop :=
  newer_first (stamp a) (stamp b) = true.

(** The list a storage query returns. *)
Definition listed {A} (m : Storage (list A)) (db : Database) : list A :=
  match fst (m db) with
  | Returned l => l
  | Thrown _ => []
  end.

Definition active (p : Project) : bool :=
  projectStatus_eqb (project_status p) ProjectActive.

(** The answers with which [requireRole] turns a caller away. *)
Definition turned_away (code : Z) (message : string) : Prop :=
  code = 401 /\ (message = "Unauthorized" \/ message = "User not found")
  \/ code = 403 /\ message = "Insufficient permissions".

(** Every payment is settled: it is "paid" at some instant, for a
    submission that is there, to the candidate of that submission, by the
    company of the project of that submission, and its amount is the
    payment of that project. *)
Definition settled_payment (db : Database) (pay : Payment) : Prop :=
  payment_status pay = "paid"
  /\ payment_paidAt pay <> None
  /\ exists s p,
       find (fun s => String.eqb (submission_id s) (payment_submissionId pay))
            (submissions db) = Some s
       /\ find (fun p => String.eqb (project_id p) (submission_projectId s))
               (projects db) = Some p
       /\ payment_candidateId pay = submission_candidateId s
       /\ payment_companyId pay = project_companyId p
       /\ payment_amount pay = project_payment p.

Definition payments_settled (db : Database) : Prop :=
  Forall (settled_payment db) (payments db).

(** The lookups by key that found a submission or a project still find
    one, with the columns a payment depends on unchanged. *)
Definition lookups_stable (db db' : Database) : Prop :=
  (forall id s,
      find (fun s => String.eqb (submission_id s) id) (submissions db) = Some s ->
      exists s',
        find (fun s => String.eqb (submission_id s) id) (submissions db') = Some s'
        /\ submission_projectId s' = submission_projectId s
        /\ submission_candidateId s' = submission_candidateId s)
  /\ (forall id p,
        find (fun p => String.eqb (project_id p) id) (projects db) = Some p ->
        exists p',
          find (fun p => String.eqb (project_id p) id) (projects db') = Some p'
          /\ project_companyId p' = project_companyId p
          /\ project_payment p' = project_payment p).

(** ** A run of the marketplace

    Three registered users, then the calls of the scenario of the
    specification one after the other: the owner creates a company, the
    admin approves it, the company posts a project paying 250.00, the admin
    activates it, the candidate submits, and the company approves the
    submission with a rating of 5. *)

Module Scenario.

Definition user (id : Id) (role : userRole) : User :=
  mkUser id None None None None role None None None None (Some 0) (Some 0).

Definition registered : Database :=
  mkDatabase [user "admin" RoleAdmin; user "owner" RoleCandidate;
              user "cand" RoleCandidate]
             [] [] [] [] [].

Definition companyBody (name : Field string) : CompanyBody :=
  mkCompanyBody name Undefined Undefined Undefined Undefined.

Definition projectBody : ProjectBody :=
  mkProjectBody (Value "Build landing page") (Value "A landing page")
                Undefined Undefined (Value 25000) Undefined Undefined Undefined.

Definition submissionBody : SubmissionBody :=
  mkSubmissionBody (Value "done") Undefined.

Definition with_company : Database :=
  after (post_company_profile "owner" (companyBody (Value "A")) "c1" 1) registered.

Definition company_approved : Database :=
  after (post_admin_company_review "admin" "c1" (Value true) 2) with_company.

Definition with_project : Database :=
  after (post_company_projects "owner" projectBody "p1" 3) company_approved.

Definition project_active : Database :=
  after (post_admin_project_review "admin" "p1" (Value true) 4) with_project.

Definition submitted : Database :=
  after (post_project_submissions "cand" "p1" submissionBody "s1" 5) project_active.

Definition settled : Database :=
  after (post_company_submission_review "owner" "s1"
           (mkReviewBody (Value true) (Value 5) (Value "great")) "r1" "pay1" 6)
        submitted.

(** Further calls, tried on the states of the run. *)

Definition review (userId : Id) (approved : bool) (rating : Field Z)
    (feedback : Field string) (ratingUuid paymentUuid : Id) (now : Timestamp)
  : Handler :=
  post_company_submission_review userId "s1"
    (mkReviewBody (Value approved) rating feedback) ratingUuid paymentUuid now.

Definition approve : Handler :=
  review "owner" true (Value 5) (Value "great") "r1" "pay1" 6.

Definition approve_again : Handler :=
  review "owner" true (Value 4) (Value "again") "r2" "pay2" 7.

Definition reject_after_all : Handler :=
  review "owner" false Undefined Undefined "r2" "pay2" 7.

Definition approve_with_seven : Handler :=
  review "owner" true (Value 7) (Value "great") "r1" "pay1" 6.

(** A rating that does not fit the [integer] column. *)
Definition approve_with_overflow : Handler :=
  review "owner" true (Value 2147483648) (Value "great") "r1" "pay1" 6.

Definition approve_as_stranger : Handler :=
  review "cand" true (Value 5) (Value "great") "r1" "pay1" 6.

Definition reject : Handler :=
  review "owner" false Undefined (Value "no") "r1" "pay1" 6.

Definition submit : Handler :=
  post_project_submissions "cand" "p1" submissionBody "s1" 5.

Definition first_call : SubmissionCall :=
  mkSubmissionCall "cand" "p1" submissionBody "s1" 5.

Definition second_call : SubmissionCall :=
  mkSubmissionCall "cand" "p1" submissionBody "s2" 6.

Definition post_project : Handler :=
  post_company_projects "owner" projectBody "p1" 3.

Definition create_company (name : Field string) : Handler :=
  post_company_profile "owner" (companyBody name) "c1" 1.

Definition revoke (userId : Id) : Handler :=
  post_admin_company_review userId "c1" (Value false) 9.

End Scenario.

(** A login of the owner and two company-creation calls. *)
Definition first_days : list Event :=
  [Login "u0" 0 (mkUpsertUser (Value "owner") (Value "o@example.org") Undefined
                   Undefined Undefined Undefined Undefined Undefined Undefined
                   Undefined Undefined Undefined);
   Call (PostCompanyProfile "owner" (Scenario.companyBody (Value "A")) "c1" 1);
   Call (PostCompanyProfile "owner" (Scenario.companyBody (Value "B")) "c2" 2)].


(** ** Running the storage monad *)

Ltac unfold_storage :=
  cbv beta iota delta
    [bind ret throw query guard required in_range set_required when try_catch
     getUser getCompany getCompanyByUserId getProject getSubmission
     getSubmissionByProjectAndCandidate
     put_users put_companies put_projects put_submissions put_ratings put_payments] in *.

(** Splits on the innermost scrutinee of the goal. *)
Ltac case_scrutinee :=
  match goal with
  | |- context [match ?x with _ => _ end] =>
      lazymatch x with
      | context [match _ with _ => _ end] => fail
      | _ => destruct x eqn:?
      end
  end.

Ltac run_storage := unfold_storage; repeat (case_scrutinee; cbn [fst snd] in *).

Section Inserts.

Variables (id : Id) (now : Timestamp) (db : Database).

Lemma createSubmission_run (ins : InsertSubmission) :
  match createSubmission id now ins db with
  | (Returned s, db') =>
      db' = mkDatabase (users db) (companies db) (projects db)
                       (submissions db ++ [s]) (ratings db) (payments db)
      /\ submission_id s = id
      /\ submission_projectId s = is_projectId ins
      /\ submission_candidateId s = is_candidateId ins
      /\ (forall st, is_status ins = Value st -> submission_status s = st)
  | (Thrown _, db') => db' = db
  end.
Proof.
  unfold createSubmission. run_storage; cbn; repeat split; try easy;
    intros st [= <-]; reflexivity.
Qed.

Lemma createCompany_run (ins : InsertCompany) :
  match createCompany id now ins db with
  | (Returned c, db') =>
      db' = mkDatabase (users db) (companies db ++ [c]) (projects db)
                       (submissions db) (ratings db) (payments db)
      /\ company_id c = id
      /\ company_userId c = ic_userId ins
      /\ has_user (ic_userId ins) db = true
      /\ (forall st, ic_status ins = Value st -> company_status c = st)
  | (Thrown _, db') => db' = db
  end.
Proof.
  unfold createCompany. run_storage; cbn; repeat split; try easy;
    intros st [= <-]; reflexivity.
Qed.

Lemma createProject_run (ins : InsertProject) :
  match createProject id now ins db with
  | (Returned p, db') =>
      db' = mkDatabase (users db) (companies db) (projects db ++ [p])
                       (submissions db) (ratings db) (payments db)
      /\ project_id p = id
      /\ project_companyId p = ip_companyId ins
      /\ (forall st, ip_status ins = Value st -> project_status p = st)
  | (Thrown _, db') => db' = db
  end.
Proof.
  unfold createProject. run_storage; cbn; repeat split; try easy;
    intros st [= <-]; reflexivity.
Qed.

Lemma createRating_run (ins : InsertRating) :
  match createRating id now ins db with
  | (Returned r, db') =>
      db' = mkDatabase (users db) (companies db) (projects db)
                       (submissions db) (ratings db ++ [r]) (payments db)
      /\ rating_id r = id
      /\ rating_submissionId r = ir_submissionId ins
      /\ rating_candidateId r = ir_candidateId ins
      /\ ir_score ins = Value (rating_score r)
  | (Thrown _, db') => db' = db
  end.
Proof.
  unfold createRating. run_storage; cbn; repeat split; easy.
Qed.

Lemma createPayment_run (ins : InsertPayment) :
  match createPayment id now ins db with
  | (Returned p, db') =>
      db' = mkDatabase (users db) (companies db) (projects db)
                       (submissions db) (ratings db) (payments db ++ [p])
      /\ payment_id p = id
      /\ payment_submissionId p = ipay_submissionId ins
      /\ payment_candidateId p = ipay_candidateId ins
      /\ payment_companyId p = ipay_companyId ins
      /\ ipay_amount ins = Value (payment_amount p)
      /\ (forall st, ipay_status ins = Value st -> payment_status p = st)
      /\ payment_paidAt p = nullable (ipay_paidAt ins)
  | (Thrown _, db') => db' = db
  end.
Proof.
  unfold createPayment. run_storage; cbn; repeat split; try easy;
    intros st [= <-]; reflexivity.
Qed.

End Inserts.

Section Updates.

Variables (id : Id) (now : Timestamp) (db : Database).

(** An update touches its own table only, whether it returns or throws. *)

Lemma updateUserProfile_run (updates : PartialUser) :
  let r := updateUserProfile id updates now db in
  (snd r = db
   \/ snd r = mkDatabase (update_where (fun u => String.eqb (user_id u) id)
                                       (set_user updates now) (users db))
                         (companies db) (projects db) (submissions db)
                         (ratings db) (payments db)
      /\ has_user id db = true
      /\ exists u, fst r = Returned (Some u)).
Proof.
  unfold updateUserProfile, user_key_checks, user_email_checks, has_user.
  run_storage; cbn; auto; right; (repeat split; [| eauto]);
    match goal with
    | H : find _ _ = Some _ |- _ =>
        apply find_some in H; apply existsb_exists; eauto
    end.
Qed.

Lemma updateSubmission_run (updates : PartialSubmission) :
  let r := updateSubmission id updates now db in
  (snd r = db /\ (readable_submission_updates updates = true ->
                  ps_status updates <> Null -> ps_content updates <> Null ->
                  find (fun s => String.eqb (submission_id s) id) (submissions db) = None))
  \/ snd r = mkDatabase (users db) (companies db) (projects db)
                        (update_where (fun s => String.eqb (submission_id s) id)
                                      (set_submission updates now) (submissions db))
                        (ratings db) (payments db)
     /\ exists s, fst r = Returned (Some s).
Proof.
  unfold updateSubmission. run_storage; cbn; eauto; left; split; congruence.
Qed.

End Updates.

(** ** Creation gates *)


Lemma companyStatus_eqb_eq (a b : companyStatus) :
  companyStatus_eqb a b = true <-> a = b.
Proof. destruct a, b; cbn; split; congruence. Qed.


(** C5: a project-creation call by the owner of a company whose status is
    not [approved] answers 403 "Company must be approved to post projects"
    and leaves the database as it was; a call that succeeds appends one
    project with status [pending], owned by the caller's company, which is
    [approved]. *)
Theorem project_only_by_approved_company
    (userId : Id) (body : ProjectBody) (uuid : Id) (now : Timestamp)
    (db : Database) :
  let h := post_company_projects userId body uuid now in
  (forall company,
      fst (getCompanyByUserId userId db) = Returned (Some company) ->
      company_status company <> CompanyApproved ->
      response h db = Status 403 "Company must be approved to post projects"
      /\ after h db = db)
  /\ (forall project,
       response h db = Json (JProject project) ->
       project_status project = ProjectPending
       /\ after h db = mkDatabase (users db) (companies db)
                                  (projects db ++ [project])
                                  (submissions db) (ratings db) (payments db)
       /\ exists company,
            fst (getCompanyByUserId userId db) = Returned (Some company)
            /\ company_status company = CompanyApproved
            /\ project_companyId project = company_id company).
Proof.
  intros h; subst h; unfold response, after, post_company_projects.
  split.
  - intros company Hfind Hst. unfold_storage. cbn in Hfind.
    injection Hfind as ->. cbn.
    destruct (companyStatus_eqb (company_status company) CompanyApproved) eqn:E; cbn.
    + now apply companyStatus_eqb_eq in E.
    + easy.
  - intros project. unfold_storage.
    destruct (find _ (companies db)) as [company|] eqn:Hfind; cbn; [|easy].
    destruct (companyStatus_eqb (company_status company) CompanyApproved) eqn:Hst;
      cbn; [|easy].
    match goal with
    | |- context [createProject uuid now ?ins db] =>
        pose proof (createProject_run uuid now db ins) as Hins;
        destruct (createProject uuid now ins db) as [[p|e] db']
    end; cbn; [|easy].
    intros [= <-]. destruct Hins as (-> & _ & Hc & Hs).
    repeat split; auto.
    exists company. repeat split; auto. now apply companyStatus_eqb_eq.
Qed.

(** ** Sequences of submission-creation calls *)

Lemma find_none_filter {A} (f : A -> bool) (l : list A) :
  find f l = None -> filter f l = [].
Proof.
  induction l as [|a l IH]; cbn; [easy|].
  destruct (f a); [easy | exact IH].
Qed.

Lemma find_app_some {A} (f : A -> bool) (l l' : list A) (a : A) :
  find f l = Some a -> find f (l ++ l') = Some a.
Proof.
  induction l as [|b l IH]; cbn; [easy|].
  destruct (f b); [easy | exact IH].
Qed.

Lemma find_last_some {A} (f : A -> bool) (l : list A) (a : A) :
  f a = true -> exists b, find f (l ++ [a]) = Some b.
Proof.
  intros Ha. induction l as [|b l IH]; cbn.
  - rewrite Ha. eauto.
  - destruct (f b); eauto.
Qed.

(** What one submission-creation call does to the database. *)
Lemma post_project_submissions_run
    (userId projectId : Id) (body : SubmissionBody) (uuid : Id) (now : Timestamp)
    (db : Database) :
  let h := post_project_submissions userId projectId body uuid now in
  ((exists code message, response h db = Status code message) /\ after h db = db)
  \/ exists s,
       response h db = Json (JSubmission s)
       /\ after h db = mkDatabase (users db) (companies db) (projects db)
                                  (submissions db ++ [s]) (ratings db) (payments db)
       /\ same_pair projectId userId s = true
       /\ find (same_pair projectId userId) (submissions db) = None
       /\ exists project,
            find (fun p => String.eqb (project_id p) projectId) (projects db)
              = Some project
            /\ projectStatus_eqb (project_status project) ProjectActive = true.
Proof.
  intros h; subst h; unfold response, after, post_project_submissions.
  match goal with
  | |- context [createSubmission uuid now ?ins] =>
      pose proof (createSubmission_run uuid now db ins) as Hins
  end.
  unfold_storage.
  destruct (find _ (projects db)) as [project|]; cbn; [|left; eauto].
  destruct (projectStatus_eqb _ _) eqn:Hactive; cbn; [|left; eauto].
  fold (same_pair projectId userId).
  destruct (find _ (submissions db)) eqn:Hnone; cbn; [left; eauto|].
  destruct (createSubmission _ _ _ db) as [[s|e] db']; cbn; [|left; eauto].
  destruct Hins as (-> & _ & Hp & Hc & _). cbn in Hp, Hc.
  right. exists s. repeat split; eauto.
  unfold same_pair. now rewrite Hp, Hc, !String.eqb_refl.
Qed.

Lemma call_keeps_one_per_pair (c : SubmissionCall) (db : Database) :
  one_submission_per_pair db -> one_submission_per_pair (after (call c) db).
Proof.
  intros Hinv. unfold call.
  destruct (post_project_submissions_run (call_userId c) (call_projectId c)
              (call_body c) (call_uuid c) (call_now c) db)
    as [[_ ->] | (s & _ & -> & Hs & Hnone & _)]; [exact Hinv|].
  intros p k. specialize (Hinv p k). unfold submissions_of in *. cbn.
  rewrite filter_app, length_app. cbn.
  destruct (same_pair p k s) eqn:Hpk; cbn; [|lia].
  assert (p = call_projectId c /\ k = call_userId c) as [-> ->].
  { unfold same_pair in Hs, Hpk.
    apply andb_true_iff in Hs as [Hs1 Hs2], Hpk as [Hp1 Hp2].
    apply String.eqb_eq in Hs1, Hs2, Hp1, Hp2. split; congruence. }
  rewrite (find_none_filter _ _ Hnone). cbn. lia.
Qed.

Lemma run_calls_grows (calls : list SubmissionCall) (db : Database) :
  projects (run_calls calls db) = projects db
  /\ exists more, submissions (run_calls calls db) = submissions db ++ more.
Proof.
  revert db. induction calls as [|c calls IH]; intros db; cbn.
  - split; [reflexivity | exists []; now rewrite app_nil_r].
  - destruct (IH (after (call c) db)) as [Hp [more Hs]].
    rewrite Hp, Hs. unfold call.
    destruct (post_project_submissions_run (call_userId c) (call_projectId c)
                (call_body c) (call_uuid c) (call_now c) db)
      as [[_ ->] | (s & _ & -> & _)]; cbn.
    + eauto.
    + split; [reflexivity | exists (s :: more); now rewrite <- app_assoc].
Qed.

(** C4: submission-creation calls run one after the other keep at most one
    submission per project and candidate; and once a candidate's call for a
    project has succeeded, a later call of the same candidate for the same
    project, after any further submission-creation calls, answers 400 "You
    have already submitted to this project" and creates no row. *)
Theorem one_submission_per_candidate_and_project (db : Database) :
  (forall calls,
      one_submission_per_pair db ->
      one_submission_per_pair (run_calls calls db))
  /\ (forall first between second s,
       response (call first) db = Json (JSubmission s) ->
       call_userId second = call_userId first ->
       call_projectId second = call_projectId first ->
       let db' := run_calls between (after (call first) db) in
       response (call second) db' =
         Status 400 "You have already submitted to this project"
       /\ after (call second) db' = db').
Proof.
  split.
  - intros calls. revert db. induction calls as [|c calls IH]; intros db Hinv; cbn.
    + exact Hinv.
    + apply IH, call_keeps_one_per_pair, Hinv.
  - intros first between second s Hok Hu Hp db'.
    destruct (post_project_submissions_run (call_userId first)
                (call_projectId first) (call_body first) (call_uuid first)
                (call_now first) db)
      as [[(code & message & Hno) _]
         | (s0 & _ & Hafter & Hpair & _ & project & Hfind & Hactive)];
      [unfold call in Hok; congruence|].
    fold (call first) in Hafter.
    destruct (run_calls_grows between (after (call first) db)) as [Hprojects [more Hsubs]].
    fold db' in Hprojects, Hsubs. rewrite Hafter in Hprojects, Hsubs. cbn in Hprojects, Hsubs.
    destruct (find_last_some (same_pair (call_projectId first) (call_userId first))
                (submissions db) s0 Hpair) as [s' Hs'].
    apply (find_app_some _ _ more) in Hs'. rewrite <- Hsubs in Hs'.
    unfold response, after, call, post_project_submissions. rewrite Hu, Hp.
    unfold_storage. rewrite Hprojects, Hfind. cbn.
    rewrite Hactive. cbn.
    fold (same_pair (call_projectId first) (call_userId first)).
    rewrite Hs'. cbn. easy.
Qed.

(** ** Settlement *)

Lemma updateSubmission_frame (id : Id) (updates : PartialSubmission)
    (now : Timestamp) (db : Database) :
  let db' := snd (updateSubmission id updates now db) in
  users db' = users db /\ companies db' = companies db
  /\ projects db' = projects db /\ ratings db' = ratings db
  /\ payments db' = payments db.
Proof.
  destruct (updateSubmission_run id now db updates) as [[-> _] | [-> _]]; easy.
Qed.

Lemma existsb_update_where {A} (sel sel' : A -> bool) (f : A -> A) (l : list A) :
  (forall a, sel' (f a) = sel' a) ->
  existsb sel' (update_where sel f l) = existsb sel' l.
Proof.
  intros Hkeep. unfold update_where.
  induction l as [|a l IH]; cbn; [reflexivity|].
  rewrite IH. now destruct (sel a); rewrite ?Hkeep.
Qed.

Lemma find_existsb {A} (sel sel' : A -> bool) (l : list A) (a : A) :
  find sel l = Some a -> sel' a = true -> existsb sel' l = true.
Proof.
  intros Hfind Ha. apply find_some in Hfind as [Hin _].
  apply existsb_exists. eauto.
Qed.

(** The status update of the review handler throws for a feedback the
    server cannot read, and for no other reason. *)
Lemma updateSubmission_review (id : Id) (status : submissionStatus)
    (feedback : Field string) (now : Timestamp) (db : Database) :
  let updates := mkPartialSubmission Undefined Undefined (Value status) feedback in
  updateSubmission id updates now db =
  if field_ok text_ok feedback then
    match find (fun s => String.eqb (submission_id s) id) (submissions db) with
    | Some s =>
        (Returned (Some (set_submission updates now s)),
         mkDatabase (users db) (companies db) (projects db)
                    (update_where (fun s' => String.eqb (submission_id s') id)
                                  (set_submission updates now) (submissions db))
                    (ratings db) (payments db))
    | None => (Returned None, db)
    end
  else (Thrown (InvalidByteSequence "submissions"), db).
Proof.
  unfold updateSubmission, readable_submission_updates. unfold_storage. cbn.
  destruct (field_ok text_ok feedback); [|reflexivity].
  now destruct (find _ (submissions db)).
Qed.

Lemma createRating_succeeds (id : Id) (now : Timestamp) (ins : InsertRating)
    (db : Database) (score : Z) :
  field_ok text_ok (ir_review ins) = true ->
  ir_score ins = Value score -> int4_ok score = true ->
  has_rating id db = false ->
  has_submission (ir_submissionId ins) db = true ->
  has_user (ir_candidateId ins) db = true ->
  has_company (ir_companyId ins) db = true ->
  exists r db', createRating id now ins db = (Returned r, db').
Proof.
  unfold createRating, has_rating, has_submission, has_user, has_company.
  intros Htext Hscore Hrange Hfresh Hs Hu Hc. unfold_storage.
  rewrite Htext, Hscore, Hrange. cbn. rewrite Hfresh. cbn. rewrite Hs. cbn.
  rewrite Hu. cbn. rewrite Hc. cbn. eauto.
Qed.

Lemma createPayment_succeeds (id : Id) (now : Timestamp) (ins : InsertPayment)
    (db : Database) (amount : Decimal) (status : string) :
  ipay_amount ins = Value amount -> decimal_10_2_ok amount = true ->
  ipay_status ins = Value status -> text_ok status = true ->
  field_ok timestamp_ok (ipay_paidAt ins) = true ->
  has_payment id db = false ->
  has_submission (ipay_submissionId ins) db = true ->
  has_user (ipay_candidateId ins) db = true ->
  has_company (ipay_companyId ins) db = true ->
  exists p db', createPayment id now ins db = (Returned p, db').
Proof.
  unfold createPayment, has_payment, has_submission, has_user, has_company.
  intros Hamount Hrange Hstatus Htext Hpaid Hfresh Hs Hu Hc. unfold_storage.
  rewrite Hamount, Hrange, Hstatus, Hpaid. cbn. rewrite Htext. cbn. rewrite Hfresh. cbn. rewrite Hs. cbn.
  rewrite Hu. cbn. rewrite Hc. cbn. eauto.
Qed.

Lemma createRating_keeps (id : Id) (now : Timestamp) (ins : InsertRating)
    (db : Database) :
  let db' := snd (createRating id now ins db) in
  users db' = users db /\ companies db' = companies db
  /\ submissions db' = submissions db /\ payments db' = payments db.
Proof.
  pose proof (createRating_run id now db ins) as H.
  destruct (createRating id now ins db) as [[r|e] db']; cbn.
  - now destruct H as [-> _].
  - now subst.
Qed.

(** C3: not every review call with [approved = true] creates a payment;
    the ones that succeed do.  A review call with [approved = true] by the
    owner of the company of the submission's project succeeds whenever the
    storage layer has no reason to refuse its rows (a feedback and an
    instant the server reads, fresh identifiers, a rating that fits the
    integer column, a payment that fits its decimal column, the candidate
    in [users]); when it succeeds it has appended exactly one payment, for
    the reviewed submission, whose amount is the payment of the
    submission's project, whose status is "paid" and whose [paidAt] is the
    time of the review.  A review call with [approved = true] that does not
    succeed, and every review call with [approved = false], leaves the
    payments as they were. *)
Theorem approval_creates_one_payment
    (userId submissionId : Id) (body : ReviewBody) (ratingUuid paymentUuid : Id)
    (now : Timestamp) (db : Database) :
  let h := post_company_submission_review userId submissionId body
             ratingUuid paymentUuid now in
  (forall company submission project,
      fst (getCompanyByUserId userId db) = Returned (Some company) ->
      fst (getSubmission submissionId db) = Returned (Some submission) ->
      fst (getProject (submission_projectId submission) db)
      = Returned (Some project) ->
      project_companyId project = company_id company ->
      rb_approved body = Value true ->
      field_ok text_ok (rb_feedback body) = true ->
      timestamp_ok now = true ->
      (forall score, rb_rating body = Value score -> score <> 0 ->
                     int4_ok score = true /\ has_rating ratingUuid db = false) ->
      has_payment paymentUuid db = false ->
      has_user (submission_candidateId submission) db = true ->
      decimal_10_2_ok (project_payment project) = true ->
      response h db = Json JSuccess)
  /\ (rb_approved body = Value true ->
      response h db = Json JSuccess ->
      exists submission project payment,
        fst (getSubmission submissionId db) = Returned (Some submission)
        /\ fst (getProject (submission_projectId submission) db)
           = Returned (Some project)
        /\ payments (after h db) = payments db ++ [payment]
        /\ payment_submissionId payment = submissionId
        /\ payment_candidateId payment = submission_candidateId submission
        /\ payment_amount payment = project_payment project
        /\ payment_status payment = "paid"
        /\ payment_paidAt payment = Some now)
  /\ (rb_approved body = Value true ->
      response h db <> Json JSuccess ->
      payments (after h db) = payments db)
  /\ (rb_approved body = Value false ->
      payments (after h db) = payments db).
Proof.
  intros h; subst h; unfold response, after, post_company_submission_review.
  split.
  { intros company submission project Hc Hs Hp Hown Happroved Hfeedback Hnow
           Hrating Hfresh Hcandidate Hamount.
    cbn in Hc, Hs, Hp. injection Hc as Hc. injection Hs as Hs. injection Hp as Hp.
    unfold_storage. rewrite Hc. cbn. rewrite Hs. cbn. rewrite Hp. cbn.
    rewrite Hown, String.eqb_refl. cbn.
    rewrite updateSubmission_review, Hfeedback, Hs, Happroved. cbn.
    set (updates := mkPartialSubmission _ _ _ _).
    set (db1 := mkDatabase _ _ _ _ _ _).
    assert (Hsub1 : has_submission submissionId db1 = true).
    { unfold has_submission, db1. cbn. rewrite existsb_update_where by reflexivity.
      apply (find_existsb _ _ _ _ Hs). apply find_some in Hs. tauto. }
    assert (Hcomp1 : has_company (company_id company) db1 = true).
    { unfold has_company, db1. cbn.
      apply (find_existsb _ _ _ _ Hc). apply String.eqb_refl. }
    assert (Hpay1 : forall db2,
               users db2 = users db1 -> companies db2 = companies db1 ->
               submissions db2 = submissions db1 -> payments db2 = payments db1 ->
               exists p db3,
                 createPayment paymentUuid now
                   (mkInsertPayment submissionId
                      (submission_candidateId submission) (company_id company)
                      (Value (project_payment project)) (Value "paid")
                      (Value now)) db2 = (Returned p, db3)).
    { intros db2 Hu2 Hc2 Hs2 Hp2.
      apply createPayment_succeeds
        with (amount := project_payment project) (status := "paid");
        [reflexivity | exact Hamount | reflexivity | reflexivity | exact Hnow
        | | | |]; cbn.
      - unfold has_payment in *. now rewrite Hp2.
      - unfold has_submission in *. now rewrite Hs2.
      - unfold has_user in *. now rewrite Hu2.
      - unfold has_company in *. now rewrite Hc2. }
    destruct (truthy_num (rb_rating body)) eqn:Htruthy.
    - destruct (rb_rating body) as [| |score] eqn:Hscore; try discriminate.
      cbn in Htruthy. apply negb_true_iff, Z.eqb_neq in Htruthy.
      destruct (Hrating score eq_refl Htruthy) as [Hrange Hfresh'].
      destruct (createRating_succeeds ratingUuid now
                  (mkInsertRating submissionId (submission_candidateId submission)
                     (company_id company) (Value score) (rb_feedback body))
                  db1 score Hfeedback eq_refl Hrange Hfresh' Hsub1 Hcandidate Hcomp1)
        as (r & db2 & Hrun).
      pose proof (createRating_keeps ratingUuid now
                    (mkInsertRating submissionId (submission_candidateId submission)
                       (company_id company) (Value score) (rb_feedback body)) db1)
        as (Hu2 & Hc2 & Hs2 & Hp2).
      rewrite Hrun in *. cbn in *.
      destruct (Hpay1 db2 Hu2 Hc2 Hs2 Hp2) as (p & db3 & ->). reflexivity.
    - destruct (Hpay1 db1 eq_refl eq_refl eq_refl eq_refl) as (p & db3 & ->).
      reflexivity. }
  unfold_storage.
  destruct (find _ (companies db)) as [company|]; cbn;
    [|repeat split; easy].
  destruct (find _ (submissions db)) as [submission|]; cbn;
    [|repeat split; easy].
  destruct (find _ (projects db)) as [project|] eqn:Hproject; cbn;
    [|repeat split; easy].
  destruct (negb _); cbn; [repeat split; easy|].
  match goal with
  | |- context [updateSubmission submissionId ?u now db] =>
      pose proof (updateSubmission_frame submissionId u now db) as Hup;
      destruct (updateSubmission submissionId u now db) as [[o|e] db1]
  end; cbn in *; destruct Hup as (_ & _ & _ & _ & Hup);
    [|repeat split; easy].
  destruct (rb_approved body) as [| |[|]]; cbn; try (repeat split; easy).
  assert (Hpay : forall db2, payments db2 = payments db ->
    match createPayment paymentUuid now
            (mkInsertPayment submissionId (submission_candidateId submission)
               (company_id company) (Value (project_payment project))
               (Value "paid") (Value now)) db2 with
    | (Returned p, db3) =>
        payments db3 = payments db ++ [p]
        /\ payment_submissionId p = submissionId
        /\ payment_candidateId p = submission_candidateId submission
        /\ payment_amount p = project_payment project
        /\ payment_status p = "paid"
        /\ payment_paidAt p = Some now
    | (Thrown _, db3) => payments db3 = payments db
    end).
  { intros db2 H2.
    match goal with
    | |- context [createPayment paymentUuid now ?ins db2] =>
        pose proof (createPayment_run paymentUuid now db2 ins) as Hins;
        destruct (createPayment paymentUuid now ins db2) as [[p|e] db3]
    end; [|congruence].
    destruct Hins as (-> & _ & Hs & Hc & _ & Ha & Hst & Hat). cbn in *.
    rewrite H2. repeat split; auto. congruence. }
  destruct (truthy_num (rb_rating body)).
  - match goal with
    | |- context [createRating ratingUuid now ?ins db1] =>
        pose proof (createRating_keeps ratingUuid now ins db1) as (_ & _ & _ & Hr);
        destruct (createRating ratingUuid now ins db1) as [[r|e] db2]
    end; cbn in *; [|repeat split; try easy; congruence].
    specialize (Hpay db2 (eq_trans Hr Hup)).
    destruct (createPayment _ _ _ db2) as [[p|e] db3]; cbn.
    + repeat split; try easy. intros _ _. exists submission, project, p.
      rewrite Hproject. easy.
    + repeat split; easy.
  - specialize (Hpay db1 Hup).
    destruct (createPayment _ _ _ db1) as [[p|e] db3]; cbn.
    + repeat split; try easy. intros _ _. exists submission, project, p.
      rewrite Hproject. easy.
    + repeat split; easy.
Qed.

(** ** Candidate statistics *)

Lemma order_desc_nil {A} (stamp : A -> option Timestamp) (l : list A) :
  order_desc stamp l = [] -> l = [].
Proof.
  destruct l as [|a l]; [reflexivity|]. unfold order_desc. cbn [fold_right].
  destruct (fold_right (insert_desc stamp) [] l) as [|b rest]; cbn; [discriminate|].
  destruct (newer_first (stamp a) (stamp b)); discriminate.
Qed.

(** C9: for a candidate without a rating row the statistics call answers 200
    with [averageRating] equal to 0, and it reads the database only. *)
Theorem average_rating_without_ratings (candidateId : Id) (db : Database) :
  fst (getRatingsByCandidate candidateId db) = Returned [] ->
  exists stats,
    get_candidate_stats candidateId db = (Json (JStats stats), db)
    /\ averageRating stats = 0%Q.
Proof.
  cbn. intros [= Hnone]. apply order_desc_nil in Hnone.
  unfold get_candidate_stats, getCandidateStats. unfold_storage.
  eexists; split; [reflexivity|]. cbn. now rewrite Hnone.
Qed.

(** ** The frame of a profile update *)

Lemma update_where_Forall2 {A} (R : A -> A -> Prop) (sel : A -> bool)
    (f : A -> A) (l : list A) :
  (forall a, sel a = true -> R a (f a)) ->
  (forall a, R a a) ->
  Forall2 R l (update_where sel f l).
Proof.
  intros Hf Hrefl. induction l as [|a l IH]; cbn; constructor; auto.
  destruct (sel a) eqn:E; auto.
Qed.

(** C10: whatever the body holds, key [role], [email] or [id] included,
    [PATCH /api/profile] leaves every table but [users] as it was, keeps the
    rows of [users] in place, changes no row of another user, and keeps the
    id, the e-mail and the role of the caller's row. *)
Theorem patch_profile_frame
    (userId : Id) (body : PartialUser) (now : Timestamp) (db : Database) :
  let db' := after (patch_profile userId body now) db in
  Forall2 (profile_frame userId) (users db) (users db')
  /\ companies db' = companies db
  /\ projects db' = projects db
  /\ submissions db' = submissions db
  /\ ratings db' = ratings db
  /\ payments db' = payments db.
Proof.
  assert (Hrefl : forall u, profile_frame userId u u) by (intros u; red; tauto).
  unfold after, patch_profile.
  match goal with
  | |- context [updateUserProfile userId ?u now] =>
      pose proof (updateUserProfile_run userId now db u) as Hrun
  end.
  unfold_storage.
  destruct (updateUserProfile _ _ _ db) as [[o|e] db1]; cbn in *;
    (destruct Hrun as [-> | (-> & _)]; cbn;
     [repeat split; auto; clear; induction (users db); constructor; auto|]);
    (repeat split; auto; apply update_where_Forall2; auto;
     intros u Hu; red; cbn; repeat split; auto;
     apply String.eqb_eq in Hu; congruence).
Qed.

(** ** The two storage calls of company creation *)

Lemma find_update_where {A} (sel : A -> bool) (f : A -> A) (l : list A) :
  (forall a, sel a = true -> sel (f a) = true) ->
  find sel (update_where sel f l) = option_map f (find sel l).
Proof.
  intros Hsel. induction l as [|a l IH]; cbn; [reflexivity|].
  destruct (sel a) eqn:E.
  - now rewrite (Hsel a E).
  - now rewrite E.
Qed.

Lemma find_none_last {A} (sel : A -> bool) (l : list A) (a : A) :
  find sel l = None -> sel a = true -> find sel (l ++ [a]) = Some a.
Proof.
  intros Hnone Ha. induction l as [|b l IH]; cbn in *.
  - now rewrite Ha.
  - destruct (sel b); [easy | auto].
Qed.

Lemma existsb_find {A} (sel : A -> bool) (l : list A) :
  existsb sel l = true -> exists a, find sel l = Some a.
Proof.
  induction l as [|b l IH]; cbn; [easy|].
  destruct (sel b); cbn; eauto.
Qed.

(** The role update of the handler cannot throw: it passes no string and
    touches neither a key nor a unique column. *)
Lemma updateUserProfile_roleUpdate (id : Id) (role : userRole) (now : Timestamp)
    (db : Database) :
  updateUserProfile id (roleUpdate role) now db =
  match find (fun u => String.eqb (user_id u) id) (users db) with
  | Some u =>
      (Returned (Some (set_user (roleUpdate role) now u)),
       mkDatabase (update_where (fun u' => String.eqb (user_id u') id)
                                (set_user (roleUpdate role) now) (users db))
                  (companies db) (projects db) (submissions db)
                  (ratings db) (payments db))
  | None => (Returned None, db)
  end.
Proof.
  unfold updateUserProfile, user_key_checks, user_email_checks. unfold_storage.
  cbn. now destruct (find _ (users db)).
Qed.

(** C2, as the code has it: the role update and the insert are two storage
    calls outside any transaction.  A call that succeeds leaves the owner
    with role [company] and appends the company row, which the owner's
    lookup then finds; a call that fails appends no company row, changes
    nothing when it answers 400 because the user already has a company, and
    otherwise answers 500 and keeps what the role update did before the
    insert threw. *)
Theorem company_creation_outcomes
    (userId : Id) (body : CompanyBody) (uuid : Id) (now : Timestamp)
    (db : Database) :
  let h := post_company_profile userId body uuid now in
  (forall company,
      response h db = Json (JCompany company) ->
      role_of userId (after h db) = Some RoleCompany
      /\ companies (after h db) = companies db ++ [company]
      /\ company_userId company = userId
      /\ company_status company = CompanyPending
      /\ company_of userId (after h db) = Some company)
  /\ (forall code message,
       response h db = Status code message ->
       companies (after h db) = companies db
       /\ (code = 400 /\ company_of userId db <> None /\ after h db = db
           \/ code = 500 /\ company_of userId db = None
              /\ after h db
                 = snd (updateUserProfile userId (roleUpdate RoleCompany) now db)
              /\ role_of userId (after h db)
                 = option_map (fun _ => RoleCompany) (role_of userId db))).
Proof.
  intros h; subst h.
  unfold response, after, post_company_profile, role_of, company_of.
  unfold_storage. cbn [fst snd].
  destruct (find _ (companies db)) as [existing|] eqn:Hexisting; cbn [fst snd].
  { split; [easy|]. intros code message [= <- <-]. split; [easy|]. left. easy. }
  rewrite updateUserProfile_roleUpdate.
  set (sel := fun u : User => String.eqb (user_id u) userId).
  assert (Hsel : forall u, sel u = true ->
                   sel (set_user (roleUpdate RoleCompany) now u) = true)
    by (intros u; exact id).
  destruct (find sel (users db)) as [u|] eqn:Hu; cbn [fst snd];
    match goal with
    | |- context [createCompany uuid now ?ins ?db1] =>
        pose proof (createCompany_run uuid now db1 ins) as Hins;
        destruct (createCompany uuid now ins db1) as [[c|e] db2]
    end; cbn [fst snd] in *.
  - destruct Hins as (-> & _ & Hc & _ & Hs). cbn in *.
    split; [|easy]. intros company [= <-].
    rewrite (find_update_where sel (set_user (roleUpdate RoleCompany) now) _ Hsel), Hu.
    cbn.
    rewrite (find_none_last _ _ c Hexisting)
      by (rewrite Hc; apply String.eqb_refl).
    repeat split; auto.
  - subst db2. cbn. split; [easy|].
    intros code message [= <- <-]. split; [easy|]. right.
    repeat split; auto.
    rewrite (find_update_where sel (set_user (roleUpdate RoleCompany) now) _ Hsel), Hu.
    reflexivity.
  - destruct Hins as (_ & _ & _ & Hfk & _). cbn in Hfk.
    apply existsb_find in Hfk as [u Hfk]. fold sel in Hfk. congruence.
  - subst db2. split; [easy|].
    intros code message [= <- <-]. split; [easy|]. right.
    repeat split; auto. now rewrite Hu.
Qed.

(** ** The status an admin review writes *)

Lemma find_update_where_other {A} (sel sel' : A -> bool) (f : A -> A) (l : list A) :
  (forall a, sel a = true -> sel' a = false /\ sel' (f a) = false) ->
  find sel' (update_where sel f l) = find sel' l.
Proof.
  intros Hother. unfold update_where.
  induction l as [|a l IH]; cbn; [reflexivity|].
  destruct (sel a) eqn:E; [|now rewrite IH].
  destruct (Hother a E) as [-> ->]. exact IH.
Qed.

Lemma updateCompany_statusUpdate (id : Id) (status : companyStatus)
    (now : Timestamp) (db : Database) :
  updateCompany id (statusUpdate status) now db =
  match find (fun c => String.eqb (company_id c) id) (companies db) with
  | Some c =>
      (Returned (Some (set_company (statusUpdate status) now c)),
       mkDatabase (users db)
                  (update_where (fun c' => String.eqb (company_id c') id)
                                (set_company (statusUpdate status) now)
                                (companies db))
                  (projects db) (submissions db) (ratings db) (payments db))
  | None => (Returned None, db)
  end.
Proof.
  unfold updateCompany. unfold_storage. cbn.
  now destruct (find _ (companies db)).
Qed.

Lemma updateProject_statusUpdate (id : Id) (status : projectStatus)
    (now : Timestamp) (db : Database) :
  updateProject id (projectStatusUpdate status) now db =
  match find (fun p => String.eqb (project_id p) id) (projects db) with
  | Some p =>
      (Returned (Some (set_project (projectStatusUpdate status) now p)),
       mkDatabase (users db) (companies db)
                  (update_where (fun p' => String.eqb (project_id p') id)
                                (set_project (projectStatusUpdate status) now)
                                (projects db))
                  (submissions db) (ratings db) (payments db))
  | None => (Returned None, db)
  end.
Proof.
  unfold updateProject. unfold_storage. cbn.
  now destruct (find _ (projects db)).
Qed.

Lemma requireRole_admin (userId : Id) (next : Handler) (db : Database) :
  userId <> "" -> role_of userId db = Some RoleAdmin ->
  requireRole [RoleAdmin] userId next db = next db.
Proof.
  unfold requireRole, role_of. unfold_storage. cbn.
  intros Hsub Hrole. apply String.eqb_neq in Hsub. rewrite Hsub.
  destruct (find _ (users db)) as [u|]; [|easy].
  injection Hrole as ->. reflexivity.
Qed.

Lemma requireRole_refuses (userId : Id) (next : Handler) (db : Database) :
  role_of userId db <> Some RoleAdmin ->
  snd (requireRole [RoleAdmin] userId next db) = db.
Proof.
  unfold requireRole, role_of. unfold_storage. cbn.
  intros Hrole. destruct (String.eqb userId ""); [easy|].
  destruct (find _ (users db)) as [u|]; [|easy].
  destruct (user_role u); cbn; easy.
Qed.

Lemma eqb_other (a b c : Id) :
  a <> b -> String.eqb c b = true -> String.eqb c a = false.
Proof.
  intros Hab Hc. apply String.eqb_eq in Hc. apply String.eqb_neq. congruence.
Qed.

(** C7, as the code has it: an admin review call overwrites the status of
    the company (the project) it names with [approved] or [rejected]
    ([active] or [cancelled]) after the [approved] flag of the request alone,
    whatever the status was, and touches the status of no other row; a
    caller who is not an admin changes nothing. *)
Theorem admin_review_sets_status
    (userId id : Id) (approved : Field bool) (now : Timestamp) (db : Database) :
  let reviewed_company := after (post_admin_company_review userId id approved now) db in
  let reviewed_project := after (post_admin_project_review userId id approved now) db in
  (userId <> "" -> role_of userId db = Some RoleAdmin ->
   (company_status_of id reviewed_company
    = option_map (fun _ => if truthy_bool approved then CompanyApproved
                           else CompanyRejected)
                 (company_status_of id db)
    /\ forall other, other <> id ->
         company_status_of other reviewed_company = company_status_of other db)
   /\ (project_status_of id reviewed_project
       = option_map (fun _ => if truthy_bool approved then ProjectActive
                              else ProjectCancelled)
                    (project_status_of id db)
       /\ forall other, other <> id ->
            project_status_of other reviewed_project = project_status_of other db))
  /\ (role_of userId db <> Some RoleAdmin ->
      reviewed_company = db /\ reviewed_project = db).
Proof.
  cbv zeta. unfold after, post_admin_company_review, post_admin_project_review.
  split.
  - intros Hsub Hrole. rewrite !requireRole_admin by assumption.
    unfold_storage. rewrite updateCompany_statusUpdate, updateProject_statusUpdate.
    unfold company_status_of, project_status_of.
    split.
    + destruct (find _ (companies db)) as [c|] eqn:Hc; cbn [fst snd companies].
      * split.
        -- rewrite find_update_where by auto. now rewrite Hc.
        -- intros other Hother. f_equal. apply find_update_where_other.
           intros a Ha. cbn. split; apply (eqb_other _ _ _ Hother Ha).
      * rewrite Hc. easy.
    + destruct (find _ (projects db)) as [p|] eqn:Hp; cbn [fst snd projects].
      * split.
        -- rewrite find_update_where by auto. now rewrite Hp.
        -- intros other Hother. f_equal. apply find_update_where_other.
           intros a Ha. cbn. split; apply (eqb_other _ _ _ Hother Ha).
      * rewrite Hp. easy.
  - intros Hrole. split; now apply requireRole_refuses.
Qed.

(** ** The properties on the run *)

Import Scenario.

(** C1: the review handler has no guard on the status of the submission it
    reviews.  On the submission of the run, already [approved] with one
    rating and one payment, a second review call with [approved = true]
    answers 200 and leaves two ratings and two payments for the same
    submission; one with [approved = false] answers 200 as well and turns
    the status from [approved] to [rejected]. *)
Theorem second_review_settles_again :
  map submission_status (submissions settled) = [SubmissionApproved]
  /\ map payment_submissionId (payments settled) = ["s1"]
  /\ response approve_again settled = Json JSuccess
  /\ map payment_submissionId (payments (after approve_again settled))
     = ["s1"; "s1"]
  /\ map rating_submissionId (ratings (after approve_again settled))
     = ["s1"; "s1"]
  /\ response reject_after_all settled = Json JSuccess
  /\ map submission_status (submissions (after reject_after_all settled))
     = [SubmissionRejected].
Proof. vm_compute. repeat split; reflexivity. Qed.

(** C8: the review handler stores the rating of the request as it comes.
    A review call with [approved = true] and [rating = 7] on the pending
    submission of the run answers 200 and creates a rating of score 7. *)
Theorem rating_score_stored_unchecked :
  response approve_with_seven submitted = Json JSuccess
  /\ map rating_score (ratings (after approve_with_seven submitted)) = [7].
Proof. vm_compute. split; reflexivity. Qed.

(** C2 fails as stated: a body without [name] makes the insert throw after
    the role update, so the call answers 500 and the user, a candidate
    before, is left with role [company] and without a company row. *)
Lemma company_creation_not_atomic :
  ~ company_creation_atomic "owner" (companyBody Undefined) "c1" 1 registered.
Proof. vm_compute. intros [_ H]. discriminate H. Qed.

(** C3 fails as stated: on the run, the review call of the owner with
    [approved = true] and a rating that does not fit the [integer] column
    answers 500 after the status update, so the submission is left
    [approved] and no payment has been created. *)
Lemma approval_without_payment :
  ~ approval_pays "owner" "s1"
      (mkReviewBody (Value true) (Value 2147483648) (Value "great"))
      "r1" "pay1" 6 submitted
  /\ response approve_with_overflow submitted
     = Status 500 "Failed to review submission"
  /\ submission_status_of "s1" (after approve_with_overflow submitted)
     = Some SubmissionApproved
  /\ payments (after approve_with_overflow submitted) = [].
Proof.
  split; [|vm_compute; repeat split].
  intros [H _]. destruct (H eq_refl) as (s & p & pay & _ & _ & Hpay & _).
  vm_compute in Hpay. discriminate Hpay.
Qed.

(** C7 fails as stated: on the run, a second admin review call with
    [approved = false] turns the [approved] company into [rejected]. *)
Lemma admin_review_not_terminal :
  ~ admin_review_terminal "admin" "c1" "p1" (Value false) 9 project_active.
Proof.
  intros [H _]. specialize (H CompanyApproved eq_refl (or_introl eq_refl)).
  vm_compute in H. discriminate H.
Qed.


Lemma project_only_by_approved_company_witness :
  (exists company,
      fst (getCompanyByUserId "owner" with_company) = Returned (Some company)
      /\ company_status company <> CompanyApproved
      /\ response post_project with_company
         = Status 403 "Company must be approved to post projects"
      /\ after post_project with_company = with_company)
  /\ exists project,
       response post_project company_approved = Json (JProject project)
       /\ project_status project = ProjectPending.
Proof.
  split.
  - eexists. split; [vm_compute; reflexivity|].
    split; [vm_compute; discriminate|].
    eapply (proj1 (project_only_by_approved_company
                     "owner" projectBody "p1" 3 with_company)).
    + vm_compute. reflexivity.
    + vm_compute. discriminate.
  - eexists. split; [vm_compute; reflexivity|].
    apply (proj2 (project_only_by_approved_company
                    "owner" projectBody "p1" 3 company_approved)).
    vm_compute. reflexivity.
Defined.

Lemma one_submission_per_candidate_and_project_witness :
  one_submission_per_pair project_active
  /\ one_submission_per_pair (run_calls [first_call; second_call] project_active)
  /\ (exists s, response (call first_call) project_active = Json (JSubmission s))
  /\ response (call second_call)
       (run_calls [] (after (call first_call) project_active))
     = Status 400 "You have already submitted to this project".
Proof.
  assert (Hinv : one_submission_per_pair project_active).
  { intros p c. vm_compute. lia. }
  split; [exact Hinv|]. split.
  - exact (proj1 (one_submission_per_candidate_and_project project_active) _ Hinv).
  - split; [eexists; vm_compute; reflexivity|].
    eapply (proj2 (one_submission_per_candidate_and_project project_active)).
    + vm_compute. reflexivity.
    + reflexivity.
    + reflexivity.
Defined.

Lemma approval_creates_one_payment_witness :
  (response approve submitted = Json JSuccess
   /\ exists payment,
        payments (after approve submitted) = payments submitted ++ [payment]
        /\ payment_amount payment = 25000
        /\ payment_status payment = "paid"
        /\ payment_paidAt payment = Some 6)
  /\ (response approve_as_stranger submitted <> Json JSuccess
      /\ payments (after approve_as_stranger submitted) = payments submitted)
  /\ payments (after reject submitted) = payments submitted.
Proof.
  pose proof (approval_creates_one_payment "owner" "s1"
                (mkReviewBody (Value true) (Value 5) (Value "great"))
                "r1" "pay1" 6 submitted) as (Hsucceeds & Hpays & _).
  assert (Hok : response approve submitted = Json JSuccess).
  { eapply Hsucceeds.
    - vm_compute. reflexivity.
    - vm_compute. reflexivity.
    - vm_compute. reflexivity.
    - vm_compute. reflexivity.
    - reflexivity.
    - reflexivity.
    - reflexivity.
    - intros score [= <-] _. vm_compute. split; reflexivity.
    - vm_compute. reflexivity.
    - vm_compute. reflexivity.
    - vm_compute. reflexivity. }
  split; [|split].
  - split; [exact Hok|].
    destruct (Hpays eq_refl Hok)
      as (submission & project & payment & Hs & Hp & Hpay & _ & _ & Ha & Hst & Hat).
    vm_compute in Hs. injection Hs as <-.
    vm_compute in Hp. injection Hp as <-.
    exists payment. auto.
  - assert (Hno : response approve_as_stranger submitted <> Json JSuccess)
      by (vm_compute; discriminate).
    split; [exact Hno|].
    exact (proj1 (proj2 (proj2 (approval_creates_one_payment "cand" "s1"
                           (mkReviewBody (Value true) (Value 5) (Value "great"))
                           "r1" "pay1" 6 submitted))) eq_refl Hno).
  - exact (proj2 (proj2 (proj2 (approval_creates_one_payment "owner" "s1"
                           (mkReviewBody (Value false) Undefined (Value "no"))
                           "r1" "pay1" 6 submitted))) eq_refl).
Defined.

Lemma average_rating_without_ratings_witness :
  fst (getRatingsByCandidate "cand" submitted) = Returned []
  /\ exists stats,
       get_candidate_stats "cand" submitted = (Json (JStats stats), submitted)
       /\ averageRating stats = 0%Q.
Proof.
  assert (Hnone : fst (getRatingsByCandidate "cand" submitted) = Returned [])
    by (vm_compute; reflexivity).
  split; [exact Hnone|].
  exact (average_rating_without_ratings "cand" submitted Hnone).
Defined.

Lemma company_creation_outcomes_witness :
  (exists company,
      response (create_company (Value "A")) registered = Json (JCompany company)
      /\ role_of "owner" (after (create_company (Value "A")) registered)
         = Some RoleCompany
      /\ company_of "owner" (after (create_company (Value "A")) registered)
         = Some company)
  /\ (response (create_company Undefined) registered
      = Status 500 "Failed to create company"
      /\ companies (after (create_company Undefined) registered)
         = companies registered).
Proof.
  split.
  - eexists. split; [vm_compute; reflexivity|].
    match goal with
    | |- role_of _ _ = _ /\ company_of _ _ = Some ?c =>
        destruct (proj1 (company_creation_outcomes
                           "owner" (companyBody (Value "A")) "c1" 1 registered) c)
          as (Hrole & _ & _ & _ & Hcompany)
    end.
    + vm_compute. reflexivity.
    + split; assumption.
  - assert (Hfail : response (create_company Undefined) registered
                    = Status 500 "Failed to create company")
      by (vm_compute; reflexivity).
    split; [exact Hfail|].
    exact (proj1 (proj2 (company_creation_outcomes
                           "owner" (companyBody Undefined) "c1" 1 registered)
                    _ _ Hfail)).
Defined.

Lemma admin_review_sets_status_witness :
  ("admin" <> "" /\ role_of "admin" project_active = Some RoleAdmin
   /\ company_status_of "c1" project_active = Some CompanyApproved
   /\ company_status_of "c1" (after (revoke "admin") project_active)
      = Some CompanyRejected)
  /\ (role_of "cand" project_active <> Some RoleAdmin
      /\ after (revoke "cand") project_active = project_active).
Proof.
  assert (Hsub : "admin" <> "") by discriminate.
  assert (Hrole : role_of "admin" project_active = Some RoleAdmin)
    by (vm_compute; reflexivity).
  assert (Hcand : role_of "cand" project_active <> Some RoleAdmin)
    by (vm_compute; discriminate).
  split.
  - split; [exact Hsub|]. split; [exact Hrole|].
    split; [vm_compute; reflexivity|].
    unfold revoke.
    rewrite (proj1 (proj1 (proj1 (admin_review_sets_status
                                    "admin" "c1" (Value false) 9 project_active)
                             Hsub Hrole))).
    vm_compute. reflexivity.
  - split; [exact Hcand|].
    exact (proj1 (proj2 (admin_review_sets_status
                           "cand" "c1" (Value false) 9 project_active) Hcand)).
Defined.

(** * More of the storage layer and of the handlers *)

(** ** What an insert returns *)

Section InsertedRows.

Variables (id : Id) (now : Timestamp) (db : Database).

Lemma createCompany_exact (ins : InsertCompany) :
  match createCompany id now ins db with
  | (Returned c, db') =>
      exists name status,
        ic_name ins = Value name
        /\ (ic_status ins = Value status
            \/ ic_status ins = Undefined /\ status = CompanyPending)
        /\ c = mkCompany id (ic_userId ins) name
                 (nullable (ic_description ins)) (nullable (ic_website ins))
                 (nullable (ic_logoUrl ins)) (nullable (ic_industry ins))
                 (nullable (ic_size ins)) status (Some now) (Some now)
        /\ db' = mkDatabase (users db) (companies db ++ [c]) (projects db)
                            (submissions db) (ratings db) (payments db)
        /\ has_company id db = false
        /\ has_user (ic_userId ins) db = true
  | (Thrown _, db') => db' = db
  end.
Proof.
  unfold createCompany. run_storage; cbn; try reflexivity;
    do 2 eexists; repeat split; eauto; now apply negb_true_iff.
Qed.

Lemma createProject_exact (ins : InsertProject) :
  match createProject id now ins db with
  | (Returned p, db') =>
      exists title description payment status,
        ip_title ins = Value title
        /\ ip_description ins = Value description
        /\ ip_payment ins = Value payment
        /\ decimal_10_2_ok payment = true
        /\ (ip_status ins = Value status
            \/ ip_status ins = Undefined /\ status = ProjectPending)
        /\ p = mkProject id (ip_companyId ins) title description
                 (nullable (ip_requirements ins)) (nullable (ip_skills ins))
                 payment (defaulted "intermediate" (ip_difficulty ins))
                 (nullable (ip_deadline ins))
                 (defaulted 10 (ip_maxSubmissions ins))
                 status (Some now) (Some now)
        /\ db' = mkDatabase (users db) (companies db) (projects db ++ [p])
                            (submissions db) (ratings db) (payments db)
        /\ has_project id db = false
        /\ has_company (ip_companyId ins) db = true
  | (Thrown _, db') => db' = db
  end.
Proof.
  unfold createProject. run_storage; cbn; try reflexivity;
    do 4 eexists; repeat split; eauto; now apply negb_true_iff.
Qed.

Lemma createSubmission_exact (ins : InsertSubmission) :
  match createSubmission id now ins db with
  | (Returned s, db') =>
      exists content status,
        is_content ins = Value content
        /\ (is_status ins = Value status
            \/ is_status ins = Undefined /\ status = SubmissionPending)
        /\ s = mkSubmission id (is_projectId ins) (is_candidateId ins) content
                 (nullable (is_attachmentUrl ins)) status
                 (nullable (is_feedback ins)) (Some now) (Some now)
        /\ db' = mkDatabase (users db) (companies db) (projects db)
                            (submissions db ++ [s]) (ratings db) (payments db)
        /\ has_submission id db = false
        /\ has_project (is_projectId ins) db = true
        /\ has_user (is_candidateId ins) db = true
  | (Thrown _, db') => db' = db
  end.
Proof.
  unfold createSubmission. run_storage; cbn; try reflexivity;
    do 2 eexists; repeat split; eauto; now apply negb_true_iff.
Qed.

Lemma createRating_exact (ins : InsertRating) :
  match createRating id now ins db with
  | (Returned r, db') =>
      exists score,
        ir_score ins = Value score
        /\ int4_ok score = true
        /\ r = mkRating id (ir_submissionId ins) (ir_candidateId ins)
                 (ir_companyId ins) score (nullable (ir_review ins)) (Some now)
        /\ db' = mkDatabase (users db) (companies db) (projects db)
                            (submissions db) (ratings db ++ [r]) (payments db)
        /\ has_rating id db = false
        /\ has_submission (ir_submissionId ins) db = true
        /\ has_user (ir_candidateId ins) db = true
        /\ has_company (ir_companyId ins) db = true
  | (Thrown _, db') => db' = db
  end.
Proof.
  unfold createRating. run_storage; cbn; try reflexivity;
    eexists; repeat split; eauto; now apply negb_true_iff.
Qed.

Lemma createPayment_exact (ins : InsertPayment) :
  match createPayment id now ins db with
  | (Returned p, db') =>
      exists amount status,
        ipay_amount ins = Value amount
        /\ decimal_10_2_ok amount = true
        /\ (ipay_status ins = Value status
            \/ ipay_status ins = Undefined /\ status = "pending")
        /\ p = mkPayment id (ipay_submissionId ins) (ipay_candidateId ins)
                 (ipay_companyId ins) amount status
                 (nullable (ipay_paidAt ins)) (Some now)
        /\ db' = mkDatabase (users db) (companies db) (projects db)
                            (submissions db) (ratings db) (payments db ++ [p])
        /\ has_payment id db = false
        /\ has_submission (ipay_submissionId ins) db = true
        /\ has_user (ipay_candidateId ins) db = true
        /\ has_company (ipay_companyId ins) db = true
  | (Thrown _, db') => db' = db
  end.
Proof.
  unfold createPayment. run_storage; cbn; try reflexivity;
    do 2 eexists; repeat split; eauto; now apply negb_true_iff.
Qed.

End InsertedRows.

(** ** What a review call does *)

Lemma review_run
    (userId submissionId : Id) (body : ReviewBody) (ratingUuid paymentUuid : Id)
    (now : Timestamp) (db : Database) :
  let h := post_company_submission_review userId submissionId body
             ratingUuid paymentUuid now in
  let approved := truthy_bool (rb_approved body) in
  ((response h db = Status 404 "Company not found"
    \/ response h db = Status 404 "Submission not found"
    \/ response h db = Status 403 "Not authorized to review this submission")
   /\ after h db = db
   /\ ~ (exists company submission project,
           fst (getCompanyByUserId userId db) = Returned (Some company)
           /\ fst (getSubmission submissionId db) = Returned (Some submission)
           /\ fst (getProject (submission_projectId submission) db)
              = Returned (Some project)
           /\ project_companyId project = company_id company))
  \/ (field_ok text_ok (rb_feedback body) = false
      /\ response h db = Status 500 "Failed to review submission"
      /\ after h db = db
      /\ exists company submission project,
           fst (getCompanyByUserId userId db) = Returned (Some company)
           /\ fst (getSubmission submissionId db) = Returned (Some submission)
           /\ fst (getProject (submission_projectId submission) db)
              = Returned (Some project)
           /\ project_companyId project = company_id company)
  \/ exists company submission project,
       fst (getCompanyByUserId userId db) = Returned (Some company)
       /\ fst (getSubmission submissionId db) = Returned (Some submission)
       /\ fst (getProject (submission_projectId submission) db)
          = Returned (Some project)
       /\ project_companyId project = company_id company
       /\ field_ok text_ok (rb_feedback body) = true
       /\ (response h db = Json JSuccess
           \/ response h db = Status 500 "Failed to review submission")
       /\ users (after h db) = users db
       /\ companies (after h db) = companies db
       /\ projects (after h db) = projects db
       /\ submissions (after h db)
          = update_where (fun s => String.eqb (submission_id s) submissionId)
              (set_submission (reviewed approved (rb_feedback body)) now)
              (submissions db)
       /\ (ratings (after h db) = ratings db
           /\ (response h db = Json JSuccess ->
               approved = false \/ truthy_num (rb_rating body) = false)
           \/ exists score,
                approved = true
                /\ rb_rating body = Value score /\ score <> 0
                /\ ratings (after h db)
                   = ratings db
                     ++ [mkRating ratingUuid submissionId
                           (submission_candidateId submission) (company_id company)
                           score (nullable (rb_feedback body)) (Some now)])
       /\ (payments (after h db) = payments db
           /\ (response h db = Json JSuccess -> approved = false)
           \/ approved = true
              /\ response h db = Json JSuccess
              /\ payments (after h db)
                 = payments db
                   ++ [mkPayment paymentUuid submissionId
                         (submission_candidateId submission) (company_id company)
                         (project_payment project) "paid" (Some now) (Some now)]).
Proof.
  intros h approved; subst h approved. unfold response, after, reviewed.
  destruct (post_company_submission_review _ _ _ _ _ _ db) as [resp db'] eqn:Hrun.
  unfold post_company_submission_review in Hrun.
  unfold_storage. cbn [fst snd] in *.
  destruct (find _ (companies db)) as [company|] eqn:Hc; cbn [fst snd] in Hrun;
    [|injection Hrun as <- <-; left; repeat split; auto;
      intros (c & s & p & [=] & _)].
  destruct (find _ (submissions db)) as [submission|] eqn:Hs; cbn [fst snd] in Hrun;
    [|injection Hrun as <- <-; left; repeat split; auto;
      intros (c & s & p & _ & [=] & _)].
  destruct (find _ (projects db)) as [project|] eqn:Hp; cbn [fst snd] in Hrun;
    [|injection Hrun as <- <-; left; repeat split; auto;
      intros (c & s & p & _ & [= <-] & Hp' & _);
      rewrite Hp in Hp'; discriminate].
  destruct (String.eqb (project_companyId project) (company_id company)) eqn:Hown;
    cbn [fst snd negb] in Hrun;
    [|injection Hrun as <- <-; left; repeat split; auto;
      intros (c & s & p & [= <-] & [= <-] & Hp' & Hown');
      rewrite Hp in Hp'; injection Hp' as <-;
      apply String.eqb_neq in Hown; contradiction].
  apply String.eqb_eq in Hown.
  rewrite updateSubmission_review in Hrun.
  destruct (field_ok text_ok (rb_feedback body)) eqn:Hfeedback;
    cbn [fst snd] in Hrun;
    [|injection Hrun as <- <-; right; left; repeat split; auto;
      exists company, submission, project; rewrite Hp; auto].
  right. right. exists company, submission, project.
  rewrite Hp. do 5 (split; [reflexivity || assumption|]).
  rewrite Hs in Hrun. cbn [fst snd] in Hrun.
  destruct (truthy_bool (rb_approved body)) eqn:Happroved; cbn [fst snd] in Hrun;
    [|injection Hrun as <- <-; cbn; repeat split; auto].
  destruct (truthy_num (rb_rating body)) eqn:Hrating; cbn [fst snd] in Hrun.
  - match type of Hrun with
    | context [createRating ratingUuid now ?ins ?db1] =>
        pose proof (createRating_exact ratingUuid now db1 ins) as Hr;
        destruct (createRating ratingUuid now ins db1) as [[r|e] db2]
    end; cbn [fst snd] in *.
    + destruct Hr as (score & Hscore & _ & -> & -> & _). cbn in Hscore.
      rewrite Hscore in Hrating. cbn in Hrating.
      apply negb_true_iff, Z.eqb_neq in Hrating.
      match type of Hrun with
      | context [createPayment paymentUuid now ?ins ?db2] =>
          pose proof (createPayment_exact paymentUuid now db2 ins) as Hpay;
          destruct (createPayment paymentUuid now ins db2) as [[p|e] db3]
      end; cbn [fst snd] in *.
      * destruct Hpay
          as (amount & status & [= <-] & _ & [[= <-]|[[=] _]] & -> & -> & _).
        injection Hrun as <- <-. cbn. repeat split; auto. right. eauto.
      * subst db3. injection Hrun as <- <-. cbn.
        repeat split; auto; [right; eauto | left; easy].
    + subst db2. injection Hrun as <- <-. cbn. repeat split; auto; left; easy.
  - match type of Hrun with
    | context [createPayment paymentUuid now ?ins ?db2] =>
        pose proof (createPayment_exact paymentUuid now db2 ins) as Hpay;
        destruct (createPayment paymentUuid now ins db2) as [[p|e] db3]
    end; cbn [fst snd] in *.
    + destruct Hpay
        as (amount & status & [= <-] & _ & [[= <-]|[[=] _]] & -> & -> & _).
      injection Hrun as <- <-. cbn. repeat split; auto.
    + subst db3. injection Hrun as <- <-. cbn. repeat split; auto; left; easy.
Qed.


(** X2: a review call, whatever it answers, leaves the users, the companies
    and the projects as they were, keeps every submission in its place with
    its key, project, candidate, content, attachment and creation stamp, and
    changes nothing at all in a submission other than the one it names. *)
Theorem review_frame
    (userId submissionId : Id) (body : ReviewBody) (ratingUuid paymentUuid : Id)
    (now : Timestamp) (db : Database) :
  let db' := after (post_company_submission_review userId submissionId body
                      ratingUuid paymentUuid now) db in
  users db' = users db
  /\ companies db' = companies db
  /\ projects db' = projects db
  /\ Forall2 (fun s s' =>
                submission_id s' = submission_id s
                /\ submission_projectId s' = submission_projectId s
                /\ submission_candidateId s' = submission_candidateId s
                /\ submission_content s' = submission_content s
                /\ submission_attachmentUrl s' = submission_attachmentUrl s
                /\ submission_createdAt s' = submission_createdAt s
                /\ (submission_id s <> submissionId -> s' = s))
             (submissions db) (submissions db').
Proof.
  intros db'; subst db'.
  destruct (review_run userId submissionId body ratingUuid paymentUuid now db)
    as [(_ & -> & _)
       | [(_ & _ & -> & _)
         | (c & s & p & _ & _ & _ & _ & _ & _ & -> & -> & -> & -> & _)]].
  - repeat split. induction (submissions db); constructor; auto. tauto.
  - repeat split. induction (submissions db); constructor; auto. tauto.
  - repeat split. apply update_where_Forall2.
    + intros a Ha. cbn. repeat split. intros Hne.
      apply String.eqb_eq in Ha. contradiction.
    + tauto.
Qed.


(** X4: when the caller owns the company of the project of the submission
    and the feedback is one the server reads, the status and the feedback
    of the review are written whatever happens afterwards: a later lookup
    finds the submission with status [approved] or [rejected] after the
    [approved] flag, and with the feedback of the request when it holds
    one, also when the call answers 500 because an insert threw.  A
    feedback that holds the character U+0000 makes the status update
    itself throw: the call answers 500 and nothing is written. *)
Theorem review_writes_status_first
    (userId submissionId : Id) (body : ReviewBody) (ratingUuid paymentUuid : Id)
    (now : Timestamp) (db : Database) (company : Company)
    (submission : Submission) (project : Project) :
  let h := post_company_submission_review userId submissionId body
             ratingUuid paymentUuid now in
  fst (getCompanyByUserId userId db) = Returned (Some company) ->
  fst (getSubmission submissionId db) = Returned (Some submission) ->
  fst (getProject (submission_projectId submission) db) = Returned (Some project) ->
  project_companyId project = company_id company ->
  (field_ok text_ok (rb_feedback body) = true ->
   exists submission',
     fst (getSubmission submissionId (after h db)) = Returned (Some submission')
     /\ submission_status submission'
        = (if truthy_bool (rb_approved body) then SubmissionApproved
           else SubmissionRejected)
     /\ submission_feedback submission'
        = set_nullable (rb_feedback body) (submission_feedback submission)
     /\ submission_updatedAt submission' = Some now)
  /\ (field_ok text_ok (rb_feedback body) = false ->
      h db = (Status 500 "Failed to review submission", db)).
Proof.
  intros h Hc Hs Hp Hown; subst h.
  destruct (review_run userId submissionId body ratingUuid paymentUuid now db)
    as [(_ & _ & Hnot)
       | [(Hbad & Hresp & Hdb & _)
         | (c & s & p & _ & _ & _ & _ & Hgood & _ & _ & _ & _ & Hsub & _)]].
  - exfalso. apply Hnot. eauto 8.
  - split; [congruence|]. intros _. unfold response, after in *.
    destruct (post_company_submission_review _ _ _ _ _ _ db); cbn in *.
    congruence.
  - split; [|congruence]. intros _.
    cbn in Hs |- *. injection Hs as Hs. rewrite Hsub.
    rewrite find_update_where by auto. rewrite Hs. cbn.
    eexists. split; [reflexivity|]. cbn. auto.
Qed.

(** ** Keys and references under the writes of the storage layer *)

Lemma NoDup_snoc_key {A} (key : A -> Id) (l : list A) (a : A) :
  existsb (fun b => String.eqb (key b) (key a)) l = false ->
  NoDup (map key l) -> NoDup (map key (l ++ [a])).
Proof.
  intros Hfresh Hl. rewrite map_app. cbn.
  apply NoDup_app; [exact Hl | repeat constructor; easy |].
  intros k Hin [<-|[]].
  apply in_map_iff in Hin as (b & Hb & Hin).
  assert (existsb (fun b => String.eqb (key b) (key a)) l = true) as Hyes
    by (apply existsb_exists; exists b; split; [|apply String.eqb_eq]; auto).
  congruence.
Qed.

Lemma map_update_where {A B} (key : A -> B) (sel : A -> bool) (f : A -> A)
    (l : list A) :
  (forall a, key (f a) = key a) ->
  map key (update_where sel f l) = map key l.
Proof.
  intros Hkey. unfold update_where. rewrite map_map. apply map_ext.
  intros a. now destruct (sel a).
Qed.

Lemma Forall_update_where {A} (P : A -> Prop) (sel : A -> bool) (f : A -> A)
    (l : list A) :
  (forall a, P a -> P (f a)) -> Forall P l -> Forall P (update_where sel f l).
Proof.
  intros Hf Hl. unfold update_where. apply Forall_map.
  eapply Forall_impl; [|exact Hl]. intros a Ha. destruct (sel a); auto.
Qed.

Lemma existsb_snoc {A} (sel : A -> bool) (l : list A) (a : A) :
  existsb sel l = true -> existsb sel (l ++ [a]) = true.
Proof. intros H. rewrite existsb_app, H. reflexivity. Qed.

Lemma existsb_last {A} (sel : A -> bool) (l : list A) (a : A) :
  sel a = true -> existsb sel (l ++ [a]) = true.
Proof. intros H. rewrite existsb_app. cbn. rewrite H. apply orb_true_iff. auto. Qed.

Ltac open_consistent :=
  unfold consistent, keys_unique, references_resolve,
    has_user, has_company, has_project, has_submission, has_rating, has_payment
    in *;
  cbn [users companies projects submissions ratings payments] in *.

(** Every reference that resolved before the write resolves after it. *)
Ltac still_resolve :=
  match goal with
  | H : Forall _ ?l |- Forall _ ?l =>
      eapply Forall_impl; [|exact H]; cbn beta;
      intros; repeat match goal with H' : _ /\ _ |- _ => destruct H' end;
      repeat split;
      rewrite ?(existsb_update_where _ _ _ _) by reflexivity;
      auto using existsb_snoc
  end.

Lemma consistent_append_user (db : Database) (u : User) :
  has_user (user_id u) db = false ->
  consistent db ->
  consistent (mkDatabase (users db ++ [u]) (companies db) (projects db)
                         (submissions db) (ratings db) (payments db)).
Proof.
  intros Hfresh ((Ku & Kc & Kp & Ks & Kr & Kpay) & (Rc & Rp & Rs & Rr & Rpay)).
  open_consistent.
  repeat split; auto using NoDup_snoc_key; still_resolve.
Qed.

Lemma consistent_append_company (db : Database) (c : Company) :
  has_company (company_id c) db = false ->
  has_user (company_userId c) db = true ->
  consistent db ->
  consistent (mkDatabase (users db) (companies db ++ [c]) (projects db)
                         (submissions db) (ratings db) (payments db)).
Proof.
  intros Hfresh Hu ((Ku & Kc & Kp & Ks & Kr & Kpay) & (Rc & Rp & Rs & Rr & Rpay)).
  open_consistent.
  repeat split; auto using NoDup_snoc_key;
    try (apply Forall_app; split; [|repeat constructor; auto]);
    still_resolve.
Qed.

Lemma consistent_append_project (db : Database) (p : Project) :
  has_project (project_id p) db = false ->
  has_company (project_companyId p) db = true ->
  consistent db ->
  consistent (mkDatabase (users db) (companies db) (projects db ++ [p])
                         (submissions db) (ratings db) (payments db)).
Proof.
  intros Hfresh Hc ((Ku & Kc & Kp & Ks & Kr & Kpay) & (Rc & Rp & Rs & Rr & Rpay)).
  open_consistent.
  repeat split; auto using NoDup_snoc_key;
    try (apply Forall_app; split; [|repeat constructor; auto]);
    still_resolve.
Qed.

Lemma consistent_append_submission (db : Database) (s : Submission) :
  has_submission (submission_id s) db = false ->
  has_project (submission_projectId s) db = true ->
  has_user (submission_candidateId s) db = true ->
  consistent db ->
  consistent (mkDatabase (users db) (companies db) (projects db)
                         (submissions db ++ [s]) (ratings db) (payments db)).
Proof.
  intros Hfresh Hp Hu ((Ku & Kc & Kp & Ks & Kr & Kpay) & (Rc & Rp & Rs & Rr & Rpay)).
  open_consistent.
  repeat split; auto using NoDup_snoc_key;
    try (apply Forall_app; split; [|repeat constructor; auto]);
    still_resolve.
Qed.

Lemma consistent_append_rating (db : Database) (r : Rating) :
  has_rating (rating_id r) db = false ->
  has_submission (rating_submissionId r) db = true ->
  has_user (rating_candidateId r) db = true ->
  has_company (rating_companyId r) db = true ->
  consistent db ->
  consistent (mkDatabase (users db) (companies db) (projects db)
                         (submissions db) (ratings db ++ [r]) (payments db)).
Proof.
  intros Hfresh Hs Hu Hc ((Ku & Kc & Kp & Ks & Kr & Kpay) & (Rc & Rp & Rs & Rr & Rpay)).
  open_consistent.
  repeat split; auto using NoDup_snoc_key;
    try (apply Forall_app; split; [|repeat constructor; auto]);
    still_resolve.
Qed.

Lemma consistent_append_payment (db : Database) (p : Payment) :
  has_payment (payment_id p) db = false ->
  has_submission (payment_submissionId p) db = true ->
  has_user (payment_candidateId p) db = true ->
  has_company (payment_companyId p) db = true ->
  consistent db ->
  consistent (mkDatabase (users db) (companies db) (projects db)
                         (submissions db) (ratings db) (payments db ++ [p])).
Proof.
  intros Hfresh Hs Hu Hc ((Ku & Kc & Kp & Ks & Kr & Kpay) & (Rc & Rp & Rs & Rr & Rpay)).
  open_consistent.
  repeat split; auto using NoDup_snoc_key;
    try (apply Forall_app; split; [|repeat constructor; auto]);
    still_resolve.
Qed.

Lemma consistent_rewrite_users (db : Database) (sel : User -> bool) (f : User -> User) :
  (forall u, user_id (f u) = user_id u) ->
  consistent db ->
  consistent (mkDatabase (update_where sel f (users db)) (companies db)
                         (projects db) (submissions db) (ratings db)
                         (payments db)).
Proof.
  intros Hid ((Ku & Kc & Kp & Ks & Kr & Kpay) & (Rc & Rp & Rs & Rr & Rpay)).
  open_consistent.
  repeat split; auto; try (rewrite map_update_where by auto; assumption);
    still_resolve;
    rewrite existsb_update_where; auto; intros; now rewrite Hid.
Qed.

Lemma consistent_rewrite_companies (db : Database) (sel : Company -> bool)
    (f : Company -> Company) :
  (forall c, company_id (f c) = company_id c) ->
  (forall c, company_userId (f c) = company_userId c) ->
  consistent db ->
  consistent (mkDatabase (users db) (update_where sel f (companies db))
                         (projects db) (submissions db) (ratings db)
                         (payments db)).
Proof.
  intros Hid Hu ((Ku & Kc & Kp & Ks & Kr & Kpay) & (Rc & Rp & Rs & Rr & Rpay)).
  open_consistent.
  repeat split; auto; try (rewrite map_update_where by auto; assumption);
    try (apply Forall_update_where; [intros c; now rewrite Hu | assumption]);
    still_resolve;
    rewrite existsb_update_where; auto; intros; now rewrite Hid.
Qed.

Lemma consistent_rewrite_projects (db : Database) (sel : Project -> bool)
    (f : Project -> Project) :
  (forall p, project_id (f p) = project_id p) ->
  (forall p, project_companyId (f p) = project_companyId p) ->
  consistent db ->
  consistent (mkDatabase (users db) (companies db)
                         (update_where sel f (projects db))
                         (submissions db) (ratings db) (payments db)).
Proof.
  intros Hid Hc ((Ku & Kc & Kp & Ks & Kr & Kpay) & (Rc & Rp & Rs & Rr & Rpay)).
  open_consistent.
  repeat split; auto; try (rewrite map_update_where by auto; assumption);
    try (apply Forall_update_where; [intros p; now rewrite Hc | assumption]);
    still_resolve;
    rewrite existsb_update_where; auto; intros; now rewrite Hid.
Qed.

Lemma consistent_rewrite_submissions (db : Database) (sel : Submission -> bool)
    (f : Submission -> Submission) :
  (forall s, submission_id (f s) = submission_id s) ->
  (forall s, submission_projectId (f s) = submission_projectId s) ->
  (forall s, submission_candidateId (f s) = submission_candidateId s) ->
  consistent db ->
  consistent (mkDatabase (users db) (companies db) (projects db)
                         (update_where sel f (submissions db))
                         (ratings db) (payments db)).
Proof.
  intros Hid Hp Hu ((Ku & Kc & Kp & Ks & Kr & Kpay) & (Rc & Rp & Rs & Rr & Rpay)).
  open_consistent.
  repeat split; auto; try (rewrite map_update_where by auto; assumption);
    try (apply Forall_update_where; [intros s; now rewrite Hp, Hu | assumption]);
    still_resolve;
    rewrite existsb_update_where; auto; intros; now rewrite Hid.
Qed.

(** ** Properties kept along a handler *)

Section Keeps.

Variable I : Database -> Prop.

Lemma keeps_ret {A} (a : A) : keeps I (ret a).
Proof. intros db H. exact H. Qed.

Lemma keeps_throw {A} (e : DbError) : keeps I (@throw A e).
Proof. intros db H. exact H. Qed.

Lemma keeps_query {A} (f : Database -> A) : keeps I (query f).
Proof. intros db H. exact H. Qed.

Lemma keeps_guard (ok : bool) (e : DbError) : keeps I (guard ok e).
Proof. intros db H. now destruct ok. Qed.

Lemma keeps_bind {A B} (m : Storage A) (k : A -> Storage B) :
  keeps I m -> (forall a, keeps I (k a)) -> keeps I (bind m k).
Proof.
  intros Hm Hk db H. unfold bind. specialize (Hm db H).
  destruct (m db) as [[a|e] db1]; cbn in *; [apply Hk|]; assumption.
Qed.

Lemma keeps_when (b : bool) (m : Storage unit) : keeps I m -> keeps I (when b m).
Proof. intros Hm. destruct b; [exact Hm | apply keeps_ret]. Qed.

Lemma keeps_try_catch (body : Storage Response) (message : string) (db : Database) :
  keeps I body -> I db -> I (snd (try_catch body message db)).
Proof.
  intros Hbody H. specialize (Hbody db H). unfold try_catch.
  now destruct (body db) as [[r|e] db1].
Qed.

Lemma keeps_requireRole (allowedRoles : list userRole) (userId : Id)
    (next : Handler) (db : Database) :
  (I db -> I (snd (next db))) -> I db ->
  I (snd (requireRole allowedRoles userId next db)).
Proof.
  intros Hnext H. unfold requireRole. unfold_storage.
  destruct (String.eqb userId ""); [exact H|].
  destruct (find _ (users db)) as [u|]; [|exact H].
  destruct (existsb _ allowedRoles); auto.
Qed.

End Keeps.

Ltac keeps_step :=
  first
    [ apply keeps_ret | apply keeps_throw | apply keeps_query | apply keeps_guard
    | apply keeps_when
    | apply keeps_bind; [|intros ?]
    | match goal with
      | |- keeps _ (match ?x with _ => _ end) => destruct x
      end ].

Lemma find_none_existsb {A} (sel : A -> bool) (l : list A) :
  find sel l = None -> existsb sel l = false.
Proof.
  induction l as [|a l IH]; cbn; [reflexivity|].
  destruct (sel a); [discriminate | exact IH].
Qed.

(** *** The storage calls keep keys unique and references resolved *)

Lemma createCompany_consistent id now ins : keeps consistent (createCompany id now ins).
Proof.
  intros db H. pose proof (createCompany_exact id now db ins) as Hrun.
  destruct (createCompany id now ins db) as [[c|e] db']; cbn; [|now subst].
  destruct Hrun as (name & status & _ & _ & -> & -> & Hfresh & Hu).
  now apply consistent_append_company.
Qed.

Lemma createProject_consistent id now ins : keeps consistent (createProject id now ins).
Proof.
  intros db H. pose proof (createProject_exact id now db ins) as Hrun.
  destruct (createProject id now ins db) as [[p|e] db']; cbn; [|now subst].
  destruct Hrun as (t & d & a & st & _ & _ & _ & _ & _ & -> & -> & Hfresh & Hc).
  now apply consistent_append_project.
Qed.

Lemma createSubmission_consistent id now ins :
  keeps consistent (createSubmission id now ins).
Proof.
  intros db H. pose proof (createSubmission_exact id now db ins) as Hrun.
  destruct (createSubmission id now ins db) as [[s|e] db']; cbn; [|now subst].
  destruct Hrun as (c & st & _ & _ & -> & -> & Hfresh & Hp & Hu).
  now apply consistent_append_submission.
Qed.

Lemma createRating_consistent id now ins : keeps consistent (createRating id now ins).
Proof.
  intros db H. pose proof (createRating_exact id now db ins) as Hrun.
  destruct (createRating id now ins db) as [[r|e] db']; cbn; [|now subst].
  destruct Hrun as (score & _ & _ & -> & -> & Hfresh & Hs & Hu & Hc).
  now apply consistent_append_rating.
Qed.

Lemma createPayment_consistent id now ins : keeps consistent (createPayment id now ins).
Proof.
  intros db H. pose proof (createPayment_exact id now db ins) as Hrun.
  destruct (createPayment id now ins db) as [[p|e] db']; cbn; [|now subst].
  destruct Hrun as (a & st & _ & _ & _ & -> & -> & Hfresh & Hs & Hu & Hc).
  now apply consistent_append_payment.
Qed.

Lemma updateCompany_consistent id updates now :
  keeps consistent (updateCompany id updates now).
Proof.
  intros db H. unfold updateCompany. run_storage; cbn; auto;
    now apply consistent_rewrite_companies.
Qed.

Lemma updateProject_consistent id updates now :
  keeps consistent (updateProject id updates now).
Proof.
  intros db H. unfold updateProject. run_storage; cbn; auto;
    now apply consistent_rewrite_projects.
Qed.

Lemma updateSubmission_consistent id updates now :
  keeps consistent (updateSubmission id updates now).
Proof.
  intros db H. unfold updateSubmission. run_storage; cbn; auto;
    now apply consistent_rewrite_submissions.
Qed.

(** *** [updateUserProfile] and [upsertUser], the key included *)

Lemma map_update_where_selected {A B} (key : A -> B) (sel : A -> bool)
    (f : A -> A) (l : list A) :
  (forall a, sel a = true -> key (f a) = key a) ->
  map key (update_where sel f l) = map key l.
Proof.
  intros Hkey. unfold update_where. rewrite map_map. apply map_ext.
  intros a. destruct (sel a) eqn:E; auto.
Qed.

Lemma existsb_key_map {A} (key : A -> Id) (id : Id) (l : list A) :
  existsb (fun a => String.eqb (key a) id) l
  = existsb (fun k => String.eqb k id) (map key l).
Proof. induction l as [|a l IH]; cbn; [reflexivity | now rewrite IH]. Qed.

Lemma consistent_same_user_keys (db : Database) (l : list User) :
  map user_id l = map user_id (users db) ->
  consistent db ->
  consistent (mkDatabase l (companies db) (projects db) (submissions db)
                         (ratings db) (payments db)).
Proof.
  intros Hkeys ((Ku & Kc & Kp & Ks & Kr & Kpay) & (Rc & Rp & Rs & Rr & Rpay)).
  open_consistent.
  repeat split; auto; try (rewrite Hkeys; assumption);
    match goal with
    | H : Forall _ ?l |- Forall _ ?l =>
        eapply Forall_impl; [|exact H]; cbn beta;
        intros a; rewrite !(existsb_key_map user_id), Hkeys; auto
    end.
Qed.

Section Rekey.

Variables (id id' : Id) (f : User -> User).
Hypothesis Hf : forall u, user_id (f u) = id'.

Let sel := fun u : User => String.eqb (user_id u) id.

Lemma rekey_keys (l : list User) (k : Id) :
  In k (map user_id (update_where sel f l)) -> In k (map user_id l) \/ k = id'.
Proof.
  unfold update_where. induction l as [|a l IH]; cbn; [tauto|].
  destruct (sel a); rewrite ?Hf; intuition.
Qed.

Lemma rekey_none (l : list User) :
  ~ In id (map user_id l) -> update_where sel f l = l.
Proof.
  unfold update_where. induction l as [|a l IH]; cbn; [reflexivity|].
  intros Hnotin. rewrite IH by tauto.
  destruct (sel a) eqn:E; [|reflexivity].
  apply String.eqb_eq in E. tauto.
Qed.

Lemma rekey_NoDup (l : list User) :
  existsb (fun u => String.eqb (user_id u) id') l = false ->
  NoDup (map user_id l) ->
  NoDup (map user_id (update_where sel f l)).
Proof.
  induction l as [|a l IH]; [constructor|].
  intros Hfresh Hnd. cbn in Hfresh.
  apply orb_false_iff in Hfresh as [Ha Hfresh].
  inversion Hnd as [|? ? Hnotin Hnd']; subst.
  specialize (IH Hfresh Hnd').
  assert (Hid' : ~ In id' (map user_id l)).
  { intros Hin. apply in_map_iff in Hin as (b & Hb & Hin).
    assert (existsb (fun u => String.eqb (user_id u) id') l = true)
      by (apply existsb_exists; exists b; split; [|apply String.eqb_eq]; auto).
    congruence. }
  change (update_where sel f (a :: l))
    with ((if sel a then f a else a) :: update_where sel f l).
  cbn [map]. destruct (sel a) eqn:E.
  - apply String.eqb_eq in E. rewrite E in Hnotin.
    rewrite (rekey_none l Hnotin), Hf. now constructor.
  - constructor; [|exact IH].
    intros Hin. apply rekey_keys in Hin as [Hin | Hin]; [tauto|].
    apply String.eqb_neq in Ha. congruence.
Qed.

Lemma rekey_keeps_others (l : list User) (k : Id) :
  k <> id ->
  existsb (fun u => String.eqb (user_id u) k) l = true ->
  existsb (fun u => String.eqb (user_id u) k) (update_where sel f l) = true.
Proof.
  intros Hk. unfold update_where. induction l as [|a l IH]; cbn; [easy|].
  intros H. apply orb_true_iff in H as [H|H]; apply orb_true_iff; auto.
  left. destruct (sel a) eqn:E; [|exact H].
  apply String.eqb_eq in H, E. congruence.
Qed.

End Rekey.

Lemma existsb_false_Forall {A} (sel : A -> bool) (l : list A) :
  existsb sel l = false -> Forall (fun a => sel a = false) l.
Proof.
  induction l as [|a l IH]; cbn; [constructor|].
  intros H. apply orb_false_iff in H as [Ha H]. constructor; auto.
Qed.

Lemma consistent_rekey_user (db : Database) (id id' : Id) (f : User -> User) :
  (forall u, user_id (f u) = id') ->
  has_user id' db = false ->
  user_referenced id db = false ->
  consistent db ->
  consistent (mkDatabase (update_where (fun u => String.eqb (user_id u) id) f
                                       (users db))
                         (companies db) (projects db) (submissions db)
                         (ratings db) (payments db)).
Proof.
  intros Hf Hfresh Href ((Ku & Kc & Kp & Ks & Kr & Kpay) & (Rc & Rp & Rs & Rr & Rpay)).
  unfold user_referenced in Href.
  repeat (apply orb_false_iff in Href as [Href ?]).
  repeat match goal with
         | H : existsb _ _ = false |- _ => apply existsb_false_Forall in H
         end.
  open_consistent.
  repeat split; auto;
    [ now apply (rekey_NoDup id id' f Hf) | .. ];
    apply Forall_forall; intros a Ha;
    repeat match goal with
           | H : Forall _ _ |- _ =>
               rewrite Forall_forall in H; try specialize (H a Ha)
           end;
    cbn beta in *;
    repeat match goal with
           | H : _ /\ _ |- _ => destruct H
           | H : String.eqb _ _ = false |- _ => apply String.eqb_neq in H
           end;
    repeat split; auto; now apply (rekey_keeps_others id f).
Qed.

Lemma updateUserProfile_consistent id updates now :
  keeps consistent (updateUserProfile id updates now).
Proof.
  intros db H. unfold updateUserProfile, user_key_checks, user_email_checks.
  unfold_storage. cbn [fst snd].
  destruct (readable_user updates); cbn [fst snd]; [|exact H].
  destruct (find _ (users db)) as [u|]; cbn [fst snd]; [|exact H].
  destruct (pu_id updates) as [| |id'] eqn:Hid; cbn [fst snd]; [| exact H |].
  - destruct (pu_role updates); cbn [fst snd]; try exact H;
      destruct (pu_email updates); cbn [fst snd];
      try destruct (email_taken _ _ _); cbn [fst snd]; try exact H;
      apply consistent_same_user_keys; auto;
      apply map_update_where_selected; intros x _; cbn; now rewrite Hid.
  - destruct (String.eqb id' id) eqn:Hsame; cbn [fst snd].
    + apply String.eqb_eq in Hsame. subst id'.
      destruct (pu_role updates); cbn [fst snd]; try exact H;
        destruct (pu_email updates); cbn [fst snd];
        try destruct (email_taken _ _ _); cbn [fst snd]; try exact H;
        apply consistent_same_user_keys; auto;
        apply map_update_where_selected; intros x Hx; cbn; rewrite Hid;
        symmetry; now apply String.eqb_eq.
    + destruct (has_user id' db) eqn:Hfresh; cbn [fst snd]; [exact H|].
      destruct (user_referenced id db) eqn:Href; cbn [fst snd]; [exact H|].
      destruct (pu_role updates); cbn [fst snd]; try exact H;
        destruct (pu_email updates); cbn [fst snd];
        try destruct (email_taken _ _ _); cbn [fst snd]; try exact H;
        apply consistent_rekey_user with (id' := id'); auto;
        intros x; cbn; now rewrite Hid.
Qed.

Lemma upsertUser_consistent uuid now userData :
  keeps consistent (upsertUser uuid now userData).
Proof.
  intros db H. unfold upsertUser. unfold_storage. cbn [fst snd].
  repeat (case_scrutinee; cbn [fst snd] in *);
    first [ exact H
          | apply consistent_rewrite_users; [reflexivity | exact H]
          | apply consistent_append_user; [|exact H];
            unfold has_user; cbn; now apply find_none_existsb ].
Qed.

Ltac keeps_consistent :=
  repeat first
    [ apply createCompany_consistent | apply createProject_consistent
    | apply createSubmission_consistent | apply createRating_consistent
    | apply createPayment_consistent | apply updateCompany_consistent
    | apply updateProject_consistent | apply updateSubmission_consistent
    | apply updateUserProfile_consistent
    | keeps_step ].

Lemma handle_consistent (r : Request) (db : Database) :
  consistent db -> consistent (snd (handle r db)).
Proof.
  destruct r; cbn [handle];
    unfold patch_profile, post_project_submissions, post_company_profile,
      post_company_projects, post_company_submission_review,
      post_admin_company_review, post_admin_project_review;
    try apply keeps_requireRole; apply keeps_try_catch;
    unfold getCompanyByUserId, getProject, getSubmission,
      getSubmissionByProjectAndCandidate;
    keeps_consistent.
Qed.

(** X5: the storage calls that write, with any arguments, and with them
    every login and every request, keep the primary keys of the six tables
    unique and every reference of the schema resolved: a database that has
    both keeps both along any sequence of logins and requests, and so does
    every database reached from the empty one. *)
Theorem keys_and_references_kept (events : list Event) (db : Database) :
  (consistent db -> consistent (happen_all events db))
  /\ consistent (happen_all events emptyDatabase).
Proof.
  assert (Hstep : forall e db0, consistent db0 -> consistent (happen e db0)).
  { intros [uuid now userData | r] db0 H; cbn.
    - now apply upsertUser_consistent.
    - now apply handle_consistent. }
  assert (Hall : forall db0, consistent db0 -> consistent (happen_all events db0)).
  { unfold happen_all. induction events as [|e events IH]; cbn; auto. }
  split; [apply Hall|]. apply Hall.
  repeat split; cbn; constructor.
Qed.

(** ** The tables a storage call leaves alone *)

Ltac same_tables :=
  cbn [fst snd users companies projects submissions ratings payments];
  repeat split; reflexivity.

Section Touches.

Variables (id : Id) (now : Timestamp) (db : Database).

Lemma createCompany_touches ins :
  let db' := snd (createCompany id now ins db) in
  users db' = users db /\ projects db' = projects db
  /\ submissions db' = submissions db /\ ratings db' = ratings db
  /\ payments db' = payments db.
Proof.
  pose proof (createCompany_exact id now db ins) as H.
  destruct (createCompany id now ins db) as [[c|e] db']; cbn;
    [destruct H as (? & ? & _ & _ & _ & -> & _)| subst]; same_tables.
Qed.

Lemma createProject_touches ins :
  let db' := snd (createProject id now ins db) in
  users db' = users db /\ companies db' = companies db
  /\ submissions db' = submissions db /\ ratings db' = ratings db
  /\ payments db' = payments db.
Proof.
  pose proof (createProject_exact id now db ins) as H.
  destruct (createProject id now ins db) as [[c|e] db']; cbn;
    [destruct H as (? & ? & ? & ? & _ & _ & _ & _ & _ & _ & -> & _)| subst];
    same_tables.
Qed.

Lemma createSubmission_touches ins :
  let db' := snd (createSubmission id now ins db) in
  users db' = users db /\ companies db' = companies db
  /\ projects db' = projects db /\ ratings db' = ratings db
  /\ payments db' = payments db.
Proof.
  pose proof (createSubmission_exact id now db ins) as H.
  destruct (createSubmission id now ins db) as [[c|e] db']; cbn;
    [destruct H as (? & ? & _ & _ & _ & -> & _)| subst]; same_tables.
Qed.

Lemma createRating_touches ins :
  let db' := snd (createRating id now ins db) in
  users db' = users db /\ companies db' = companies db
  /\ projects db' = projects db /\ submissions db' = submissions db
  /\ payments db' = payments db.
Proof.
  pose proof (createRating_exact id now db ins) as H.
  destruct (createRating id now ins db) as [[c|e] db']; cbn;
    [destruct H as (? & _ & _ & _ & -> & _)| subst]; same_tables.
Qed.

Lemma createPayment_touches ins :
  let db' := snd (createPayment id now ins db) in
  users db' = users db /\ companies db' = companies db
  /\ projects db' = projects db /\ submissions db' = submissions db
  /\ ratings db' = ratings db.
Proof.
  pose proof (createPayment_exact id now db ins) as H.
  destruct (createPayment id now ins db) as [[c|e] db']; cbn;
    [destruct H as (? & ? & _ & _ & _ & _ & -> & _)| subst]; same_tables.
Qed.

Lemma updateUserProfile_touches updates :
  let db' := snd (updateUserProfile id updates now db) in
  companies db' = companies db /\ projects db' = projects db
  /\ submissions db' = submissions db /\ ratings db' = ratings db
  /\ payments db' = payments db.
Proof.
  destruct (updateUserProfile_run id now db updates) as [-> | [-> _]]; same_tables.
Qed.

Lemma updateCompany_touches updates :
  let db' := snd (updateCompany id updates now db) in
  users db' = users db /\ projects db' = projects db
  /\ submissions db' = submissions db /\ ratings db' = ratings db
  /\ payments db' = payments db
  /\ (companies db' = companies db
      \/ companies db'
         = update_where (fun c => String.eqb (company_id c) id)
                        (set_company updates now) (companies db)).
Proof. unfold updateCompany. run_storage; cbn; auto 10. Qed.

Lemma updateProject_touches updates :
  let db' := snd (updateProject id updates now db) in
  users db' = users db /\ companies db' = companies db
  /\ submissions db' = submissions db /\ ratings db' = ratings db
  /\ payments db' = payments db
  /\ (projects db' = projects db
      \/ projects db'
         = update_where (fun p => String.eqb (project_id p) id)
                        (set_project updates now) (projects db)).
Proof. unfold updateProject. run_storage; cbn; auto 10. Qed.

Lemma updateSubmission_touches updates :
  let db' := snd (updateSubmission id updates now db) in
  users db' = users db /\ companies db' = companies db
  /\ projects db' = projects db /\ ratings db' = ratings db
  /\ payments db' = payments db
  /\ (submissions db' = submissions db
      \/ submissions db'
         = update_where (fun s => String.eqb (submission_id s) id)
                        (set_submission updates now) (submissions db)).
Proof. unfold updateSubmission. run_storage; cbn; auto 10. Qed.

End Touches.

Lemma find_update_where_keys {A} (sel sel' : A -> bool) (f : A -> A) (l : list A) :
  (forall a, sel' (f a) = sel' a) ->
  find sel' (update_where sel f l)
  = option_map (fun a => if sel a then f a else a) (find sel' l).
Proof.
  intros Hkeep. unfold update_where. induction l as [|a l IH]; cbn; [reflexivity|].
  replace (sel' (if sel a then f a else a)) with (sel' a)
    by (destruct (sel a); now rewrite ?Hkeep).
  destruct (sel' a); [reflexivity | exact IH].
Qed.

(** ** One company for a user, one submission for a project and a candidate *)

Lemma filter_update_where_length {A} (sel sel' : A -> bool) (f : A -> A)
    (l : list A) :
  (forall a, sel' (f a) = sel' a) ->
  List.length (filter sel' (update_where sel f l)) = List.length (filter sel' l).
Proof.
  intros Hkeep. unfold update_where. induction l as [|a l IH]; cbn; [reflexivity|].
  replace (sel' (if sel a then f a else a)) with (sel' a)
    by (destruct (sel a); now rewrite ?Hkeep).
  destruct (sel' a); cbn; now rewrite IH.
Qed.

Lemma looked_same_tables (db db' : Database) :
  companies db' = companies db -> submissions db' = submissions db ->
  looked_before_insert db -> looked_before_insert db'.
Proof.
  intros Hc Hs [H1 H2]. split.
  - intros u. unfold companies_of. rewrite Hc. apply H1.
  - intros p c. unfold submissions_of. rewrite Hs. apply H2.
Qed.

Lemma looked_rewritten (db db' : Database) :
  (companies db' = companies db
   \/ exists sel f, (forall c, company_userId (f c) = company_userId c)
                    /\ companies db' = update_where sel f (companies db)) ->
  (submissions db' = submissions db
   \/ exists sel f, (forall s, submission_projectId (f s) = submission_projectId s)
                    /\ (forall s, submission_candidateId (f s)
                                  = submission_candidateId s)
                    /\ submissions db' = update_where sel f (submissions db)) ->
  looked_before_insert db -> looked_before_insert db'.
Proof.
  intros Hc Hs [H1 H2]. split.
  - intros u. unfold companies_of.
    destruct Hc as [-> | (sel & f & Hf & ->)]; [apply H1|].
    rewrite filter_update_where_length; [apply H1|].
    intros c. cbn. now rewrite Hf.
  - intros p c. unfold submissions_of.
    destruct Hs as [-> | (sel & f & Hp & Hu & ->)]; [apply H2|].
    rewrite filter_update_where_length; [apply H2|].
    intros s. unfold same_pair. now rewrite Hp, Hu.
Qed.

Lemma createProject_looked id now ins :
  keeps looked_before_insert (createProject id now ins).
Proof.
  intros db. destruct (createProject_touches id now db ins) as (_ & Hc & Hs & _).
  now apply looked_same_tables.
Qed.

Lemma createRating_looked id now ins :
  keeps looked_before_insert (createRating id now ins).
Proof.
  intros db. destruct (createRating_touches id now db ins) as (_ & Hc & _ & Hs & _).
  now apply looked_same_tables.
Qed.

Lemma createPayment_looked id now ins :
  keeps looked_before_insert (createPayment id now ins).
Proof.
  intros db. destruct (createPayment_touches id now db ins) as (_ & Hc & _ & Hs & _).
  now apply looked_same_tables.
Qed.

Lemma updateUserProfile_looked id updates now :
  keeps looked_before_insert (updateUserProfile id updates now).
Proof.
  intros db.
  destruct (updateUserProfile_touches id now db updates) as (Hc & _ & Hs & _).
  now apply looked_same_tables.
Qed.

Lemma upsertUser_looked uuid now userData :
  keeps looked_before_insert (upsertUser uuid now userData).
Proof.
  intros db. apply looked_same_tables;
    unfold upsertUser; run_storage; reflexivity.
Qed.

Lemma updateProject_looked id updates now :
  keeps looked_before_insert (updateProject id updates now).
Proof.
  intros db.
  destruct (updateProject_touches id now db updates) as (_ & Hc & Hs & _).
  now apply looked_same_tables.
Qed.

Lemma updateCompany_looked id updates now :
  keeps looked_before_insert (updateCompany id updates now).
Proof.
  intros db.
  destruct (updateCompany_touches id now db updates) as (_ & _ & Hs & _ & _ & Hc).
  apply looked_rewritten; [|auto].
  destruct Hc as [Hc | Hc]; [auto|]. right.
  do 2 eexists. split; [|exact Hc]. reflexivity.
Qed.

Lemma updateSubmission_looked id updates now :
  keeps looked_before_insert (updateSubmission id updates now).
Proof.
  intros db.
  destruct (updateSubmission_touches id now db updates) as (_ & Hc & _ & _ & _ & Hs).
  apply looked_rewritten; [auto|].
  destruct Hs as [Hs | Hs]; [auto|]. right.
  do 2 eexists. split; [|split; [|exact Hs]]; reflexivity.
Qed.

(** What one company-creation call does to the database. *)
Lemma post_company_profile_run
    (userId : Id) (body : CompanyBody) (uuid : Id) (now : Timestamp)
    (db : Database) :
  let h := post_company_profile userId body uuid now in
  projects (after h db) = projects db
  /\ submissions (after h db) = submissions db
  /\ ratings (after h db) = ratings db
  /\ payments (after h db) = payments db
  /\ (response h db = Status 400 "You already have a company profile"
      /\ after h db = db
      /\ find (fun c => String.eqb (company_userId c) userId) (companies db)
         <> None
      \/ find (fun c => String.eqb (company_userId c) userId) (companies db) = None
         /\ users (after h db)
            = users (snd (updateUserProfile userId (roleUpdate RoleCompany) now db))
         /\ (response h db = Status 500 "Failed to create company"
             /\ companies (after h db) = companies db
             \/ exists c,
                  response h db = Json (JCompany c)
                  /\ companies (after h db) = companies db ++ [c]
                  /\ c = mkCompany uuid userId (company_name c)
                           (nullable (cb_description body))
                           (nullable (cb_website body)) None
                           (nullable (cb_industry body)) (nullable (cb_size body))
                           CompanyPending (Some now) (Some now)
                  /\ cb_name body = Value (company_name c)
                  /\ has_company uuid db = false
                  /\ has_user userId db = true)).
Proof.
  intros h; subst h. unfold response, after.
  destruct (post_company_profile _ _ _ _ db) as [resp db'] eqn:Hrun.
  unfold post_company_profile in Hrun. unfold_storage. cbn [fst snd] in *.
  destruct (find _ (companies db)) as [existing|] eqn:Hexisting;
    cbn [fst snd] in Hrun.
  { injection Hrun as <- <-. repeat split; auto. left. repeat split; congruence. }
  pose proof (updateUserProfile_touches userId now db (roleUpdate RoleCompany))
    as (Hc1 & Hp1 & Hs1 & Hr1 & Hpay1).
  rewrite updateUserProfile_roleUpdate in *.
  destruct (find _ (users db)) as [u|] eqn:Hu; cbn [fst snd] in *;
    match type of Hrun with
    | context [createCompany uuid now ?ins ?db1] =>
        pose proof (createCompany_exact uuid now db1 ins) as Hins;
        destruct (createCompany uuid now ins db1) as [[c|e] db2]
    end; cbn [fst snd] in *; injection Hrun as <- <-.
  - destruct Hins
      as (name & status & Hname & [[= <-]|[[=] _]] & -> & -> & Hfresh & Hfk).
    cbn in *. repeat split; auto. right. repeat split; auto.
    right. eexists. repeat split; eauto.
    unfold has_user. apply (find_existsb _ _ _ _ Hu). apply find_some in Hu. tauto.
  - subst db2. cbn. repeat split; auto. right. repeat split; auto.
  - destruct Hins
      as (name & status & Hname & [[= <-]|[[=] _]] & -> & -> & Hfresh & Hfk).
    unfold has_user in Hfk. cbn in Hfk.
    apply existsb_find in Hfk as [u Hfk]. congruence.
  - subst db2. cbn. repeat split; auto. right. repeat split; auto.
Qed.

Ltac keeps_looked :=
  repeat first
    [ apply createProject_looked | apply createRating_looked
    | apply createPayment_looked | apply updateCompany_looked
    | apply updateProject_looked | apply updateSubmission_looked
    | apply updateUserProfile_looked
    | keeps_step ].

Lemma handle_looked (r : Request) (db : Database) :
  looked_before_insert db -> looked_before_insert (snd (handle r db)).
Proof.
  destruct r; cbn [handle].
  - unfold patch_profile. apply keeps_try_catch. keeps_looked.
  - intros [H1 H2]. split.
    + intros u. unfold companies_of.
      destruct (post_project_submissions_run userId projectId body uuid now db)
        as [[_ Hdb] | (s & _ & Hdb & _)]; unfold after in Hdb; rewrite Hdb;
        apply H1.
    + apply (call_keeps_one_per_pair
               (mkSubmissionCall userId projectId body uuid now) db H2).
  - intros [H1 H2].
    destruct (post_company_profile_run userId body uuid now db)
      as (_ & Hs & _ & _ & Hc). unfold after in *. split.
    + intros u. unfold companies_of.
      destruct Hc as [(_ & -> & _) | (Hnone & _ & [[_ ->] | (c & _ & -> & Hc & _)])];
        try apply H1.
      rewrite filter_app, length_app. cbn.
      destruct (String.eqb (company_userId c) u) eqn:E; cbn;
        [|specialize (H1 u); unfold companies_of in H1; lia].
      rewrite Hc in E. cbn in E. apply String.eqb_eq in E. subst u.
      rewrite (find_none_filter _ _ Hnone). cbn. lia.
    + intros p c. unfold submissions_of. rewrite Hs. apply H2.
  - unfold post_company_projects. apply keeps_try_catch.
    unfold getCompanyByUserId. keeps_looked.
  - unfold post_company_submission_review. apply keeps_try_catch.
    unfold getCompanyByUserId, getSubmission, getProject. keeps_looked.
  - unfold post_admin_company_review. apply keeps_requireRole, keeps_try_catch.
    keeps_looked.
  - unfold post_admin_project_review. apply keeps_requireRole, keeps_try_catch.
    keeps_looked.
Qed.

(** X6: no login and no request, run one after the other, gives a user a
    second company or a candidate a second submission for a project: a
    database with at most one company for each user and at most one
    submission for each project and candidate stays so along any sequence
    of logins and requests, and every database reached from the empty one
    is so. *)
Theorem one_company_and_one_submission_kept (events : list Event) (db : Database) :
  (looked_before_insert db -> looked_before_insert (happen_all events db))
  /\ looked_before_insert (happen_all events emptyDatabase).
Proof.
  assert (Hstep : forall e db0,
             looked_before_insert db0 -> looked_before_insert (happen e db0)).
  { intros [uuid now userData | r] db0 H; cbn.
    - now apply upsertUser_looked.
    - now apply handle_looked. }
  assert (Hall : forall db0,
             looked_before_insert db0 ->
             looked_before_insert (happen_all events db0)).
  { unfold happen_all. induction events as [|e events IH]; cbn; auto. }
  split; [apply Hall|]. apply Hall.
  split; [intros u | intros p c]; cbn; lia.
Qed.

(** *** A company row stays *)

Lemma owns_same_companies (userId : Id) (db db' : Database) :
  companies db' = companies db -> owns_company userId db -> owns_company userId db'.
Proof. unfold owns_company. now intros ->. Qed.

Section Owns.

Variable userId : Id.

Lemma createCompany_owns id now ins : keeps (owns_company userId) (createCompany id now ins).
Proof.
  intros db H. pose proof (createCompany_exact id now db ins) as Hrun.
  destruct (createCompany id now ins db) as [[c|e] db']; cbn; [|now subst].
  destruct Hrun as (? & ? & _ & _ & _ & -> & _). unfold owns_company in *. cbn.
  destruct (find _ (companies db)) as [c0|] eqn:E; [|easy].
  now rewrite (find_app_some _ _ _ _ E).
Qed.

Lemma updateCompany_owns id updates now :
  keeps (owns_company userId) (updateCompany id updates now).
Proof.
  intros db H.
  destruct (updateCompany_touches id now db updates) as (_ & _ & _ & _ & _ & [Hc|Hc]);
    unfold owns_company in *; rewrite Hc; [exact H|].
  rewrite find_update_where_keys by reflexivity.
  now destruct (find _ (companies db)).
Qed.

Lemma createProject_owns id now ins : keeps (owns_company userId) (createProject id now ins).
Proof.
  intros db. destruct (createProject_touches id now db ins) as (_ & Hc & _).
  now apply owns_same_companies.
Qed.

Lemma createSubmission_owns id now ins :
  keeps (owns_company userId) (createSubmission id now ins).
Proof.
  intros db. destruct (createSubmission_touches id now db ins) as (_ & Hc & _).
  now apply owns_same_companies.
Qed.

Lemma createRating_owns id now ins : keeps (owns_company userId) (createRating id now ins).
Proof.
  intros db. destruct (createRating_touches id now db ins) as (_ & Hc & _).
  now apply owns_same_companies.
Qed.

Lemma createPayment_owns id now ins : keeps (owns_company userId) (createPayment id now ins).
Proof.
  intros db. destruct (createPayment_touches id now db ins) as (_ & Hc & _).
  now apply owns_same_companies.
Qed.

Lemma updateUserProfile_owns id updates now :
  keeps (owns_company userId) (updateUserProfile id updates now).
Proof.
  intros db. destruct (updateUserProfile_touches id now db updates) as (Hc & _).
  now apply owns_same_companies.
Qed.

Lemma updateProject_owns id updates now :
  keeps (owns_company userId) (updateProject id updates now).
Proof.
  intros db. destruct (updateProject_touches id now db updates) as (_ & Hc & _).
  now apply owns_same_companies.
Qed.

Lemma updateSubmission_owns id updates now :
  keeps (owns_company userId) (updateSubmission id updates now).
Proof.
  intros db. destruct (updateSubmission_touches id now db updates) as (_ & Hc & _).
  now apply owns_same_companies.
Qed.

Lemma upsertUser_owns uuid now userData :
  keeps (owns_company userId) (upsertUser uuid now userData).
Proof.
  intros db. apply owns_same_companies.
  unfold upsertUser; run_storage; reflexivity.
Qed.

End Owns.

Ltac keeps_owns :=
  repeat first
    [ apply createCompany_owns | apply createProject_owns
    | apply createSubmission_owns | apply createRating_owns
    | apply createPayment_owns | apply updateCompany_owns
    | apply updateProject_owns | apply updateSubmission_owns
    | apply updateUserProfile_owns
    | keeps_step ].

Lemma handle_owns (userId : Id) (r : Request) (db : Database) :
  owns_company userId db -> owns_company userId (snd (handle r db)).
Proof.
  destruct r; cbn [handle];
    unfold patch_profile, post_project_submissions, post_company_profile,
      post_company_projects, post_company_submission_review,
      post_admin_company_review, post_admin_project_review;
    try apply keeps_requireRole; apply keeps_try_catch;
    unfold getCompanyByUserId, getProject, getSubmission,
      getSubmissionByProjectAndCandidate;
    keeps_owns.
Qed.

(** X7: a user who has a company row keeps one along any sequence of logins
    and requests, and each company-creation call of that user, at any point
    afterwards, answers 400 "You already have a company profile" and
    changes nothing. *)
Theorem second_company_refused
    (events : list Event) (userId : Id) (body : CompanyBody) (uuid : Id)
    (now : Timestamp) (db : Database) :
  owns_company userId db ->
  let db' := happen_all events db in
  owns_company userId db'
  /\ post_company_profile userId body uuid now db'
     = (Status 400 "You already have a company profile", db').
Proof.
  intros H db'.
  assert (H' : owns_company userId db').
  { subst db'. unfold happen_all. revert db H.
    induction events as [|e events IH]; cbn; intros db H; [exact H|].
    apply IH. destruct e as [u n d | r]; cbn.
    - now apply upsertUser_owns.
    - now apply handle_owns. }
  split; [exact H'|].
  unfold owns_company in H'. unfold post_company_profile. unfold_storage.
  now destruct (find _ (companies db')).
Qed.

(** ** Roles *)

Lemma keeps_users_of {A} (m : Storage A) (U : list User) :
  (forall db, users (snd (m db)) = users db) -> keeps (fun d => users d = U) m.
Proof. intros Hm db H. now rewrite Hm. Qed.

Ltac keeps_users :=
  repeat first
    [ apply keeps_users_of; intros ?;
      first [ apply createCompany_touches | apply createProject_touches
            | apply createSubmission_touches | apply createRating_touches
            | apply createPayment_touches | apply updateCompany_touches
            | apply updateProject_touches | apply updateSubmission_touches ]
    | keeps_step ].

Lemma role_of_rewritten (u userId : Id) (f : User -> User) (l : list User)
    (companies0 : list Company) (projects0 : list Project)
    (submissions0 : list Submission) (ratings0 : list Rating)
    (payments0 : list Payment) :
  (forall a, user_id (f a) = user_id a) ->
  role_of u (mkDatabase (update_where (fun a => String.eqb (user_id a) userId) f l)
                        companies0 projects0 submissions0 ratings0 payments0)
  = option_map (fun a => if String.eqb (user_id a) userId
                         then user_role (f a) else user_role a)
               (find (fun a => String.eqb (user_id a) u) l).
Proof.
  intros Hid. unfold role_of. unfold_storage. cbn.
  rewrite find_update_where_keys by (intros a; now rewrite Hid).
  destruct (find _ l) as [a|]; cbn; [|reflexivity].
  now destruct (String.eqb (user_id a) userId).
Qed.

(** X8: a request changes the role of a user in one case only: the
    company-creation call of that very user, which makes it [company].  In
    particular no request makes a user an admin. *)
Theorem role_changes_only_by_company_creation
    (r : Request) (u : Id) (db : Database) :
  (role_of u (snd (handle r db)) = role_of u db
   \/ role_of u (snd (handle r db)) = Some RoleCompany
      /\ exists body uuid now, r = PostCompanyProfile u body uuid now)
  /\ (role_of u (snd (handle r db)) = Some RoleAdmin ->
      role_of u db = Some RoleAdmin).
Proof.
  assert (Hmain : role_of u (snd (handle r db)) = role_of u db
                  \/ role_of u (snd (handle r db)) = Some RoleCompany
                     /\ exists body uuid now, r = PostCompanyProfile u body uuid now).
  { assert (Hsame : forall db', users db' = users db -> role_of u db' = role_of u db).
    { intros db' H. unfold role_of. unfold_storage. cbn. now rewrite H. }
    destruct r; cbn [handle].
    - left. unfold patch_profile.
      match goal with
      | |- context [updateUserProfile userId ?upd now] =>
          destruct (updateUserProfile_run userId now db upd) as [Hrun | (Hrun & _)];
          unfold try_catch, bind, ret;
          destruct (updateUserProfile userId upd now db) as [[o|e] db1]
      end; cbn [fst snd] in *; subst db1; auto;
        rewrite role_of_rewritten by reflexivity;
        unfold role_of; unfold_storage; cbn;
        destruct (find _ (users db)) as [a|]; cbn; auto;
        now destruct (String.eqb (user_id a) userId).
    - left. apply Hsame.
      destruct (post_project_submissions_run userId projectId body uuid now db)
        as [[_ Hdb] | (s & _ & Hdb & _)]; unfold after in Hdb; now rewrite Hdb.
    - destruct (post_company_profile_run userId body uuid now db)
        as (_ & _ & _ & _ & [(_ & Hdb & _) | (_ & Hu & _)]); unfold after in *.
      + left. now rewrite Hdb.
      + rewrite updateUserProfile_roleUpdate in Hu.
        destruct (find _ (users db)) as [a|] eqn:Ha; cbn [fst snd users] in Hu;
          [|left; auto].
        unfold role_of. unfold_storage. cbn [fst]. rewrite Hu.
        rewrite find_update_where_keys by reflexivity.
        destruct (find (fun a0 => String.eqb (user_id a0) u) (users db))
          as [b|] eqn:Hb; cbn; [|left; auto].
        destruct (String.eqb (user_id b) userId) eqn:E; cbn; [|left; auto].
        right. split; [reflexivity|].
        apply find_some in Hb as [_ Hb].
        apply String.eqb_eq in Hb, E. subst. eauto.
    - left. apply Hsame. unfold post_company_projects.
      apply (keeps_try_catch (fun d => users d = users db)); [|reflexivity].
      unfold getCompanyByUserId. keeps_users.
    - left. apply Hsame.
      destruct (review_run userId submissionId body ratingUuid paymentUuid now db)
        as [(_ & Hdb & _)
           | [(_ & _ & Hdb & _) | (c & s & p & _ & _ & _ & _ & _ & _ & Hu & _)]];
        unfold after in *; [now rewrite Hdb | now rewrite Hdb | exact Hu].
    - left. apply Hsame. unfold post_admin_company_review.
      apply (keeps_requireRole (fun d => users d = users db)); [|reflexivity].
      intros H0. apply (keeps_try_catch (fun d => users d = users db));
        [keeps_users | exact H0].
    - left. apply Hsame. unfold post_admin_project_review.
      apply (keeps_requireRole (fun d => users d = users db)); [|reflexivity].
      intros H0. apply (keeps_try_catch (fun d => users d = users db));
        [keeps_users | exact H0]. }
  split; [exact Hmain|].
  destruct Hmain as [-> | [-> _]]; [auto | discriminate].
Qed.

(** ** Statistics *)

Lemma coalesce_sum (l : list Z) : coalesce (sql_sum l) 0 = fold_right Z.add 0 l.
Proof. now destruct l. Qed.

Lemma sum_snoc (l : list Z) (z : Z) :
  fold_right Z.add 0 (l ++ [z]) = fold_right Z.add 0 l + z.
Proof. induction l as [|a l IH]; cbn [fold_right app]; lia. Qed.

Lemma count_le {A} (sel sel' : A -> bool) (l : list A) :
  (forall a, sel a = true -> sel' a = true) ->
  0 <= count sel l <= count sel' l.
Proof.
  intros Himp. unfold count. split; [lia|]. apply Nat2Z.inj_le.
  induction l as [|a l IH]; cbn; [lia|].
  destruct (sel a) eqn:E; [rewrite (Himp a E); cbn; lia|].
  destruct (sel' a); cbn; lia.
Qed.

Lemma sum_bounds (lo hi : Z) (l : list Z) :
  Forall (fun z => lo <= z <= hi) l ->
  lo * Z.of_nat (List.length l) <= fold_right Z.add 0 l
  <= hi * Z.of_nat (List.length l).
Proof.
  induction 1 as [|z l Hz Hl IH]; cbn [fold_right List.length]; [lia|].
  rewrite Nat2Z.inj_succ. lia.
Qed.

(** X9: in the statistics of a candidate the completed projects are never
    more than the submissions, and when the candidate has ratings whose
    scores all lie between two bounds, then so does the average rating. *)
Theorem candidate_stats_bounds
    (candidateId : Id) (db : Database) (stats : CandidateStats) (lo hi : Z) :
  candidateStats candidateId db = Some stats ->
  let scores := map rating_score
                  (filter (fun r => String.eqb (rating_candidateId r) candidateId)
                          (ratings db)) in
  0 <= completedProjects stats <= totalSubmissions stats
  /\ (scores <> [] -> Forall (fun z => lo <= z <= hi) scores ->
      (inject_Z lo <= averageRating stats <= inject_Z hi)%Q).
Proof.
  unfold candidateStats, getCandidateStats. unfold_storage. cbn [fst].
  intros [= <-]. cbn [completedProjects totalSubmissions averageRating].
  set (scores := map rating_score _).
  split.
  - apply count_le. intros s Hs. now apply andb_true_iff in Hs.
  - intros Hne Hall.
    destruct scores as [|z l] eqn:E; [congruence|]. rewrite <- E in *.
    assert (Hlen : (0 < List.length scores)%nat) by (rewrite E; cbn; lia).
    unfold sql_avg. rewrite E. rewrite <- E. cbn [coalesce].
    pose proof (sum_bounds lo hi scores Hall) as [Hlo Hhi].
    unfold Qle, inject_Z. cbn [Qnum Qden].
    replace (Z.pos (Pos.of_nat (List.length scores)))
      with (Z.of_nat (List.length scores))
      by (rewrite <- positive_nat_Z, Nat2Pos.id by lia; reflexivity).
    lia.
Qed.

(** X10: a review call that succeeds with [approved] truthy adds the
    payment of the project of the submission to the total earnings of the
    candidate of the submission, and changes the total earnings of no other
    candidate. *)
Theorem approval_adds_to_earnings
    (userId submissionId : Id) (body : ReviewBody) (ratingUuid paymentUuid : Id)
    (now : Timestamp) (db : Database) (submission : Submission) (project : Project) :
  let h := post_company_submission_review userId submissionId body
             ratingUuid paymentUuid now in
  response h db = Json JSuccess ->
  truthy_bool (rb_approved body) = true ->
  fst (getSubmission submissionId db) = Returned (Some submission) ->
  fst (getProject (submission_projectId submission) db) = Returned (Some project) ->
  forall candidateId,
    option_map totalEarnings (candidateStats candidateId (after h db))
    = option_map (fun earned =>
                    if String.eqb (submission_candidateId submission) candidateId
                    then earned + project_payment project else earned)
                 (option_map totalEarnings (candidateStats candidateId db)).
Proof.
  intros h Hok Happroved Hs Hp candidateId; subst h.
  destruct (review_run userId submissionId body ratingUuid paymentUuid now db)
    as [(Hresp & _)
       | [(_ & Hresp & _)
         | (c & s & p & _ & Hs' & Hp' & _ & _ & _ & _ & _ & _ & _ & _ & Hpay)]].
  { destruct Hresp as [H|[H|H]]; rewrite H in Hok; discriminate. }
  { rewrite Hresp in Hok. discriminate. }
  rewrite Hs in Hs'. injection Hs' as <-.
  rewrite Hp in Hp'. injection Hp' as <-.
  destruct Hpay as [(_ & Hno) | (_ & _ & Hpay)];
    [specialize (Hno Hok); congruence|].
  unfold candidateStats, getCandidateStats. unfold_storage.
  cbn [fst option_map totalEarnings]. f_equal.
  rewrite Hpay, filter_app, map_app, !coalesce_sum. cbn [filter].
  cbn [payment_candidateId payment_status].
  destruct (String.eqb (submission_candidateId submission) candidateId); cbn.
  - apply sum_snoc.
  - now rewrite app_nil_r.
Qed.

(** X11: a company-creation call that succeeds raises by one the number of
    companies and the number of pending companies in the statistics of the
    admin, and leaves the other figures as they were. *)
Theorem company_creation_in_admin_stats
    (userId : Id) (body : CompanyBody) (uuid : Id) (now : Timestamp)
    (db : Database) (company : Company) (stats : AdminStats) :
  let h := post_company_profile userId body uuid now in
  response h db = Json (JCompany company) ->
  adminStats db = Some stats ->
  adminStats (after h db)
  = Some (mkAdminStats (totalUsers stats) (totalCompanies stats + 1)
                       (totalProjects stats) (pendingCompanies stats + 1)
                       (pendingProjects stats) (totalPayouts stats)).
Proof.
  intros h Hok Hstats; subst h.
  destruct (post_company_profile_run userId body uuid now db)
    as (Hp & _ & _ & Hpay & [(H & _) | (_ & Hu & [(H & _) | (c & _ & Hc & Hrow & _)])]);
    try (rewrite H in Hok; discriminate).
  unfold adminStats, getAdminStats in *. unfold_storage. cbn [fst] in *.
  injection Hstats as <-. cbn [totalUsers totalCompanies totalProjects
    pendingCompanies pendingProjects totalPayouts].
  rewrite Hp, Hpay, Hc, Hu. f_equal.
  unfold count. rewrite !filter_app, !length_app.
  rewrite Hrow. cbn [filter company_status companyStatus_eqb List.length].
  rewrite updateUserProfile_roleUpdate.
  assert (Hlen : forall (sel : User -> bool) f l,
             List.length (filter (fun _ : User => true) (update_where sel f l))
             = List.length (filter (fun _ : User => true) l)).
  { intros sel f l. unfold update_where.
    induction l as [|a l IH]; cbn; [reflexivity | now rewrite IH]. }
  destruct (find _ (users db)); cbn [snd users]; rewrite ?Hlen;
    f_equal; lia.
Qed.

(** ** Lists, newest first *)

Section Order.

Context {A : Type} (stamp : A -> option Timestamp).

Lemma insert_desc_perm (a : A) (l : list A) :
  Permutation (insert_desc stamp a l) (a :: l).
Proof.
  induction l as [|b l IH]; cbn; [reflexivity|].
  destruct (newer_first (stamp a) (stamp b)); [reflexivity|].
  rewrite IH. apply perm_swap.
Qed.

Lemma order_desc_perm (l : list A) : Permutation (order_desc stamp l) l.
Proof.
  induction l as [|a l IH]; cbn; [reflexivity|].
  unfold order_desc in IH. now rewrite insert_desc_perm, IH.
Qed.

Lemma newer_first_total (x y : option Timestamp) :
  newer_first x y = false -> newer_first y x = true.
Proof.
  destruct x as [x|], y as [y|]; cbn; try easy.
  intros H. apply Z.leb_gt in H. apply Z.leb_le. lia.
Qed.

Lemma newer_first_trans (x y z : option Timestamp) :
  newer_first x y = true -> newer_first y z = true -> newer_first x z = true.
Proof.
  destruct x as [x|], y as [y|], z as [z|]; cbn; try easy.
  rewrite !Z.leb_le. lia.
Qed.

Lemma insert_desc_sorted (a : A) (l : list A) :
  StronglySorted (newer_or_same stamp) l ->
  StronglySorted (newer_or_same stamp) (insert_desc stamp a l).
Proof.
  induction 1 as [|b l Hl IH Hb]; cbn; [repeat constructor|].
  destruct (newer_first (stamp a) (stamp b)) eqn:E.
  - constructor; [now constructor|]. constructor; [exact E|].
    eapply Forall_impl; [|exact Hb]. intros c Hc.
    eapply newer_first_trans; eassumption.
  - constructor; [exact IH|].
    rewrite insert_desc_perm.
    constructor; [now apply newer_first_total | exact Hb].
Qed.

Lemma order_desc_sorted (l : list A) :
  StronglySorted (newer_or_same stamp) (order_desc stamp l).
Proof.
  induction l as [|a l IH]; cbn; [constructor|].
  now apply insert_desc_sorted.
Qed.

End Order.

(** ** The handlers that only read *)

Import Reads.

Lemma mapM_reads {A B} (f : A -> Storage B) (g : A -> B) (l : list A)
    (db : Database) :
  (forall a, f a db = (Returned (g a), db)) ->
  mapM f l db = (Returned (map g l), db).
Proof.
  intros Hf. induction l as [|a l IH]; cbn; [reflexivity|].
  unfold bind. now rewrite Hf, IH.
Qed.

Lemma project_with_company_reads (db : Database) (p : Project) :
  project_with_company p db
  = (Returned (p, find (fun c => String.eqb (company_id c) (project_companyId p))
                       (companies db)), db).
Proof. reflexivity. Qed.

Lemma map_fst_pairing {A B} (g : A -> B) (l : list A) :
  map fst (map (fun a => (a, g a)) l) = l.
Proof. rewrite map_map. cbn. apply map_id. Qed.

(** X12: [GET /api/projects] answers 200 and reads only; its list holds
    exactly the projects whose status is [active], each once, the newest
    first, each with the first company row whose key is its [companyId];
    and in a database whose keys and references are in order that company
    is always there. *)
Theorem active_projects_listing (db : Database) :
  exists l,
    get_projects db = (Sent l, db)
    /\ Permutation (map fst l) (filter active (projects db))
    /\ StronglySorted (newer_or_same project_createdAt) (map fst l)
    /\ Forall (fun pc =>
                 snd pc = find (fun c => String.eqb (company_id c)
                                           (project_companyId (fst pc)))
                               (companies db)) l
    /\ (consistent db ->
        Forall (fun pc => exists c, snd pc = Some c
                                    /\ company_id c = project_companyId (fst pc)) l).
Proof.
  eexists. unfold get_projects, try_get, getActiveProjects. unfold_storage.
  rewrite (mapM_reads _ _ _ _ (project_with_company_reads db)).
  split; [reflexivity|]. rewrite map_fst_pairing.
  split; [apply order_desc_perm|]. split; [apply order_desc_sorted|].
  split.
  - apply Forall_map, Forall_forall. reflexivity.
  - intros (_ & (_ & Rp & _)).
    apply Forall_map. rewrite order_desc_perm.
    apply Forall_forall. intros p Hin. apply filter_In in Hin as [Hin _].
    rewrite Forall_forall in Rp. specialize (Rp p Hin). cbn.
    apply existsb_find in Rp as [c Hc]. exists c. split; [exact Hc|].
    apply find_some in Hc as [_ Hc]. now apply String.eqb_eq.
Qed.

(** X13: [GET /api/projects/featured] only reads and sends six projects,
    or all the active ones when they are fewer: the first six of the active
    projects put newest first, whichever way the database orders those of
    the same instant, each with the first company row whose key is its
    [companyId]. *)
Theorem featured_projects_listing (db : Database) :
  exists l all,
    get_projects_featured db = (Sent l, db)
    /\ Permutation all (filter active (projects db))
    /\ StronglySorted (newer_or_same project_createdAt) all
    /\ map fst l = firstn 6 all
    /\ List.length l = Nat.min 6 (List.length (filter active (projects db)))
    /\ Forall (fun pc =>
                 active (fst pc) = true
                 /\ snd pc = find (fun c => String.eqb (company_id c)
                                              (project_companyId (fst pc)))
                                  (companies db)) l.
Proof.
  eexists. exists (order_desc project_createdAt (filter active (projects db))).
  unfold get_projects_featured, try_get, getFeaturedProjects, limit.
  unfold_storage.
  rewrite (mapM_reads _ _ _ _ (project_with_company_reads db)).
  split; [reflexivity|]. split; [apply order_desc_perm|].
  split; [apply order_desc_sorted|].
  split; [apply map_fst_pairing|].
  split.
  { rewrite length_map, length_firstn.
    now rewrite (Permutation_length (order_desc_perm project_createdAt _)). }
  apply Forall_map, Forall_forall. intros p Hin. cbn [fst snd].
  split; [|reflexivity].
  assert (Hall : In p (order_desc project_createdAt
                         (filter (fun p => projectStatus_eqb (project_status p)
                                             ProjectActive) (projects db))))
    by (rewrite <- (firstn_skipn 6); apply in_or_app; now left).
  apply (Permutation_in _ (order_desc_perm _ _)) in Hall.
  now apply filter_In in Hall.
Qed.

(** X14: [GET /api/projects/:id/my-submission] only ever sends a submission
    of the caller for the project asked for; it answers 404 before the
    caller's submission-creation call for the project succeeds, and sends
    the created submission after it. *)
Theorem my_submission_round_trip
    (userId projectId : Id) (body : SubmissionBody) (uuid : Id) (now : Timestamp)
    (db : Database) :
  (forall s, fst (get_my_submission userId projectId db) = Sent s ->
             submission_candidateId s = userId
             /\ submission_projectId s = projectId)
  /\ (forall s,
        response (post_project_submissions userId projectId body uuid now) db
        = Json (JSubmission s) ->
        get_my_submission userId projectId db
        = (Refused 404 "No submission found", db)
        /\ fst (get_my_submission userId projectId
                  (after (post_project_submissions userId projectId body uuid now)
                         db))
           = Sent s).
Proof.
  split.
  - intros s. unfold get_my_submission, try_get. unfold_storage. cbn.
    destruct (find _ (submissions db)) as [s'|] eqn:E; cbn; [|discriminate].
    intros [= <-]. apply find_some in E as [_ E].
    apply andb_true_iff in E as [E1 E2].
    now apply String.eqb_eq in E1, E2.
  - intros s Hok.
    destruct (post_project_submissions_run userId projectId body uuid now db)
      as [[(code & message & Hno) _] | (s' & Hs' & -> & Hpair & Hnone & _)];
      [congruence|].
    rewrite Hs' in Hok. injection Hok as ->.
    unfold get_my_submission, try_get. unfold_storage. cbn.
    fold (same_pair projectId userId).
    now rewrite Hnone, (find_none_last _ _ _ Hnone Hpair).
Qed.

Lemma requireRole_is_requireRoleFor (allowedRoles : list userRole) (userId : Id)
    (next : Handler) :
  requireRole allowedRoles userId next = requireRoleFor Status allowedRoles userId next.
Proof. reflexivity. Qed.

Lemma requireRoleFor_refuses {R} (refuse : Z -> string -> R) (userId : Id)
    (db : Database) :
  role_of userId db <> Some RoleAdmin ->
  exists code message,
    turned_away code message
    /\ forall next, requireRoleFor refuse [RoleAdmin] userId next db
                    = (refuse code message, db).
Proof.
  unfold requireRoleFor, role_of, turned_away. unfold_storage. cbn.
  intros Hrole. destruct (String.eqb userId ""); [eauto 10|].
  destruct (find _ (users db)) as [u|]; [|eauto 10].
  destruct (user_role u); cbn; try congruence; eauto 10.
Qed.

(** X15: a caller whose stored role is not [admin] is turned away by each of
    the six admin routes with the same 401 or 403, and none of them
    changes the database or sends any of its data. *)
Theorem admin_routes_turn_others_away (userId : Id) (db : Database) :
  role_of userId db <> Some RoleAdmin ->
  exists code message,
    turned_away code message
    /\ (forall id approved now,
          post_admin_company_review userId id approved now db
          = (Status code message, db)
          /\ post_admin_project_review userId id approved now db
             = (Status code message, db))
    /\ get_admin_stats userId db = (Refused code message, db)
    /\ get_admin_companies_pending userId db = (Refused code message, db)
    /\ get_admin_projects_pending userId db = (Refused code message, db)
    /\ get_admin_payments_recent userId db = (Refused code message, db).
Proof.
  intros Hrole.
  destruct (requireRoleFor_refuses Status userId db Hrole)
    as (code & message & Hturned & Hwrite).
  assert (Hread : forall A (next : Getter A),
             requireRoleFor Refused [RoleAdmin] userId next db
             = (Refused code message, db)).
  { intros A next. revert Hwrite Hrole.
    unfold requireRoleFor, role_of. unfold_storage. cbn.
    intros Hwrite Hrole. specialize (Hwrite (fun d => (Json JSuccess, d))).
    destruct (String.eqb userId ""); [congruence|].
    destruct (find _ (users db)) as [u|]; [|congruence].
    destruct (user_role u); cbn in *; congruence. }
  exists code, message. split; [exact Hturned|].
  split; [intros id approved now; split; apply Hwrite|].
  repeat split; apply Hread.
Qed.

Lemma submission_with_candidate_reads (db : Database) (s : Submission) :
  submission_with_candidate s db
  = (Returned (s, find (fun u => String.eqb (user_id u) (submission_candidateId s))
                       (users db)), db).
Proof. reflexivity. Qed.

Lemma project_with_submissions_reads (db : Database) (p : Project) :
  project_with_submissions p db
  = (Returned
       (p, map (fun s => (s, find (fun u => String.eqb (user_id u)
                                              (submission_candidateId s))
                                  (users db)))
               (order_desc submission_createdAt
                  (filter (fun s => String.eqb (submission_projectId s) (project_id p))
                          (submissions db)))), db).
Proof.
  unfold project_with_submissions, getSubmissionsByProject. unfold_storage.
  now rewrite (mapM_reads _ _ _ _ (submission_with_candidate_reads db)).
Qed.

(** X16: [GET /api/company/projects] answers 404 to a caller without a
    company; to the others it sends exactly the projects of the caller's
    company, the newest first, and under each of them exactly the
    submissions made to that project, each with the user row of its
    candidate. *)
Theorem company_projects_are_own (userId : Id) (db : Database) :
  (fst (getCompanyByUserId userId db) = Returned None ->
   get_company_projects userId db = (Refused 404 "Company not found", db))
  /\ (forall company,
        fst (getCompanyByUserId userId db) = Returned (Some company) ->
        exists l,
          get_company_projects userId db = (Sent l, db)
          /\ Permutation (map fst l)
               (filter (fun p => String.eqb (project_companyId p) (company_id company))
                       (projects db))
          /\ StronglySorted (newer_or_same project_createdAt) (map fst l)
          /\ Forall (fun ps =>
                       project_companyId (fst ps) = company_id company
                       /\ Permutation (map fst (snd ps))
                            (filter (fun s => String.eqb (submission_projectId s)
                                                (project_id (fst ps)))
                                    (submissions db))
                       /\ Forall (fun sc =>
                                    submission_projectId (fst sc) = project_id (fst ps)
                                    /\ snd sc = find (fun u => String.eqb (user_id u)
                                                       (submission_candidateId (fst sc)))
                                                     (users db))
                                 (snd ps)) l).
Proof.
  unfold get_company_projects, try_get, getProjectsByCompany. unfold_storage.
  cbn [fst]. split.
  - intros [= ->]. reflexivity.
  - intros company [= ->]. eexists.
    rewrite (mapM_reads _ _ _ _ (project_with_submissions_reads db)).
    split; [reflexivity|]. rewrite map_fst_pairing.
    split; [apply order_desc_perm|]. split; [apply order_desc_sorted|].
    apply Forall_map, Forall_forall. intros p Hp. cbn [fst snd].
    apply (Permutation_in _ (order_desc_perm _ _)) in Hp.
    apply filter_In in Hp as [_ Hp]. apply String.eqb_eq in Hp.
    split; [exact Hp|]. rewrite map_fst_pairing.
    split; [apply order_desc_perm|].
    apply Forall_map, Forall_forall. intros s Hs. cbn [fst snd].
    apply (Permutation_in _ (order_desc_perm _ _)) in Hs.
    apply filter_In in Hs as [_ Hs]. apply String.eqb_eq in Hs. auto.
Qed.

Lemma submission_with_project_reads (db : Database) (s : Submission) :
  submission_with_project s db
  = (Returned
       (s, option_map
             (fun p => (p, option_map company_name
                             (find (fun c => String.eqb (company_id c)
                                               (project_companyId p))
                                   (companies db))))
             (find (fun p => String.eqb (project_id p) (submission_projectId s))
                   (projects db))), db).
Proof.
  unfold submission_with_project. unfold_storage.
  now destruct (find _ (projects db)).
Qed.

(** X17: [GET /api/candidate/submissions] only reads and sends exactly the
    submissions of the caller, the newest first, each with the first
    project row whose key is its [projectId], and with it the name, and
    nothing else, of the first company row whose key is the [companyId] of
    that project; in a database whose keys and references are in order
    both are always there. *)
Theorem candidate_submissions_are_own (userId : Id) (db : Database) :
  exists l,
    get_candidate_submissions userId db = (Sent l, db)
    /\ Permutation (map fst l)
         (filter (fun s => String.eqb (submission_candidateId s) userId)
                 (submissions db))
    /\ StronglySorted (newer_or_same submission_createdAt) (map fst l)
    /\ Forall (fun sp =>
                 submission_candidateId (fst sp) = userId
                 /\ snd sp
                    = option_map
                        (fun p =>
                           (p, option_map company_name
                                 (find (fun c => String.eqb (company_id c)
                                                   (project_companyId p))
                                       (companies db))))
                        (find (fun p => String.eqb (project_id p)
                                          (submission_projectId (fst sp)))
                              (projects db))) l
    /\ (consistent db ->
        Forall (fun sp =>
                  exists p c,
                    snd sp = Some (p, Some (company_name c))
                    /\ project_id p = submission_projectId (fst sp)
                    /\ company_id c = project_companyId p) l).
Proof.
  eexists. unfold get_candidate_submissions, try_get, getSubmissionsByCandidate.
  unfold_storage.
  rewrite (mapM_reads _ _ _ _ (submission_with_project_reads db)).
  split; [reflexivity|]. rewrite map_fst_pairing.
  split; [apply order_desc_perm|]. split; [apply order_desc_sorted|].
  split.
  - apply Forall_map, Forall_forall. intros s Hs. cbn [fst snd].
    apply (Permutation_in _ (order_desc_perm _ _)) in Hs.
    apply filter_In in Hs as [_ Hs]. apply String.eqb_eq in Hs.
    split; [exact Hs | reflexivity].
  - intros (_ & (_ & Rp & Rs & _)).
    apply Forall_map, Forall_forall. intros s Hs. cbn [fst snd].
    apply (Permutation_in _ (order_desc_perm _ _)) in Hs.
    apply filter_In in Hs as [Hs _].
    rewrite Forall_forall in Rs. destruct (Rs s Hs) as [Hproject _].
    apply existsb_find in Hproject as [p Hp]. rewrite Hp. cbn [option_map].
    pose proof (find_some _ _ Hp) as [Hin Hkey].
    rewrite Forall_forall in Rp. specialize (Rp p Hin).
    apply existsb_find in Rp as [c Hc]. rewrite Hc. cbn [option_map].
    exists p, c. split; [reflexivity|].
    apply find_some in Hc as [_ Hc].
    split; now apply String.eqb_eq.
Qed.

(** ** From creation to the listing *)

(** What one project-creation call does to the database. *)
Lemma post_company_projects_run
    (userId : Id) (body : ProjectBody) (uuid : Id) (now : Timestamp)
    (db : Database) :
  let h := post_company_projects userId body uuid now in
  ((exists code message, response h db = Status code message) /\ after h db = db)
  \/ exists company title description payment,
       fst (getCompanyByUserId userId db) = Returned (Some company)
       /\ company_status company = CompanyApproved
       /\ pb_title body = Value title
       /\ pb_description body = Value description
       /\ pb_payment body = Value payment
       /\ decimal_10_2_ok payment = true
       /\ has_project uuid db = false
       /\ let p := mkProject uuid (company_id company) title description
                     (nullable (pb_requirements body)) (nullable (pb_skills body))
                     payment (defaulted "intermediate" (pb_difficulty body))
                     (if truthy_num (pb_deadline body)
                      then nullable (pb_deadline body) else None)
                     (defaulted 10 (pb_maxSubmissions body))
                     ProjectPending (Some now) (Some now) in
          response h db = Json (JProject p)
          /\ after h db = mkDatabase (users db) (companies db) (projects db ++ [p])
                                     (submissions db) (ratings db) (payments db).
Proof.
  intros h; subst h. unfold response, after.
  destruct (post_company_projects _ _ _ _ db) as [resp db'] eqn:Hrun.
  unfold post_company_projects in Hrun. unfold_storage. cbn [fst snd] in *.
  destruct (find _ (companies db)) as [company|] eqn:Hc; cbn [fst snd] in Hrun;
    [|injection Hrun as <- <-; left; eauto].
  destruct (companyStatus_eqb (company_status company) CompanyApproved) eqn:Hst;
    cbn [fst snd negb] in Hrun; [|injection Hrun as <- <-; left; eauto].
  apply companyStatus_eqb_eq in Hst.
  match type of Hrun with
  | context [createProject uuid now ?ins db] =>
      pose proof (createProject_exact uuid now db ins) as Hins;
      destruct (createProject uuid now ins db) as [[p|e] db1]
  end; cbn [fst snd] in *; injection Hrun as <- <-; [|subst; left; eauto].
  destruct Hins as (title & description & payment & status & Ht & Hd & Hp & Hrange
                      & [[= <-]|[[=] _]] & -> & -> & Hfresh & _).
  cbn in *. right. exists company, title, description, payment.
  repeat split; auto.
  all: destruct (truthy_num (pb_deadline body)); reflexivity.
Qed.

Lemma In_update_where {A} (sel : A -> bool) (f : A -> A) (l : list A) (a : A) :
  In a l -> In (if sel a then f a else a) (update_where sel f l).
Proof. intros H. unfold update_where. now apply (in_map (fun a => if sel a then f a else a)). Qed.

Lemma In_update_where_inv {A} (sel : A -> bool) (f : A -> A) (l : list A) (b : A) :
  In b (update_where sel f l) ->
  exists a, In a l /\ b = (if sel a then f a else a).
Proof.
  unfold update_where. intros H. apply in_map_iff in H as (a & <- & Ha). eauto.
Qed.

(** X18: a project that a company has just created is on the list of the
    pending projects and not on the list of the active ones; once an admin
    review call with [approved = true] has named it, it is on the list of
    the active projects, with the status alone rewritten, and no project
    with its key is pending any more. *)
Theorem project_listed_after_approval
    (userId : Id) (body : ProjectBody) (uuid : Id) (now : Timestamp)
    (db : Database) (p : Project) (admin : Id) (later : Timestamp) :
  response (post_company_projects userId body uuid now) db = Json (JProject p) ->
  let created := after (post_company_projects userId body uuid now) db in
  let approved := after (post_admin_project_review admin uuid (Value true) later)
                        created in
  ((project_id p = uuid
    /\ In p (listed getPendingProjects created)
    /\ forall q, In q (listed getActiveProjects created) -> project_id q <> uuid)
   /\ (admin <> "" -> role_of admin created = Some RoleAdmin ->
       In (set_project (projectStatusUpdate ProjectActive) later p)
          (listed getActiveProjects approved)
       /\ forall q, In q (listed getPendingProjects approved) -> project_id q <> uuid)).
Proof.
  intros Hok created approved.
  destruct (post_company_projects_run userId body uuid now db)
    as [[(code & message & Hno) _]
       | (company & title & description & payment & _ & _ & _ & _ & _ & _ & Hfresh
            & Hp & Hdb)]; [congruence|].
  rewrite Hp in Hok. injection Hok as Hok.
  assert (Hid : project_id p = uuid) by now subst p.
  assert (Hpending : project_status p = ProjectPending) by now subst p.
  assert (Hin : In p (projects created)).
  { subst created. rewrite Hdb, Hok. cbn. apply in_or_app. right. now left. }
  assert (Hold : forall q, In q (projects created) -> project_id q = uuid -> q = p).
  { subst created. rewrite Hdb, Hok. cbn. intros q Hq Hquuid.
    apply in_app_or in Hq as [Hq | [<- | []]]; [|reflexivity].
    unfold has_project in Hfresh.
    assert (existsb (fun p0 => String.eqb (project_id p0) uuid) (projects db) = true)
      by (apply existsb_exists; exists q; split; [|apply String.eqb_eq]; auto).
    congruence. }
  unfold listed, getPendingProjects, getActiveProjects. unfold_storage. cbn [fst].
  split; [split; [exact Hid | split]|].
  - apply (Permutation_in _ (Permutation_sym (order_desc_perm _ _))).
    apply filter_In. split; [exact Hin|]. now rewrite Hpending.
  - intros q Hq Hquuid.
    apply (Permutation_in _ (order_desc_perm _ _)) in Hq.
    apply filter_In in Hq as [Hq Hactive].
    rewrite (Hold q Hq Hquuid), Hpending in Hactive. discriminate.
  - intros Hsub Hrole. subst approved.
    change (after (post_admin_project_review admin uuid (Value true) later) created)
      with (snd (post_admin_project_review admin uuid (Value true) later created)).
    unfold post_admin_project_review.
    rewrite requireRole_admin by assumption.
    unfold try_catch, bind, ret. rewrite updateProject_statusUpdate.
    destruct (find _ (projects created)) as [p0|] eqn:Hfind; cbn [fst snd];
      [|exfalso; apply (find_none _ _ Hfind) in Hin;
        rewrite Hid, String.eqb_refl in Hin; discriminate].
    cbn [projects]. split.
    + apply (Permutation_in _ (Permutation_sym (order_desc_perm _ _))).
      apply filter_In. split; [|reflexivity].
      apply (In_update_where (fun p' => String.eqb (project_id p') uuid)
               (set_project (projectStatusUpdate ProjectActive) later)) in Hin.
      rewrite Hid, String.eqb_refl in Hin. exact Hin.
    + intros q Hq Hquuid.
      apply (Permutation_in _ (order_desc_perm _ _)) in Hq.
      apply filter_In in Hq as [Hq Hstatus].
      apply In_update_where_inv in Hq as (q0 & _ & ->).
      destruct (String.eqb (project_id q0) uuid) eqn:E; [discriminate|].
      apply String.eqb_neq in E. contradiction.
Qed.

(** ** When a creation call succeeds *)


Lemma createProject_readable (id : Id) (now : Timestamp) (ins : InsertProject)
    (db : Database) (p : Project) :
  fst (createProject id now ins db) = Returned p ->
  readable_project ins = true /\ field_ok timestamp_ok (ip_deadline ins) = true.
Proof.
  unfold createProject. unfold_storage.
  destruct (readable_project ins); cbn; [|discriminate].
  destruct (field_ok timestamp_ok (ip_deadline ins)); cbn; [auto | discriminate].
Qed.

Lemma createSubmission_readable (id : Id) (now : Timestamp) (ins : InsertSubmission)
    (db : Database) (s : Submission) :
  fst (createSubmission id now ins db) = Returned s ->
  readable_submission ins = true.
Proof.
  unfold createSubmission. unfold_storage.
  destruct (readable_submission ins); cbn; [auto | discriminate].
Qed.

Lemma createSubmission_succeeds (id : Id) (now : Timestamp) (ins : InsertSubmission)
    (db : Database) (content : string) :
  readable_submission ins = true ->
  is_content ins = Value content ->
  is_status ins <> Null ->
  has_submission id db = false ->
  has_project (is_projectId ins) db = true ->
  has_user (is_candidateId ins) db = true ->
  exists s db', createSubmission id now ins db = (Returned s, db').
Proof.
  unfold createSubmission, has_submission, has_project, has_user.
  intros Htext Hc Hst Hfresh Hp Hu. unfold_storage. rewrite Htext, Hc. cbn.
  (destruct (is_status ins); [| congruence |]); cbn;
    rewrite Hfresh; cbn; rewrite Hp; cbn; rewrite Hu; cbn; eauto.
Qed.




(** X20: on an active project to which the caller has not submitted yet, a
    submission-creation call succeeds exactly when the server reads the
    strings of the body, the body holds a content, the drawn key is fresh
    and the caller has a user row; otherwise it answers 500 and changes
    nothing.  The stored submission
    has the key drawn, the project and the caller of the request, the
    content and the attachment of the body, status [pending] and no
    feedback. *)
Theorem submission_creation_outcome
    (userId projectId : Id) (body : SubmissionBody) (uuid : Id) (now : Timestamp)
    (db : Database) (project : Project) :
  let h := post_project_submissions userId projectId body uuid now in
  fst (getProject projectId db) = Returned (Some project) ->
  project_status project = ProjectActive ->
  fst (getSubmissionByProjectAndCandidate projectId userId db) = Returned None ->
  (readable_submission_body body = true
   /\ (exists content, sb_content body = Value content)
   /\ has_submission uuid db = false
   /\ has_user userId db = true ->
   exists s, response h db = Json (JSubmission s))
  /\ (forall s,
        response h db = Json (JSubmission s) ->
        exists content,
          readable_submission_body body = true
          /\ sb_content body = Value content
          /\ has_submission uuid db = false
          /\ has_user userId db = true
          /\ s = mkSubmission uuid projectId userId content
                   (nullable (sb_attachmentUrl body)) SubmissionPending None
                   (Some now) (Some now))
  /\ ((forall s, response h db <> Json (JSubmission s)) ->
      response h db = Status 500 "Failed to create submission"
      /\ after h db = db).
Proof.
  intros h Hp Hactive Hnone; subst h. cbn in Hp, Hnone.
  injection Hp as Hp. injection Hnone as Hnone.
  unfold response, after, post_project_submissions. unfold_storage.
  rewrite Hp. cbn [fst snd]. rewrite Hactive. cbn [projectStatus_eqb negb].
  rewrite Hnone. cbn [fst snd].
  assert (Hbody : forall status feedback,
             readable_submission
               (mkInsertSubmission projectId userId (sb_content body)
                  (sb_attachmentUrl body) status feedback)
             = readable_submission_body body && field_ok text_ok feedback)
    by reflexivity.
  match goal with
  | |- context [createSubmission uuid now ?ins db] =>
      pose proof (createSubmission_exact uuid now db ins) as Hins;
      pose proof (createSubmission_succeeds uuid now ins db) as Hsucceeds;
      pose proof (createSubmission_readable uuid now ins db) as Hreadable;
      destruct (createSubmission uuid now ins db) as [[s|e] db1]
  end; cbn [fst snd] in *.
  - destruct Hins as (content & status & Hc & [[= <-]|[[=] _]] & -> & -> & Hfresh
                        & _ & Hu).
    specialize (Hreadable _ eq_refl). rewrite Hbody in Hreadable.
    cbn in Hreadable. rewrite andb_true_r in Hreadable.
    split; [eauto|]. split.
    + intros s [= <-]. exists content. auto.
    + intros Hno. exfalso. eapply Hno. reflexivity.
  - subst db1. split; [|split; [discriminate|auto]].
    intros (Hread & (content & Hc) & Hfresh & Hu).
    destruct (Hsucceeds content) as (s & db' & [=]); auto;
      [rewrite Hbody, Hread; reflexivity | discriminate |].
    unfold has_project. cbn.
    apply (find_existsb _ _ _ _ Hp). apply find_some in Hp. tauto.
Qed.

(** X21: after an admin review call with a falsy [approved] has named the
    company of a user, every project-creation call of that user answers 403
    "Company must be approved to post projects" and changes nothing; after
    one with [approved = true] the company passes that check, so that a
    project-creation call is refused only by the storage layer. *)
Theorem company_review_decides_posting
    (admin owner : Id) (approved : Field bool) (now : Timestamp) (db : Database)
    (company : Company) (body : ProjectBody) (uuid : Id) (later : Timestamp) :
  admin <> "" -> role_of admin db = Some RoleAdmin ->
  fst (getCompanyByUserId owner db) = Returned (Some company) ->
  let reviewed_db :=
    after (post_admin_company_review admin (company_id company) approved now) db in
  let post := post_company_projects owner body uuid later in
  (truthy_bool approved = false ->
   post reviewed_db
   = (Status 403 "Company must be approved to post projects", reviewed_db))
  /\ (truthy_bool approved = true ->
      response post reviewed_db
      <> Status 403 "Company must be approved to post projects"
      /\ response post reviewed_db <> Status 404 "Company not found").
Proof.
  intros Hsub Hrole Hc reviewed_db post. cbn in Hc. injection Hc as Hc.
  assert (Hfound :
            find (fun c => String.eqb (company_userId c) owner) (companies reviewed_db)
            = Some (set_company
                      (statusUpdate (if truthy_bool approved then CompanyApproved
                                     else CompanyRejected)) now company)).
  { subst reviewed_db. unfold after, post_admin_company_review.
    rewrite requireRole_admin by assumption.
    unfold try_catch, bind, ret. rewrite updateCompany_statusUpdate.
    destruct (find (fun c => String.eqb (company_id c) (company_id company))
                   (companies db)) as [c0|] eqn:Hc0; cbn [fst snd companies].
    - rewrite find_update_where_keys by reflexivity. rewrite Hc. cbn.
      now rewrite String.eqb_refl.
    - apply find_some in Hc as [Hin _]. apply (find_none _ _ Hc0) in Hin.
      now rewrite String.eqb_refl in Hin. }
  subst post. unfold response, post_company_projects. unfold_storage.
  rewrite Hfound. cbn [fst snd company_status set_company statusUpdate pc_status].
  split; intros ->; cbn [companyStatus_eqb negb fst snd]; [reflexivity|].
  destruct (createProject _ _ _ _) as [[p|e] db1]; cbn; split; discriminate.
Qed.

(** ** Logins *)

Lemma find_snoc_other {A} (sel : A -> bool) (l : list A) (a : A) :
  sel a = false -> find sel (l ++ [a]) = find sel l.
Proof.
  intros Ha. induction l as [|b l IH]; cbn; [now rewrite Ha|].
  now destruct (sel b).
Qed.

Lemma upsertUser_run (uuid : Id) (now : Timestamp) (userData : UpsertUser)
    (db : Database) :
  let id := match uu_id userData with Value id => id | _ => uuid end in
  let sel := fun u : User => String.eqb (user_id u) id in
  match upsertUser uuid now userData db with
  | (Returned u, db') =>
      find sel (users db) = None
      /\ u = insert_user id (match uu_role userData with
                             | Value role => role
                             | _ => RoleCandidate
                             end) now userData
      /\ db' = mkDatabase (users db ++ [u]) (companies db) (projects db)
                          (submissions db) (ratings db) (payments db)
      \/ exists old,
           find sel (users db) = Some old
           /\ u = conflict_user now userData old
           /\ db' = mkDatabase (update_where sel (conflict_user now userData)
                                             (users db))
                               (companies db) (projects db) (submissions db)
                               (ratings db) (payments db)
  | (Thrown _, db') => db' = db
  end.
Proof.
  unfold upsertUser. run_storage; cbn; eauto.
Qed.

(** X22: when [upsertUser] returns a row, a lookup of its key right after
    finds that row, and the row of no other key has changed.  For a key
    that had no row the row is new and its role is the one of the data or
    [candidate]; for a key that had one, the row is the old one with the
    columns the data holds, so that a login whose data say nothing about
    the role leaves the role as it was. *)
Theorem upsert_then_get
    (uuid : Id) (now : Timestamp) (userData : UpsertUser) (db : Database) (u : User) :
  fst (upsertUser uuid now userData db) = Returned u ->
  let db' := snd (upsertUser uuid now userData db) in
  fst (getUser (user_id u) db') = Returned (Some u)
  /\ user_id u = match uu_id userData with Value id => id | _ => uuid end
  /\ (forall old,
        fst (getUser (user_id u) db) = Returned (Some old) ->
        u = conflict_user now userData old
        /\ (uu_role userData = Undefined -> user_role u = user_role old))
  /\ (fst (getUser (user_id u) db) = Returned None ->
      users db' = users db ++ [u]
      /\ user_role u = match uu_role userData with
                       | Value role => role
                       | _ => RoleCandidate
                       end)
  /\ (forall other, other <> user_id u ->
        fst (getUser other db') = fst (getUser other db)).
Proof.
  intros Hu db'; subst db'.
  pose proof (upsertUser_run uuid now userData db) as Hrun. cbv zeta in Hrun.
  destruct (upsertUser uuid now userData db) as [[u'|e] db']; [|discriminate].
  cbn [fst snd] in *. injection Hu as ->.
  set (id := match uu_id userData with Value i => i | _ => uuid end) in *.
  assert (Hother : forall other a, other <> id ->
            String.eqb (user_id a) id = true ->
            String.eqb (user_id a) other = false).
  { intros other a Hne Ha. apply String.eqb_eq in Ha. apply String.eqb_neq.
    congruence. }
  destruct Hrun as [(Hnone & Hrow & ->) | (old & Hold & Hrow & ->)];
    unfold_storage; cbn [fst snd users].
  - assert (Hkey : user_id u = id) by now subst u.
    rewrite Hkey. rewrite Hnone. repeat split.
    + f_equal. apply find_none_last; [exact Hnone|].
      rewrite Hkey. apply String.eqb_refl.
    + discriminate.
    + discriminate.
    + now subst u.
    + intros other Hne. f_equal. apply find_snoc_other.
      rewrite Hkey. apply String.eqb_neq. congruence.
  - assert (Hkey : user_id u = id).
    { subst u. cbn. apply find_some in Hold as [_ Hold].
      now apply String.eqb_eq in Hold. }
    rewrite Hkey. rewrite Hold. repeat split.
    + f_equal. rewrite find_update_where by auto. now rewrite Hold, Hrow.
    + now injection H as <-.
    + injection H as <-. intros Hrole. subst u. cbn. now rewrite Hrole.
    + discriminate.
    + discriminate.
    + intros other Hne. f_equal. apply find_update_where_other.
      intros a Ha. split; cbn; eauto.
Qed.

(** ** Payments stay settled *)

Lemma settled_stable (db db' : Database) (pay : Payment) :
  lookups_stable db db' -> settled_payment db pay -> settled_payment db' pay.
Proof.
  intros [Hs Hp] (Hpaid & Hat & s & p & Hfs & Hfp & Hc & Hco & Ha).
  destruct (Hs _ _ Hfs) as (s' & Hfs' & Hsp & Hsc).
  destruct (Hp _ _ Hfp) as (p' & Hfp' & Hpc & Hpp).
  repeat split; auto. exists s', p'. rewrite Hsp. repeat split; congruence.
Qed.

Lemma payments_settled_stable (db db' : Database) :
  lookups_stable db db' -> payments db' = payments db ->
  payments_settled db -> payments_settled db'.
Proof.
  intros Hstable Hpay H. unfold payments_settled. rewrite Hpay.
  eapply Forall_impl; [|exact H]. intros pay. now apply settled_stable.
Qed.

Lemma stable_tables (db db' : Database) :
  (submissions db' = submissions db
   \/ (exists more, submissions db' = submissions db ++ more)
   \/ exists sel f,
        (forall s, submission_id (f s) = submission_id s)
        /\ (forall s, submission_projectId (f s) = submission_projectId s)
        /\ (forall s, submission_candidateId (f s) = submission_candidateId s)
        /\ submissions db' = update_where sel f (submissions db)) ->
  (projects db' = projects db
   \/ (exists more, projects db' = projects db ++ more)
   \/ exists sel f,
        (forall p, project_id (f p) = project_id p)
        /\ (forall p, project_companyId (f p) = project_companyId p)
        /\ (forall p, project_payment (f p) = project_payment p)
        /\ projects db' = update_where sel f (projects db)) ->
  lookups_stable db db'.
Proof.
  intros Hs Hp. split.
  - intros id s Hf.
    destruct Hs as [-> | [(more & ->) | (sel & f & Hid & Hpr & Hc & ->)]]; eauto.
    + rewrite (find_app_some _ _ _ _ Hf). eauto.
    + rewrite find_update_where_keys by (intros a; now rewrite Hid).
      rewrite Hf. cbn. eexists. split; [reflexivity|].
      destruct (sel s); auto.
  - intros id p Hf.
    destruct Hp as [-> | [(more & ->) | (sel & f & Hid & Hc & Hpay & ->)]]; eauto.
    + rewrite (find_app_some _ _ _ _ Hf). eauto.
    + rewrite find_update_where_keys by (intros a; now rewrite Hid).
      rewrite Hf. cbn. eexists. split; [reflexivity|].
      destruct (sel p); auto.
Qed.

Lemma handle_settled (r : Request) (db : Database) :
  payments_settled db -> payments_settled (snd (handle r db)).
Proof.
  intros H. destruct r; cbn [handle].
  - unfold patch_profile, try_catch, bind, ret.
    match goal with
    | |- context [updateUserProfile userId ?upd now db] =>
        pose proof (updateUserProfile_touches userId now db upd)
          as (_ & Hp & Hs & _ & Hpay);
        destruct (updateUserProfile userId upd now db) as [[o|e] db1]
    end; cbn [fst snd] in *;
      (apply (payments_settled_stable db);
       [apply stable_tables; auto | assumption | exact H]).
  - destruct (post_project_submissions_run userId projectId body uuid now db)
      as [[_ Hdb] | (s & _ & Hdb & _)]; unfold after in Hdb; rewrite Hdb;
      [exact H|].
    apply (payments_settled_stable db); [| reflexivity | exact H].
    apply stable_tables; cbn; eauto.
  - destruct (post_company_profile_run userId body uuid now db)
      as (Hp & Hs & _ & Hpay & _). unfold after in *.
    apply (payments_settled_stable db); [| exact Hpay | exact H].
    apply stable_tables; auto.
  - destruct (post_company_projects_run userId body uuid now db)
      as [[_ Hdb] | (c & t & d & a & _ & _ & _ & _ & _ & _ & _ & _ & Hdb)];
      unfold after in Hdb; rewrite Hdb; [exact H|].
    apply (payments_settled_stable db); [| reflexivity | exact H].
    apply stable_tables; cbn; eauto.
  - destruct (review_run userId submissionId body ratingUuid paymentUuid now db)
      as [(_ & Hdb & _)
         | [(_ & _ & Hdb & _)
           | (c & s & p & Hc & Hs & Hp & Hown & _ & _ & _ & _ & Hprojects & Hsubs
                & _ & Hpay)]];
      unfold after in *; [now rewrite Hdb | now rewrite Hdb |].
    assert (Hstable : lookups_stable db
                        (snd (post_company_submission_review userId submissionId body
                                ratingUuid paymentUuid now db))).
    { apply stable_tables; [|auto]. right. right.
      exists (fun s0 => String.eqb (submission_id s0) submissionId),
             (set_submission
                (reviewed (truthy_bool (rb_approved body)) (rb_feedback body)) now).
      repeat split. exact Hsubs. }
    unfold payments_settled.
    destruct Hpay as [(-> & _) | (_ & _ & ->)].
    + eapply Forall_impl; [|exact H]. intros pay. now apply settled_stable.
    + apply Forall_app. split.
      * eapply Forall_impl; [|exact H]. intros pay. now apply settled_stable.
      * repeat constructor; cbn; try discriminate.
        cbn in Hs, Hp. injection Hs as Hs. injection Hp as Hp.
        destruct Hstable as [Hss Hsp].
        destruct (Hss _ _ Hs) as (s' & Hfs' & Hsp' & Hsc').
        destruct (Hsp _ _ Hp) as (p' & Hfp' & Hpc' & Hpp').
        exists s', p'. rewrite Hsp'. repeat split; congruence.
  - unfold post_admin_company_review.
    apply (keeps_requireRole payments_settled); [|exact H]. intros _.
    unfold try_catch, bind, ret. rewrite updateCompany_statusUpdate.
    destruct (find _ (companies db)); cbn [fst snd]; [|exact H].
    apply (payments_settled_stable db); [| reflexivity | exact H].
    apply stable_tables; auto.
  - unfold post_admin_project_review.
    apply (keeps_requireRole payments_settled); [|exact H]. intros _.
    unfold try_catch, bind, ret. rewrite updateProject_statusUpdate.
    destruct (find _ (projects db)); cbn [fst snd]; [|exact H].
    apply (payments_settled_stable db); [| reflexivity | exact H].
    apply stable_tables; cbn; auto.
    right. right.
    exists (fun p' => String.eqb (project_id p') projectId),
           (set_project
              (projectStatusUpdate (if truthy_bool approved then ProjectActive
                                    else ProjectCancelled)) now).
    repeat split.
Qed.

(** X23: every payment a review creates is settled, and stays so: along any
    sequence of logins and requests each payment row is "paid" at some
    instant, to the candidate of its submission, by the company of the
    project of that submission, for an amount equal to the payment of that
    project. *)
Theorem payments_stay_settled (events : list Event) (db : Database) :
  (payments_settled db -> payments_settled (happen_all events db))
  /\ payments_settled (happen_all events emptyDatabase).
Proof.
  assert (Hstep : forall e db0, payments_settled db0 -> payments_settled (happen e db0)).
  { intros [uuid now userData | r] db0 H; cbn.
    - pose proof (upsertUser_run uuid now userData db0) as Hrun.
      cbv zeta in Hrun.
      destruct (upsertUser uuid now userData db0) as [[u|e] db1]; cbn [fst snd];
        [destruct Hrun as [(_ & _ & ->) | (old & _ & _ & ->)] | subst db1];
        (apply (payments_settled_stable db0);
         [apply stable_tables; auto | reflexivity | exact H]).
    - now apply handle_settled. }
  assert (Hall : forall db0, payments_settled db0 ->
                             payments_settled (happen_all events db0)).
  { unfold happen_all. induction events as [|e events IH]; cbn; auto. }
  split; [apply Hall|]. apply Hall. constructor.
Qed.

(** ** The queues of the admin *)

Lemma requireRoleFor_admin {R} (refuse : Z -> string -> R) (userId : Id)
    (next : Database -> R * Database) (db : Database) :
  userId <> "" -> role_of userId db = Some RoleAdmin ->
  requireRoleFor refuse [RoleAdmin] userId next db = next db.
Proof.
  unfold requireRoleFor, role_of. unfold_storage. cbn.
  intros Hsub Hrole. apply String.eqb_neq in Hsub. rewrite Hsub.
  destruct (find _ (users db)) as [u|]; [|easy].
  injection Hrole as ->. reflexivity.
Qed.

Lemma company_with_user_reads (db : Database) (c : Company) :
  company_with_user c db
  = (Returned (c, find (fun u => String.eqb (user_id u) (company_userId c))
                       (users db)), db).
Proof. reflexivity. Qed.

Lemma payment_with_details_reads (db : Database) (p : Payment) :
  payment_with_details p db
  = (Returned (p, find (fun u => String.eqb (user_id u) (payment_candidateId p))
                       (users db),
               find (fun c => String.eqb (company_id c) (payment_companyId p))
                    (companies db)), db).
Proof. reflexivity. Qed.

(** What an admin review call of a company does to the database. *)
Lemma post_admin_company_review_run
    (userId id : Id) (approved : Field bool) (now : Timestamp) (db : Database) :
  let db' := after (post_admin_company_review userId id approved now) db in
  db' = db
  \/ db' = mkDatabase (users db)
             (update_where (fun c => String.eqb (company_id c) id)
                (set_company (statusUpdate (if truthy_bool approved
                                            then CompanyApproved
                                            else CompanyRejected)) now)
                (companies db))
             (projects db) (submissions db) (ratings db) (payments db).
Proof.
  cbv zeta. unfold after, post_admin_company_review.
  assert (Hdec : role_of userId db = Some RoleAdmin
                 \/ role_of userId db <> Some RoleAdmin)
    by (destruct (role_of userId db) as [[]|]; auto; right; discriminate).
  destruct Hdec as [Hrole|Hrole]; [|left; now apply requireRole_refuses].
  destruct (String.eqb userId "") eqn:Hsub.
  - left. unfold requireRole. unfold_storage. now rewrite Hsub.
  - apply String.eqb_neq in Hsub. rewrite requireRole_admin by assumption.
    unfold try_catch, bind, ret. rewrite updateCompany_statusUpdate.
    destruct (find _ (companies db)); cbn; auto.
Qed.

Lemma post_admin_project_review_run
    (userId id : Id) (approved : Field bool) (now : Timestamp) (db : Database) :
  let db' := after (post_admin_project_review userId id approved now) db in
  db' = db
  \/ db' = mkDatabase (users db) (companies db)
             (update_where (fun p => String.eqb (project_id p) id)
                (set_project (projectStatusUpdate (if truthy_bool approved
                                                   then ProjectActive
                                                   else ProjectCancelled)) now)
                (projects db))
             (submissions db) (ratings db) (payments db).
Proof.
  cbv zeta. unfold after, post_admin_project_review.
  assert (Hdec : role_of userId db = Some RoleAdmin
                 \/ role_of userId db <> Some RoleAdmin)
    by (destruct (role_of userId db) as [[]|]; auto; right; discriminate).
  destruct Hdec as [Hrole|Hrole]; [|left; now apply requireRole_refuses].
  destruct (String.eqb userId "") eqn:Hsub.
  - left. unfold requireRole. unfold_storage. now rewrite Hsub.
  - apply String.eqb_neq in Hsub. rewrite requireRole_admin by assumption.
    unfold try_catch, bind, ret. rewrite updateProject_statusUpdate.
    destruct (find _ (projects db)); cbn; auto.
Qed.


Lemma filter_update_where_le {A} (sel sel' : A -> bool) (f : A -> A) (l : list A) :
  (forall a, sel' (f a) = false) ->
  (List.length (filter sel' (update_where sel f l)) <= List.length (filter sel' l))%nat.
Proof.
  intros Hoff. unfold update_where. induction l as [|a l IH]; cbn; [lia|].
  destruct (sel a); [rewrite Hoff|]; destruct (sel' a); cbn; lia.
Qed.

(** X24: to an admin [GET /api/admin/companies/pending] sends exactly the
    companies whose status is [pending], the newest first, each with the
    user row found under its [userId], which is there in a database whose
    keys and references are in order; it only reads.  Once an admin review
    call has named a company, approved or not, no company with that key is
    on the list any more. *)
Theorem pending_companies_queue (admin : Id) (db : Database) :
  admin <> "" -> role_of admin db = Some RoleAdmin ->
  (exists l,
      get_admin_companies_pending admin db = (Sent l, db)
      /\ Permutation (map fst l)
           (filter (fun c => companyStatus_eqb (company_status c) CompanyPending)
                   (companies db))
      /\ StronglySorted (newer_or_same company_createdAt) (map fst l)
      /\ Forall (fun cu =>
                   snd cu = find (fun u => String.eqb (user_id u)
                                             (company_userId (fst cu)))
                                 (users db)) l
      /\ (consistent db ->
          Forall (fun cu => exists u, snd cu = Some u
                                      /\ user_id u = company_userId (fst cu)) l))
  /\ (forall id approved now,
        let db' := after (post_admin_company_review admin id approved now) db in
        exists l',
          get_admin_companies_pending admin db' = (Sent l', db')
          /\ Forall (fun cu => company_id (fst cu) <> id) l').
Proof.
  intros Hsub Hrole.
  assert (Hlist : forall d, role_of admin d = Some RoleAdmin ->
            get_admin_companies_pending admin d
            = (Sent (map (fun c => (c, find (fun u => String.eqb (user_id u)
                                                        (company_userId c))
                                            (users d)))
                         (order_desc company_createdAt
                            (filter (fun c => companyStatus_eqb (company_status c)
                                                CompanyPending)
                                    (companies d)))), d)).
  { intros d Hd. unfold get_admin_companies_pending.
    rewrite requireRoleFor_admin by assumption.
    unfold try_get, getPendingCompanies. unfold_storage.
    now rewrite (mapM_reads _ _ _ _ (company_with_user_reads d)). }
  split.
  - eexists. split; [apply Hlist, Hrole|]. rewrite map_fst_pairing.
    split; [apply order_desc_perm|]. split; [apply order_desc_sorted|].
    split.
    + apply Forall_map, Forall_forall. reflexivity.
    + intros (_ & (Rc & _)).
      apply Forall_map. rewrite order_desc_perm.
      apply Forall_forall. intros c Hin. apply filter_In in Hin as [Hin _].
      rewrite Forall_forall in Rc. specialize (Rc c Hin). cbn.
      apply existsb_find in Rc as [u Hu]. exists u. split; [exact Hu|].
      apply find_some in Hu as [_ Hu]. now apply String.eqb_eq.
  - intros id approved now db'.
    assert (Hrole' : role_of admin db' = Some RoleAdmin).
    { subst db'.
      destruct (post_admin_company_review_run admin id approved now db) as [->| ->];
        exact Hrole. }
    eexists. split; [apply Hlist, Hrole'|].
    apply Forall_map. rewrite order_desc_perm.
    apply Forall_forall. intros c Hin. apply filter_In in Hin as [Hin Hpending].
    cbn [fst]. intros Hid. subst db'. unfold after, post_admin_company_review in Hin.
    rewrite requireRole_admin in Hin by assumption.
    unfold try_catch, bind, ret in Hin. rewrite updateCompany_statusUpdate in Hin.
    destruct (find (fun c => String.eqb (company_id c) id) (companies db))
      as [found|] eqn:Hfound; cbn in Hin.
    + apply In_update_where_inv in Hin as (a & _ & ->).
      destruct (String.eqb (company_id a) id) eqn:E.
      * cbn in Hpending. now destruct (truthy_bool approved).
      * apply String.eqb_neq in E. contradiction.
    + eapply find_none in Hfound; [|exact Hin].
      rewrite Hid, String.eqb_refl in Hfound. discriminate.
Qed.

(** X25: to an admin [GET /api/admin/payments/recent] sends the first
    twenty payments in the order newest first, or all of them when there
    are fewer, each with the user row found under its [candidateId] and the
    company row found under its [companyId]; both are there in a database
    whose keys and references are in order; it only reads. *)
Theorem recent_payments_listing (admin : Id) (db : Database) :
  admin <> "" -> role_of admin db = Some RoleAdmin ->
  exists l all,
    get_admin_payments_recent admin db = (Sent l, db)
    /\ Permutation all (payments db)
    /\ StronglySorted (newer_or_same payment_createdAt) all
    /\ map (fun d => fst (fst d)) l = firstn 20 all
    /\ List.length l = Nat.min 20 (List.length (payments db))
    /\ Forall (fun d =>
                 snd (fst d) = find (fun u => String.eqb (user_id u)
                                                (payment_candidateId (fst (fst d))))
                                    (users db)
                 /\ snd d = find (fun c => String.eqb (company_id c)
                                             (payment_companyId (fst (fst d))))
                                 (companies db)) l
    /\ (consistent db ->
        Forall (fun d => exists u c, snd (fst d) = Some u /\ snd d = Some c
                                     /\ user_id u = payment_candidateId (fst (fst d))
                                     /\ company_id c = payment_companyId (fst (fst d)))
               l).
Proof.
  intros Hsub Hrole. eexists. exists (order_desc payment_createdAt (payments db)).
  unfold get_admin_payments_recent. rewrite requireRoleFor_admin by assumption.
  unfold try_get, getRecentPayments, limit. unfold_storage.
  rewrite (mapM_reads _ _ _ _ (payment_with_details_reads db)).
  split; [reflexivity|]. split; [apply order_desc_perm|].
  split; [apply order_desc_sorted|].
  split; [rewrite map_map; cbn; apply map_id|].
  split.
  { rewrite length_map, length_firstn.
    now rewrite (Permutation_length (order_desc_perm payment_createdAt (payments db))). }
  split.
  - apply Forall_map, Forall_forall. intros p _. cbn. auto.
  - intros (_ & (_ & _ & _ & _ & Rp)).
    apply Forall_map, Forall_forall. intros p Hin. cbn.
    assert (Hall : In p (order_desc payment_createdAt (payments db)))
      by (rewrite <- (firstn_skipn 20); apply in_or_app; now left).
    apply (Permutation_in _ (order_desc_perm _ _)) in Hall.
    rewrite Forall_forall in Rp. destruct (Rp p Hall) as (_ & Hu & Hc).
    apply existsb_find in Hu as [u Hu]. apply existsb_find in Hc as [c Hc].
    exists u, c. split; [exact Hu|]. split; [exact Hc|].
    apply find_some in Hu as [_ Hu]. apply find_some in Hc as [_ Hc].
    split; now apply String.eqb_eq.
Qed.


(** ** The statistics of the admin along the reviews *)

Lemma update_where_none {A} (sel : A -> bool) (f : A -> A) (l : list A) :
  (forall a, In a l -> sel a = false) -> update_where sel f l = l.
Proof.
  intros Hnone. unfold update_where. induction l as [|a l IH]; cbn; [reflexivity|].
  rewrite (Hnone a) by now left. f_equal. apply IH. intros b Hb. apply Hnone. now right.
Qed.

Lemma filter_update_where_one {A} (key : A -> Id) (id : Id) (sel' : A -> bool)
    (f : A -> A) (l : list A) (c : A) :
  NoDup (map key l) ->
  find (fun a => String.eqb (key a) id) l = Some c ->
  sel' c = true ->
  (forall a, sel' (f a) = false) ->
  S (List.length (filter sel' (update_where (fun a => String.eqb (key a) id) f l)))
  = List.length (filter sel' l).
Proof.
  intros Hnd Hfind Hc Hoff. induction l as [|b l IH]; [discriminate|].
  inversion Hnd as [|? ? Hnotin Hnd']; subst. cbn in Hfind.
  change (update_where (fun a => String.eqb (key a) id) f (b :: l))
    with ((if String.eqb (key b) id then f b else b)
          :: update_where (fun a => String.eqb (key a) id) f l).
  destruct (String.eqb (key b) id) eqn:E.
  - injection Hfind as ->. cbn. rewrite Hoff, Hc. cbn. f_equal.
    rewrite update_where_none; [reflexivity|].
    intros a Ha. apply String.eqb_eq in E. apply String.eqb_neq.
    intros Hkey. apply Hnotin. rewrite E, <- Hkey. now apply in_map.
  - cbn. destruct (sel' b); cbn; rewrite <- (IH Hnd' Hfind); reflexivity.
Qed.

(** X27: in the statistics of the admin the pending companies are never
    more than the companies and the pending projects never more than the
    projects.  An admin review call of a company, whoever makes it and
    whatever it answers, leaves every figure but the pending companies as
    it was and does not raise that one; made by an admin on a company that
    is [pending], in a database whose keys are unique, it lowers it by
    exactly one.  The same holds of an admin review call of a project and
    the pending projects. *)
Theorem admin_review_in_admin_stats
    (userId id : Id) (approved : Field bool) (now : Timestamp) (db : Database)
    (stats : AdminStats) :
  adminStats db = Some stats ->
  (0 <= pendingCompanies stats <= totalCompanies stats
   /\ 0 <= pendingProjects stats <= totalProjects stats)
  /\ (exists pending,
         adminStats (after (post_admin_company_review userId id approved now) db)
         = Some (mkAdminStats (totalUsers stats) (totalCompanies stats)
                              (totalProjects stats) pending
                              (pendingProjects stats) (totalPayouts stats))
         /\ 0 <= pending <= pendingCompanies stats
         /\ (keys_unique db -> userId <> "" ->
             role_of userId db = Some RoleAdmin ->
             forall company,
               fst (getCompany id db) = Returned (Some company) ->
               company_status company = CompanyPending ->
               pending = pendingCompanies stats - 1))
  /\ (exists pending,
         adminStats (after (post_admin_project_review userId id approved now) db)
         = Some (mkAdminStats (totalUsers stats) (totalCompanies stats)
                              (totalProjects stats) (pendingCompanies stats)
                              pending (totalPayouts stats))
         /\ 0 <= pending <= pendingProjects stats
         /\ (keys_unique db -> userId <> "" ->
             role_of userId db = Some RoleAdmin ->
             forall project,
               fst (getProject id db) = Returned (Some project) ->
               project_status project = ProjectPending ->
               pending = pendingProjects stats - 1)).
Proof.
  unfold adminStats, getAdminStats. unfold_storage. cbn [fst].
  intros [= <-]. cbn [totalUsers totalCompanies totalProjects pendingCompanies
                        pendingProjects totalPayouts].
  assert (Hsub : forall A (sel : A -> bool) l,
             0 <= count sel l <= count (fun _ => true) l).
  { intros A sel l. unfold count. split; [lia|].
    apply Nat2Z.inj_le. rewrite (filter_length_le sel l).
    clear. induction l; cbn; lia. }
  split; [split; apply Hsub|].
  set (offC := set_company (statusUpdate (if truthy_bool approved then CompanyApproved
                                          else CompanyRejected)) now).
  set (offP := set_project (projectStatusUpdate (if truthy_bool approved
                                                 then ProjectActive
                                                 else ProjectCancelled)) now).
  assert (HoffC : forall c, companyStatus_eqb (company_status (offC c)) CompanyPending
                            = false)
    by (intros c; subst offC; cbn; now destruct (truthy_bool approved)).
  assert (HoffP : forall p, projectStatus_eqb (project_status (offP p)) ProjectPending
                            = false)
    by (intros p; subst offP; cbn; now destruct (truthy_bool approved)).
  assert (Hall : forall A (sel : A -> bool) (f : A -> A) l,
             count (fun _ => true) (update_where sel f l) = count (fun _ => true) l).
  { intros A sel f l. unfold count. f_equal.
    now apply filter_update_where_length. }
  split.
  - exists (count (fun c => companyStatus_eqb (company_status c) CompanyPending)
                  (companies (after (post_admin_company_review userId id approved now)
                                    db))).
    split; [|split].
    + destruct (post_admin_company_review_run userId id approved now db) as [->| ->];
        cbn [users companies projects payments]; [reflexivity|].
      now rewrite Hall.
    + destruct (post_admin_company_review_run userId id approved now db) as [->| ->];
        cbn [companies]; unfold count; split; try lia.
      apply Nat2Z.inj_le. now apply filter_update_where_le.
    + intros (_ & Kc & _) Hne Hrole company Hc Hpending.
      cbn in Hc. injection Hc as Hc.
      unfold after, post_admin_company_review.
      rewrite requireRole_admin by assumption.
      unfold try_catch, bind, ret. rewrite updateCompany_statusUpdate, Hc.
      cbn [fst snd companies]. unfold count.
      rewrite <- (filter_update_where_one company_id id _ offC _ company Kc Hc);
        [subst offC; lia | now rewrite Hpending | exact HoffC].
  - exists (count (fun p => projectStatus_eqb (project_status p) ProjectPending)
                  (projects (after (post_admin_project_review userId id approved now)
                                   db))).
    split; [|split].
    + destruct (post_admin_project_review_run userId id approved now db) as [->| ->];
        cbn [users companies projects payments]; [reflexivity|].
      now rewrite Hall.
    + destruct (post_admin_project_review_run userId id approved now db) as [->| ->];
        cbn [projects]; unfold count; split; try lia.
      apply Nat2Z.inj_le. now apply filter_update_where_le.
    + intros (_ & _ & Kp & _) Hne Hrole project Hp Hpending.
      cbn in Hp. injection Hp as Hp.
      unfold after, post_admin_project_review.
      rewrite requireRole_admin by assumption.
      unfold try_catch, bind, ret. rewrite updateProject_statusUpdate, Hp.
      cbn [fst snd projects]. unfold count.
      rewrite <- (filter_update_where_one project_id id _ offP _ project Kp Hp);
        [subst offP; lia | now rewrite Hpending | exact HoffP].
Qed.

(** ** The profile update, from the request to the lookup *)


(** ** The further properties on the run *)

Ltac concrete_consistent :=
  unfold consistent, keys_unique, references_resolve; vm_compute;
  repeat split; repeat constructor; cbn; intuition discriminate.


Lemma review_frame_witness :
  users (after approve submitted) = users submitted
  /\ companies (after approve submitted) = companies submitted
  /\ projects (after approve submitted) = projects submitted.
Proof.
  destruct (review_frame "owner" "s1"
              (mkReviewBody (Value true) (Value 5) (Value "great"))
              "r1" "pay1" 6 submitted) as (Hu & Hc & Hp & _).
  repeat split; assumption.
Defined.


Lemma review_writes_status_first_witness :
  (exists submission',
      fst (getSubmission "s1" (after reject submitted)) = Returned (Some submission')
      /\ submission_status submission' = SubmissionRejected
      /\ submission_feedback submission' = Some "no")
  /\ review "owner" false Undefined (Value (String Ascii.zero "no")) "r1" "pay1" 6
       submitted
     = (Status 500 "Failed to review submission", submitted).
Proof.
  assert (Hrows : exists company submission project,
             fst (getCompanyByUserId "owner" submitted) = Returned (Some company)
             /\ fst (getSubmission "s1" submitted) = Returned (Some submission)
             /\ fst (getProject (submission_projectId submission) submitted)
                = Returned (Some project)
             /\ project_companyId project = company_id company)
    by (do 3 eexists; repeat split; vm_compute; reflexivity).
  destruct Hrows as (company & submission & project & Hc & Hs & Hp & Hown).
  split.
  - destruct (proj1 (review_writes_status_first "owner" "s1"
                       (mkReviewBody (Value false) Undefined (Value "no"))
                       "r1" "pay1" 6 submitted company submission project
                       Hc Hs Hp Hown) eq_refl)
      as (s' & Hs' & Hstatus & Hfeedback & _).
    exists s'. repeat split; assumption.
  - exact (proj2 (review_writes_status_first "owner" "s1"
                    (mkReviewBody (Value false) Undefined
                       (Value (String Ascii.zero "no")))
                    "r1" "pay1" 6 submitted company submission project
                    Hc Hs Hp Hown) eq_refl).
Defined.

Lemma keys_and_references_kept_witness :
  consistent submitted
  /\ consistent (happen_all first_days submitted).
Proof.
  assert (H : consistent submitted) by concrete_consistent.
  split; [exact H|].
  exact (proj1 (keys_and_references_kept first_days submitted) H).
Defined.

Lemma one_company_and_one_submission_kept_witness :
  looked_before_insert emptyDatabase
  /\ looked_before_insert (happen_all first_days emptyDatabase).
Proof.
  assert (H : looked_before_insert emptyDatabase)
    by (split; [intros u | intros p c]; cbn; lia).
  split; [exact H|].
  exact (proj1 (one_company_and_one_submission_kept first_days emptyDatabase) H).
Defined.

Lemma second_company_refused_witness :
  owns_company "owner" with_company
  /\ post_company_profile "owner" (companyBody (Value "B")) "c2" 9
       (happen_all [Call (PostAdminCompanyReview "admin" "c1" (Value false) 2)]
                   with_company)
     = (Status 400 "You already have a company profile",
        happen_all [Call (PostAdminCompanyReview "admin" "c1" (Value false) 2)]
                   with_company).
Proof.
  assert (H : owns_company "owner" with_company)
    by (unfold owns_company; vm_compute; discriminate).
  split; [exact H|].
  exact (proj2 (second_company_refused
                  [Call (PostAdminCompanyReview "admin" "c1" (Value false) 2)]
                  "owner" (companyBody (Value "B")) "c2" 9 with_company H)).
Defined.

Lemma role_changes_only_by_company_creation_witness :
  role_of "admin"
    (snd (handle (PostCompanyProject "admin" projectBody "p9" 9) registered))
  = Some RoleAdmin
  /\ role_of "admin" registered = Some RoleAdmin.
Proof.
  assert (H : role_of "admin"
                (snd (handle (PostCompanyProject "admin" projectBody "p9" 9)
                        registered))
              = Some RoleAdmin) by (vm_compute; reflexivity).
  split; [exact H|].
  exact (proj2 (role_changes_only_by_company_creation
                  (PostCompanyProject "admin" projectBody "p9" 9) "admin" registered)
           H).
Defined.

Lemma candidate_stats_bounds_witness :
  exists stats,
    candidateStats "cand" settled = Some stats
    /\ 0 <= completedProjects stats <= totalSubmissions stats
    /\ (inject_Z 1 <= averageRating stats <= inject_Z 5)%Q.
Proof.
  eexists. split; [vm_compute; reflexivity|].
  match goal with
  | |- 0 <= completedProjects ?s <= _ /\ _ =>
      destruct (candidate_stats_bounds "cand" settled s 1 5) as [Hcount Havg]
  end.
  - vm_compute. reflexivity.
  - split; [exact Hcount|]. apply Havg.
    + vm_compute. discriminate.
    + vm_compute. repeat constructor; discriminate.
Defined.

Lemma approval_adds_to_earnings_witness :
  option_map totalEarnings (candidateStats "cand" submitted) = Some 0
  /\ option_map totalEarnings (candidateStats "cand" (after approve submitted))
     = Some 25000
  /\ option_map totalEarnings (candidateStats "owner" (after approve submitted))
     = option_map totalEarnings (candidateStats "owner" submitted).
Proof.
  assert (Hbefore : option_map totalEarnings (candidateStats "cand" submitted) = Some 0)
    by (vm_compute; reflexivity).
  split; [exact Hbefore|].
  assert (Hrows : exists s p,
             fst (getSubmission "s1" submitted) = Returned (Some s)
             /\ fst (getProject (submission_projectId s) submitted) = Returned (Some p)
             /\ submission_candidateId s = "cand"%string
             /\ project_payment p = 25000).
  { do 2 eexists. split; [vm_compute; reflexivity|].
    split; [vm_compute; reflexivity|]. split; reflexivity. }
  destruct Hrows as (s & p & Hs & Hp & Hcand & Hpay).
  assert (Hok : response approve submitted = Json JSuccess)
    by (vm_compute; reflexivity).
  pose proof (approval_adds_to_earnings "owner" "s1"
                (mkReviewBody (Value true) (Value 5) (Value "great"))
                "r1" "pay1" 6 submitted s p Hok eq_refl Hs Hp) as H.
  rewrite Hcand, Hpay in H.
  split.
  - unfold approve, review. rewrite (H "cand"), Hbefore. reflexivity.
  - unfold approve, review. rewrite (H "owner").
    now destruct (option_map totalEarnings (candidateStats "owner" submitted)).
Defined.

Lemma company_creation_in_admin_stats_witness :
  adminStats registered = Some (mkAdminStats 3 0 0 0 0 0)
  /\ adminStats (after (create_company (Value "A")) registered)
     = Some (mkAdminStats 3 1 0 1 0 0).
Proof.
  assert (H : adminStats registered = Some (mkAdminStats 3 0 0 0 0 0))
    by (vm_compute; reflexivity).
  split; [exact H|].
  eapply (company_creation_in_admin_stats "owner" (companyBody (Value "A")) "c1" 1
            registered _ (mkAdminStats 3 0 0 0 0 0)).
  - vm_compute. reflexivity.
  - exact H.
Defined.

Lemma active_projects_listing_witness :
  consistent submitted
  /\ exists l,
       get_projects submitted = (Sent l, submitted)
       /\ Forall (fun pc => exists c, snd pc = Some c
                                      /\ company_id c = project_companyId (fst pc)) l.
Proof.
  assert (H : consistent submitted) by concrete_consistent.
  split; [exact H|].
  destruct (active_projects_listing submitted) as (l & Hl & _ & _ & _ & Hc).
  exists l. split; [exact Hl | exact (Hc H)].
Defined.

Lemma my_submission_round_trip_witness :
  (exists s, response submit project_active = Json (JSubmission s)
             /\ fst (get_my_submission "cand" "p1" (after submit project_active))
                = Sent s)
  /\ get_my_submission "cand" "p1" project_active
     = (Refused 404 "No submission found", project_active).
Proof.
  assert (Hok : exists s, response submit project_active = Json (JSubmission s))
    by (eexists; vm_compute; reflexivity).
  destruct Hok as [s Hok].
  destruct (proj2 (my_submission_round_trip "cand" "p1" submissionBody "s1" 5
                     project_active) s Hok) as [Hbefore Hafter].
  split; [exists s; split; assumption | exact Hbefore].
Defined.

Lemma admin_routes_turn_others_away_witness :
  role_of "cand" settled <> Some RoleAdmin
  /\ get_admin_payments_recent "cand" settled
     = (Refused 403 "Insufficient permissions", settled)
  /\ post_admin_company_review "cand" "c1" (Value false) 9 settled
     = (Status 403 "Insufficient permissions", settled).
Proof.
  assert (H : role_of "cand" settled <> Some RoleAdmin)
    by (vm_compute; discriminate).
  split; [exact H|].
  destruct (admin_routes_turn_others_away "cand" settled H)
    as (code & message & _ & Hwrite & _ & _ & _ & Hread).
  destruct (Hwrite "c1" (Value false) 9) as [Hcompany _].
  assert (Hcode : Status code message = Status 403 "Insufficient permissions").
  { assert (Hrun : fst (post_admin_company_review "cand" "c1" (Value false) 9 settled)
                   = Status 403 "Insufficient permissions")
      by (vm_compute; reflexivity).
    rewrite Hcompany in Hrun. exact Hrun. }
  injection Hcode as -> ->. split; assumption.
Defined.

Lemma company_projects_are_own_witness :
  (fst (getCompanyByUserId "cand" submitted) = Returned None
   /\ get_company_projects "cand" submitted
      = (Refused 404 "Company not found", submitted))
  /\ exists company l,
       fst (getCompanyByUserId "owner" submitted) = Returned (Some company)
       /\ get_company_projects "owner" submitted = (Sent l, submitted)
       /\ Forall (fun ps => project_companyId (fst ps) = company_id company) l.
Proof.
  split.
  - assert (H : fst (getCompanyByUserId "cand" submitted) = Returned None)
      by (vm_compute; reflexivity).
    split; [exact H|].
    exact (proj1 (company_projects_are_own "cand" submitted) H).
  - assert (Hc : exists company,
               fst (getCompanyByUserId "owner" submitted) = Returned (Some company))
      by (eexists; vm_compute; reflexivity).
    destruct Hc as [company Hc]. exists company.
    destruct (proj2 (company_projects_are_own "owner" submitted) company Hc)
      as (l & Hl & _ & _ & Hall).
    exists l. split; [exact Hc|]. split; [exact Hl|].
    eapply Forall_impl; [|exact Hall]. intros ps Hps. exact (proj1 Hps).
Defined.

Lemma candidate_submissions_are_own_witness :
  consistent settled
  /\ exists l,
       get_candidate_submissions "cand" settled = (Sent l, settled)
       /\ Forall (fun sp => submission_candidateId (fst sp) = "cand"%string) l
       /\ Forall (fun sp =>
                    exists p c,
                      snd sp = Some (p, Some (company_name c))
                      /\ project_id p = submission_projectId (fst sp)
                      /\ company_id c = project_companyId p) l.
Proof.
  assert (H : consistent settled) by concrete_consistent.
  split; [exact H|].
  destruct (candidate_submissions_are_own "cand" settled)
    as (l & Hl & _ & _ & Hall & Hthere).
  exists l. split; [exact Hl|]. split; [|exact (Hthere H)].
  eapply Forall_impl; [|exact Hall]. intros sp Hsp. exact (proj1 Hsp).
Defined.

Lemma project_listed_after_approval_witness :
  exists p,
    response post_project company_approved = Json (JProject p)
    /\ In p (listed getPendingProjects (after post_project company_approved))
    /\ In (set_project (projectStatusUpdate ProjectActive) 4 p)
          (listed getActiveProjects
             (after (post_admin_project_review "admin" "p1" (Value true) 4)
                    (after post_project company_approved))).
Proof.
  assert (Hok : exists p, response post_project company_approved = Json (JProject p))
    by (eexists; vm_compute; reflexivity).
  destruct Hok as [p Hok]. exists p. split; [exact Hok|].
  destruct (project_listed_after_approval "owner" projectBody "p1" 3
              company_approved p "admin" 4 Hok) as [(_ & Hpending & _) Happroved].
  split; [exact Hpending|].
  apply Happroved.
  - discriminate.
  - vm_compute. reflexivity.
Defined.


Lemma submission_creation_outcome_witness :
  exists project s,
    fst (getProject "p1" project_active) = Returned (Some project)
    /\ project_status project = ProjectActive
    /\ fst (getSubmissionByProjectAndCandidate "p1" "cand" project_active)
       = Returned None
    /\ response submit project_active = Json (JSubmission s)
    /\ submission_content s = "done"%string
    /\ submission_status s = SubmissionPending
    /\ post_project_submissions "cand" "p1"
         (mkSubmissionBody (Value (String "a" (String Ascii.zero "b"))) Undefined)
         "s1" 5 project_active
       = (Status 500 "Failed to create submission", project_active).
Proof.
  assert (Hp : exists project,
             fst (getProject "p1" project_active) = Returned (Some project)
             /\ project_status project = ProjectActive)
    by (eexists; split; vm_compute; reflexivity).
  destruct Hp as (project & Hp & Hactive).
  assert (Hnone : fst (getSubmissionByProjectAndCandidate "p1" "cand" project_active)
                  = Returned None) by (vm_compute; reflexivity).
  destruct (submission_creation_outcome "cand" "p1" submissionBody "s1" 5
              project_active project Hp Hactive Hnone) as (Hsucceeds & Hrow & _).
  destruct Hsucceeds as [s Hs].
  { split; [reflexivity|]. split; [exists "done"%string; reflexivity|].
    split; vm_compute; reflexivity. }
  exists project, s. do 4 (split; [assumption|]).
  destruct (Hrow s Hs) as (content & _ & Hcontent & _ & _ & ->).
  injection Hcontent as <-. do 2 (split; [reflexivity|]).
  destruct (proj2 (proj2 (submission_creation_outcome "cand" "p1"
                            (mkSubmissionBody
                               (Value (String "a" (String Ascii.zero "b")))
                               Undefined)
                            "s1" 5 project_active project Hp Hactive Hnone)))
    as [Hresp Hdb].
  { intros q Hq. vm_compute in Hq. discriminate Hq. }
  unfold response, after in Hresp, Hdb.
  rewrite (surjective_pairing (post_project_submissions _ _ _ _ _ _)).
  now rewrite Hresp, Hdb.
Defined.

Lemma company_review_decides_posting_witness :
  exists company,
    fst (getCompanyByUserId "owner" with_company) = Returned (Some company)
    /\ "admin" <> ""%string
    /\ role_of "admin" with_company = Some RoleAdmin
    /\ post_company_projects "owner" projectBody "p1" 3
         (after (post_admin_company_review "admin" (company_id company)
                   (Value false) 2) with_company)
       = (Status 403 "Company must be approved to post projects",
          after (post_admin_company_review "admin" (company_id company)
                   (Value false) 2) with_company).
Proof.
  assert (Hc : exists company,
             fst (getCompanyByUserId "owner" with_company) = Returned (Some company))
    by (eexists; vm_compute; reflexivity).
  destruct Hc as (company & Hc). exists company.
  assert (Hsub : "admin" <> ""%string) by discriminate.
  assert (Hrole : role_of "admin" with_company = Some RoleAdmin)
    by (vm_compute; reflexivity).
  do 3 (split; [assumption|]).
  exact (proj1 (company_review_decides_posting "admin" "owner" (Value false) 2
                  with_company company projectBody "p1" 3 Hsub Hrole Hc) eq_refl).
Defined.

Lemma upsert_then_get_witness :
  exists u,
    fst (upsertUser "u0" 7
           (mkUpsertUser (Value "owner") (Value "o@example.org") Undefined
              Undefined Undefined Undefined Undefined Undefined Undefined
              Undefined Undefined Undefined) settled) = Returned u
    /\ user_id u = "owner"%string
    /\ user_role u = RoleCompany
    /\ user_email u = Some "o@example.org"%string.
Proof.
  assert (Hu : exists u,
             fst (upsertUser "u0" 7
                    (mkUpsertUser (Value "owner") (Value "o@example.org") Undefined
                       Undefined Undefined Undefined Undefined Undefined Undefined
                       Undefined Undefined Undefined) settled) = Returned u)
    by (eexists; vm_compute; reflexivity).
  destruct Hu as [u Hu]. exists u. split; [exact Hu|].
  destruct (upsert_then_get _ _ _ _ _ Hu) as (_ & Hid & Hold & _).
  cbn in Hid. split; [exact Hid|].
  assert (Hfound : exists old, fst (getUser (user_id u) settled) = Returned (Some old)
                               /\ user_role old = RoleCompany)
    by (rewrite Hid; eexists; split; vm_compute; reflexivity).
  destruct Hfound as (old & Hfound & Hrole).
  destruct (Hold old Hfound) as [Hrow Hkeep].
  split; [rewrite (Hkeep eq_refl); exact Hrole|].
  rewrite Hrow. reflexivity.
Defined.

Lemma payments_stay_settled_witness :
  payments_settled settled
  /\ payments_settled
       (happen_all [Call (PostSubmissionReview "owner" "s1"
                            (mkReviewBody (Value true) (Value 4) (Value "again"))
                            "r2" "pay2" 7);
                    Call (PostAdminProjectReview "admin" "p1" (Value false) 8)]
                   settled).
Proof.
  assert (H : payments_settled settled).
  { unfold payments_settled. vm_compute payments. repeat constructor;
      try discriminate.
    do 2 eexists. repeat split; vm_compute; reflexivity. }
  split; [exact H|].
  exact (proj1 (payments_stay_settled _ settled) H).
Defined.

Lemma pending_companies_queue_witness :
  "admin" <> ""%string
  /\ role_of "admin" with_company = Some RoleAdmin
  /\ (exists l,
         get_admin_companies_pending "admin" with_company = (Sent l, with_company)
         /\ List.length l = 1%nat)
  /\ exists l',
       get_admin_companies_pending "admin" company_approved
       = (Sent l', company_approved)
       /\ Forall (fun cu => company_id (fst cu) <> "c1"%string) l'.
Proof.
  assert (Hsub : "admin" <> ""%string) by discriminate.
  assert (Hrole : role_of "admin" with_company = Some RoleAdmin)
    by (vm_compute; reflexivity).
  do 2 (split; [assumption|]).
  destruct (pending_companies_queue "admin" with_company Hsub Hrole)
    as [(l & Hl & Hperm & _) Hlater].
  split.
  - exists l. split; [exact Hl|].
    apply Permutation_length in Hperm. rewrite length_map in Hperm.
    rewrite Hperm. vm_compute. reflexivity.
  - exact (Hlater "c1"%string (Value true) 2).
Defined.

Lemma recent_payments_listing_witness :
  exists l,
    get_admin_payments_recent "admin" settled = (Sent l, settled)
    /\ List.length l = 1%nat.
Proof.
  assert (Hsub : "admin" <> ""%string) by discriminate.
  assert (Hrole : role_of "admin" settled = Some RoleAdmin)
    by (vm_compute; reflexivity).
  destruct (recent_payments_listing "admin" settled Hsub Hrole)
    as (l & all & Hl & _ & _ & _ & Hlen & _).
  exists l. split; [exact Hl|]. rewrite Hlen. vm_compute. reflexivity.
Defined.


Lemma admin_review_in_admin_stats_witness :
  adminStats with_company = Some (mkAdminStats 3 1 0 1 0 0)
  /\ adminStats company_approved = Some (mkAdminStats 3 1 0 0 0 0).
Proof.
  assert (Hstats : adminStats with_company = Some (mkAdminStats 3 1 0 1 0 0))
    by (vm_compute; reflexivity).
  split; [exact Hstats|].
  assert (Hkeys : keys_unique with_company).
  { assert (H : consistent with_company) by concrete_consistent. exact (proj1 H). }
  assert (Hc : exists company,
             fst (getCompany "c1" with_company) = Returned (Some company)
             /\ company_status company = CompanyPending)
    by (eexists; split; vm_compute; reflexivity).
  destruct Hc as (company & Hc & Hpending).
  destruct (admin_review_in_admin_stats "admin" "c1" (Value true) 2 with_company
              _ Hstats) as (_ & (pending & Hafter & _ & Hone) & _).
  assert (Hsub : "admin" <> ""%string) by discriminate.
  assert (Hrole : role_of "admin" with_company = Some RoleAdmin)
    by (vm_compute; reflexivity).
  rewrite (Hone Hkeys Hsub Hrole company Hc Hpending) in Hafter.
  exact Hafter.
Defined.

